(** * Job portal: the client-side store and the job normalizer

    A shallow embedding of the two logic-bearing classes of the job
    portal, [JobPortalState] (the domain store: collections, filters,
    sorting, pagination, export and import) and [JobAPI] (the normalizer of
    upstream job records), followed by the properties the specification
    states about them, and by further properties of the store, of the
    client ([JobAPI.fetchJobs] and its cache) and of two functions of the
    interface that only compute over the store ([handleSaveToggle] and the
    page buttons of [renderPaginationControls]).

    Conventions of the embedding:
    - JavaScript strings are [string]s; [toLowerCase] maps the ASCII
      letters, other characters are left as they are.
    - JavaScript numbers that the store handles (salaries, page numbers,
      time values) are exact integers ([Z]) or rationals ([Q]); the
      comparator results, which can be infinite or [NaN], live in [number].
    - An operation that can throw returns a [completion] next to the state
      it leaves behind; the other operations are state transformers.
    - The listeners registered on the store are external: [emit] records
      each notification in the [events] log of the state, oldest first.
    - The objects of the store (jobs, applications, applicant details,
      filters, the backup record) are records with the fields the code
      reads and writes, a partial object having optional fields. The raw
      records of the upstream source are JSON values of any shape
      ([JsValue.value]).
    - The clock and the random source are inputs of the operations that
      read them, and so is what the server answers to a request; a call of
      [fetchJobs] runs to its end before the next one starts.
    - The markup that [renderPaginationControls] writes is kept as the
      list of its controls. *)

From Stdlib Require Import ZArith QArith Qround String Ascii List Bool Lia Lqa.
From Stdlib Require Import Permutation Sorted.
From Stdlib Require Import DecimalString DecimalPos DecimalN DecimalZ.
From stdpp Require Import base option list.
Import ListNotations.

Open Scope string_scope.

(** ** JavaScript strings *)

Module JsString.

Definition lower_ascii (c : ascii) : ascii :=
  let n := nat_of_ascii c in
  if (65 <=? n)%nat && (n <=? 90)%nat then ascii_of_nat (n + 32) else c.

(** [String.prototype.toLowerCase], on the ASCII letters. *)
Fixpoint toLowerCase (s : string) : string :=
  match s with
  | EmptyString => EmptyString
  | String c r => String (lower_ascii c) (toLowerCase r)
  end.

(** [hay.includes(needle)]: [needle] occurs in [hay] at some position. *)
Fixpoint includes (hay needle : string) : bool :=
  if String.prefix needle hay then true
  else match hay with
       | EmptyString => false
       | String _ r => includes r needle
       end.

(** A string is truthy when it is not empty. *)
Definition truthy (s : string) : bool := negb (s =? EmptyString).

(** [ndl] is a substring of [hay]. *)
Definition substring_of (ndl hay : string) : Prop :=
  exists pre post, hay = pre ++ ndl ++ post.

End JsString.

(** ** JavaScript numbers, as far as the sort comparators need them *)

Module JsNumber.

Inductive number : Type :=
| NaN
| NegInfinity
| Finite (q : Q)
| Infinity.

(** [a - b] on numbers. *)
Definition sub (a b : number) : number :=
  match a, b with
  | NaN, _ | _, NaN => NaN
  | Infinity, Infinity => NaN
  | NegInfinity, NegInfinity => NaN
  | Infinity, _ => Infinity
  | NegInfinity, _ => NegInfinity
  | Finite _, Infinity => NegInfinity
  | Finite _, NegInfinity => Infinity
  | Finite x, Finite y => Finite (x - y)
  end.

(** [v > 0]; false for [NaN], which a sort treats as [+0]. *)
Definition is_positive (v : number) : bool :=
  match v with
  | Infinity => true
  | Finite q => if Qlt_le_dec 0 q then true else false
  | NaN | NegInfinity => false
  end.

Definition of_Z (z : Z) : number := Finite (inject_Z z).

(** A number or null is truthy when it is a number other than zero. *)
Definition truthy (v : option Z) : bool :=
  match v with
  | Some z => negb (z =? 0)%Z
  | None => false
  end.

End JsNumber.

(** ** JavaScript arrays *)

Module JsArray.

Section Ops.
Context {A : Type}.

(** [l.findIndex(p)]: the first index whose element satisfies [p];
    [None] stands for [-1]. *)
Fixpoint findIndex (p : A -> bool) (l : list A) : option nat :=
  match l with
  | [] => None
  | x :: r => if p x then Some 0%nat else option_map S (findIndex p r)
  end.

(** [l.find(p)]: the first element that satisfies [p]. *)
Definition find (p : A -> bool) (l : list A) : option A := List.find p l.

(** [l.some(p)]. *)
Definition some (p : A -> bool) (l : list A) : bool := existsb p l.

(** [l.push(x)]. *)
Definition push (l : list A) (x : A) : list A := (l ++ [x])%list.

(** Insertion of [x] in a list ordered by [cmp]: [x] goes before the first
    element it does not have to follow. *)
Fixpoint sort_insert (cmp : A -> A -> JsNumber.number) (x : A) (l : list A)
  : list A :=
  match l with
  | [] => [x]
  | y :: r =>
      if JsNumber.is_positive (cmp x y) then y :: sort_insert cmp x r
      else x :: y :: r
  end.

(** [l.sort(cmp)]: the stable sort of [l], an element [a] staying before
    an element [b] unless [cmp a b > 0]; a [NaN] result counts as [0].
    When [cmp] is a consistent comparator this is the order every engine
    yields; otherwise the language leaves the order to the engine, and the
    result is still a permutation of [l]. *)
Fixpoint sort (cmp : A -> A -> JsNumber.number) (l : list A) : list A :=
  match l with
  | [] => []
  | x :: r => sort_insert cmp x (sort cmp r)
  end.

(** The index [Array.prototype.slice] derives from a relative bound. *)
Definition slice_bound (len rel : Z) : Z :=
  (if rel <? 0 then Z.max (len + rel) 0 else Z.min rel len)%Z.

(** [l.slice(first, last)]. *)
Definition slice (first last : Z) (l : list A) : list A :=
  let len := Z.of_nat (length l) in
  let k := slice_bound len first in
  let final := slice_bound len last in
  take (Z.to_nat (Z.max (final - k) 0)) (drop (Z.to_nat k) l).

End Ops.

(** [l.includes(x)] and [l.indexOf(x)] on an array of strings. *)
Definition includes (l : list string) (x : string) : bool :=
  existsb (String.eqb x) l.

Definition indexOf (l : list string) (x : string) : option nat :=
  findIndex (String.eqb x) l.

End JsArray.

(** ** The data model of the store *)

Module Job.

(** A canonical job record. *)
Record t : Type := mk {
  id : string;
  title : string;
  description : string;
  company : string;
  location : string;
  salary_from : option Z;
  salary_to : option Z;
  employment_type : string;
  application_deadline : option string;
  qualifications : list string;
  contact : string;
  job_category : string;
  is_remote_work : bool;
  number_of_opening : Z;
  created_at : string;
  updated_at : string;
  source : string
}.

(** The object handed to [addJob]: the fields of the job form. *)
Record data : Type := mk_data {
  d_title : string;
  d_company : string;
  d_location : string;
  d_salary_from : option Z;
  d_salary_to : option Z;
  d_employment_type : string;
  d_job_category : string;
  d_description : string;
  d_qualifications : list string;
  d_contact : string;
  d_number_of_opening : Z;
  d_is_remote_work : bool;
  d_application_deadline : option string
}.

(** The object handed to [updateJob]: any subset of the fields of a job;
    [None] is an absent key. *)
Record patch : Type := mk_patch {
  p_id : option string;
  p_title : option string;
  p_description : option string;
  p_company : option string;
  p_location : option string;
  p_salary_from : option (option Z);
  p_salary_to : option (option Z);
  p_employment_type : option string;
  p_application_deadline : option (option string);
  p_qualifications : option (list string);
  p_contact : option string;
  p_job_category : option string;
  p_is_remote_work : option bool;
  p_number_of_opening : option Z;
  p_created_at : option string;
  p_updated_at : option string;
  p_source : option string
}.

(** [{ ...j, ...p, updated_at: now }]. *)
Definition merge (j : t) (p : patch) (now : string) : t :=
  {| id := default (id j) (p_id p);
     title := default (title j) (p_title p);
     description := default (description j) (p_description p);
     company := default (company j) (p_company p);
     location := default (location j) (p_location p);
     salary_from := default (salary_from j) (p_salary_from p);
     salary_to := default (salary_to j) (p_salary_to p);
     employment_type := default (employment_type j) (p_employment_type p);
     application_deadline :=
       default (application_deadline j) (p_application_deadline p);
     qualifications := default (qualifications j) (p_qualifications p);
     contact := default (contact j) (p_contact p);
     job_category := default (job_category j) (p_job_category p);
     is_remote_work := default (is_remote_work j) (p_is_remote_work p);
     number_of_opening := default (number_of_opening j) (p_number_of_opening p);
     created_at := default (created_at j) (p_created_at p);
     updated_at := now;
     source := default (source j) (p_source p) |}.

End Job.

Module Application.

(** What the applicant supplies: name, email and an optional cover letter. *)
Record details : Type := mk_details {
  d_name : string;
  d_email : string;
  d_coverLetter : option string
}.

Record t : Type := mk {
  id : string;
  jobId : string;
  jobTitle : string;
  company : string;
  appliedAt : string;
  status : string;
  name : string;
  email : string;
  coverLetter : option string
}.

Definition with_status (st : string) (a : t) : t :=
  {| id := id a; jobId := jobId a; jobTitle := jobTitle a;
     company := company a; appliedAt := appliedAt a; status := st;
     name := name a; email := email a; coverLetter := coverLetter a |}.

End Application.

Module Filters.

Record t : Type := mk {
  search : string;
  sort : string;
  remoteOnly : bool;
  category : string;
  location : string
}.

(** A partial filter object, as [setFilters] and a backup file carry it. *)
Record partial : Type := mk_partial {
  p_search : option string;
  p_sort : option string;
  p_remoteOnly : option bool;
  p_category : option string;
  p_location : option string
}.

(** [{ ...f, ...p }]. *)
Definition merge (f : t) (p : partial) : t :=
  {| search := default (search f) (p_search p);
     sort := default (sort f) (p_sort p);
     remoteOnly := default (remoteOnly f) (p_remoteOnly p);
     category := default (category f) (p_category p);
     location := default (location f) (p_location p) |}.

(** A complete filter object read as a partial one. *)
Definition to_partial (f : t) : partial :=
  {| p_search := Some (search f); p_sort := Some (sort f);
     p_remoteOnly := Some (remoteOnly f); p_category := Some (category f);
     p_location := Some (location f) |}.

End Filters.

(** What [getPaginationInfo] returns. *)
Module PaginationInfo.

Record t : Type := mk {
  currentPage : Z;
  totalPages : Z;
  totalItems : Z;
  hasPrevPage : bool;
  hasNextPage : bool
}.

End PaginationInfo.

(** The backup record: what [exportData] writes and [importData] reads;
    a field that the record does not carry is [None]. *)
Module Snapshot.

Record t : Type := mk {
  userRole : option string;
  applications : option (list Application.t);
  userJobs : option (list Job.t);
  savedJobs : option (list string);
  theme : option string;
  filters : option Filters.partial;
  exportedAt : option string
}.

End Snapshot.

(** The six durable entries of [localStorage], already decoded. *)
Module Storage.

Inductive key : Type :=
| USER_ROLE | APPLICATIONS | USER_JOBS | FILTERS | SAVED_JOBS | THEME.

Record t : Type := mk {
  user_role : option string;
  applications : option (list Application.t);
  user_jobs : option (list Job.t);
  filters : option Filters.t;
  saved_jobs : option (list string);
  theme : option string
}.

Definition empty : t := mk None None None None None None.

End Storage.

(** The errors the store throws: [new Error(message)]. *)
Inductive Error : Type := mkError (message : string).

Definition dquote : string := String (ascii_of_nat 34) EmptyString.

Definition InvalidRole : Error :=
  mkError ("Invalid role. Must be " ++ dquote ++ "job_seeker" ++ dquote
           ++ " or " ++ dquote ++ "recruiter" ++ dquote).
Definition DuplicateApplication : Error :=
  mkError "You have already applied for this job".
Definition JobNotFound : Error := mkError "Job not found".

(** How a call ends: with a value, or with a thrown error. *)
Inductive completion (A : Type) : Type :=
| Normal (a : A)
| Throw (e : Error).
Arguments Normal {A} a.
Arguments Throw {A} e.

(** The notifications of the store, with their payloads. *)
Inductive Event : Type :=
| roleChanged (role : string)
| themeChanged (theme : string)
| jobsUpdated (filteredJobs : list Job.t)
| jobAdded (job : Job.t)
| jobUpdated (job : option Job.t)
| jobDeleted (jobId : string)
| applicationSubmitted (application : Application.t)
| applicationUpdated (application : Application.t)
| jobSaved (jobId : string)
| jobUnsaved (jobId : string)
| filtersChanged (filters : Filters.t)
| pageChanged (info : PaginationInfo.t)
| dataCleared
| dataImported (data : Snapshot.t).

(** What the store asks of the browser: the time value of a date string
    ([None] for an invalid date) and whether [localStorage.setItem]
    accepts a write. *)
Class Runtime : Type := {
  Date_getTime : string -> option Z;
  setItem_accepts : Storage.key -> Storage.t -> bool
}.

(** ** The store: [JobPortalState] *)

Module JobPortalState.

(** The fields of a [JobPortalState] object, the storage it writes to and
    the notifications it has emitted so far. *)
Record State : Type := mkState {
  userRole : string;
  applications : list Application.t;
  userJobs : list Job.t;
  savedJobs : list string;
  theme : string;
  filters : Filters.t;
  currentPage : Z;
  allJobs : list Job.t;
  filteredJobs : list Job.t;
  localStorage : Storage.t;
  events : list Event
}.

Definition set_userRole (v : string) (s : State) : State :=
  mkState v (applications s) (userJobs s) (savedJobs s) (theme s) (filters s)
    (currentPage s) (allJobs s) (filteredJobs s) (localStorage s) (events s).
Definition set_applications (v : list Application.t) (s : State) : State :=
  mkState (userRole s) v (userJobs s) (savedJobs s) (theme s) (filters s)
    (currentPage s) (allJobs s) (filteredJobs s) (localStorage s) (events s).
Definition set_userJobs (v : list Job.t) (s : State) : State :=
  mkState (userRole s) (applications s) v (savedJobs s) (theme s) (filters s)
    (currentPage s) (allJobs s) (filteredJobs s) (localStorage s) (events s).
Definition set_savedJobs (v : list string) (s : State) : State :=
  mkState (userRole s) (applications s) (userJobs s) v (theme s) (filters s)
    (currentPage s) (allJobs s) (filteredJobs s) (localStorage s) (events s).
Definition set_theme (v : string) (s : State) : State :=
  mkState (userRole s) (applications s) (userJobs s) (savedJobs s) v (filters s)
    (currentPage s) (allJobs s) (filteredJobs s) (localStorage s) (events s).
Definition set_filters (v : Filters.t) (s : State) : State :=
  mkState (userRole s) (applications s) (userJobs s) (savedJobs s) (theme s) v
    (currentPage s) (allJobs s) (filteredJobs s) (localStorage s) (events s).
Definition set_currentPage (v : Z) (s : State) : State :=
  mkState (userRole s) (applications s) (userJobs s) (savedJobs s) (theme s)
    (filters s) v (allJobs s) (filteredJobs s) (localStorage s) (events s).
Definition set_allJobs (v : list Job.t) (s : State) : State :=
  mkState (userRole s) (applications s) (userJobs s) (savedJobs s) (theme s)
    (filters s) (currentPage s) v (filteredJobs s) (localStorage s) (events s).
Definition set_filteredJobs (v : list Job.t) (s : State) : State :=
  mkState (userRole s) (applications s) (userJobs s) (savedJobs s) (theme s)
    (filters s) (currentPage s) (allJobs s) v (localStorage s) (events s).
Definition set_localStorage (v : Storage.t) (s : State) : State :=
  mkState (userRole s) (applications s) (userJobs s) (savedJobs s) (theme s)
    (filters s) (currentPage s) (allJobs s) (filteredJobs s) v (events s).
Definition set_events (v : list Event) (s : State) : State :=
  mkState (userRole s) (applications s) (userJobs s) (savedJobs s) (theme s)
    (filters s) (currentPage s) (allJobs s) (filteredJobs s) (localStorage s) v.

Definition defaultFilters : Filters.t :=
  {| Filters.search := EmptyString; Filters.sort := "newest";
     Filters.remoteOnly := false; Filters.category := EmptyString;
     Filters.location := EmptyString |}.

Definition itemsPerPage : Z := 9.

(** [emit(event, data)]: every listener of the event is called with the
    payload; the log keeps what was emitted. *)
Definition emit (e : Event) (s : State) : State :=
  set_events (events s ++ [e])%list s.

Section WithRuntime.
Context `{Runtime}.

(** [saveToStorage(key, data)]: the entry is written when the browser
    accepts the write; a refused write is logged and swallowed. *)
Definition saveToStorage (k : Storage.key) (s : State) : State :=
  let st := localStorage s in
  if setItem_accepts k st then
    set_localStorage
      match k with
      | Storage.USER_ROLE =>
          Storage.mk (Some (userRole s)) (Storage.applications st)
            (Storage.user_jobs st) (Storage.filters st) (Storage.saved_jobs st)
            (Storage.theme st)
      | Storage.APPLICATIONS =>
          Storage.mk (Storage.user_role st) (Some (applications s))
            (Storage.user_jobs st) (Storage.filters st) (Storage.saved_jobs st)
            (Storage.theme st)
      | Storage.USER_JOBS =>
          Storage.mk (Storage.user_role st) (Storage.applications st)
            (Some (userJobs s)) (Storage.filters st) (Storage.saved_jobs st)
            (Storage.theme st)
      | Storage.FILTERS =>
          Storage.mk (Storage.user_role st) (Storage.applications st)
            (Storage.user_jobs st) (Some (filters s)) (Storage.saved_jobs st)
            (Storage.theme st)
      | Storage.SAVED_JOBS =>
          Storage.mk (Storage.user_role st) (Storage.applications st)
            (Storage.user_jobs st) (Storage.filters st) (Some (savedJobs s))
            (Storage.theme st)
      | Storage.THEME =>
          Storage.mk (Storage.user_role st) (Storage.applications st)
            (Storage.user_jobs st) (Storage.filters st) (Storage.saved_jobs st)
            (Some (theme s))
      end s
  else s.

(** [getFromStorage(key) || fallback] on a string entry. *)
Definition stored_string (v : option string) (fallback : string) : string :=
  match v with
  | Some x => if JsString.truthy x then x else fallback
  | None => fallback
  end.

(** [init()]: the fields are read back from storage, with their defaults;
    the page is 1 and no job is loaded. *)
Definition init (s : State) : State :=
  let st := localStorage s in
  {| userRole := stored_string (Storage.user_role st) "job_seeker";
     applications := default [] (Storage.applications st);
     userJobs := default [] (Storage.user_jobs st);
     savedJobs := default [] (Storage.saved_jobs st);
     theme := stored_string (Storage.theme st) "light";
     filters := default defaultFilters (Storage.filters st);
     currentPage := 1;
     allJobs := [];
     filteredJobs := [];
     localStorage := st;
     events := events s |}.

(** [new JobPortalState()] over a given content of [localStorage]. *)
Definition new (st : Storage.t) : State :=
  init {| userRole := EmptyString; applications := []; userJobs := [];
          savedJobs := []; theme := EmptyString; filters := defaultFilters;
          currentPage := 1; allJobs := []; filteredJobs := [];
          localStorage := st; events := [] |}.

(** *** Filtering and sorting *)

(** The test of the search filter: the lowercased term occurs in the
    lowercased title, company or description. *)
Definition searchHit (searchTerm : string) (job : Job.t) : bool :=
  JsString.includes (JsString.toLowerCase (Job.title job)) searchTerm
  || JsString.includes (JsString.toLowerCase (Job.company job)) searchTerm
  || JsString.includes (JsString.toLowerCase (Job.description job)) searchTerm.

(** The test of the location filter. *)
Definition locationHit (loc : string) (job : Job.t) : bool :=
  JsString.includes (JsString.toLowerCase (Job.location job))
    (JsString.toLowerCase loc).

(** [new Date(s)] as a number: its time value, [NaN] for an invalid date. *)
Definition dateNumber (s : string) : JsNumber.number :=
  match Date_getTime s with
  | Some t => JsNumber.of_Z t
  | None => JsNumber.NaN
  end.

(** [j.salary_from && j.salary_to ? (j.salary_from + j.salary_to) / 2 : missing]. *)
Definition avgSalary (missing : JsNumber.number) (j : Job.t) : JsNumber.number :=
  match Job.salary_from j, Job.salary_to j with
  | Some lo, Some hi =>
      if JsNumber.truthy (Some lo) && JsNumber.truthy (Some hi)
      then JsNumber.Finite ((inject_Z lo + inject_Z hi) / 2)
      else missing
  | _, _ => missing
  end.

(** The comparator that [applyFilters] hands to [sort]. *)
Definition compareJobs (sort : string) (a b : Job.t) : JsNumber.number :=
  if sort =? "oldest" then
    JsNumber.sub (dateNumber (Job.created_at a)) (dateNumber (Job.created_at b))
  else if sort =? "salary_high" then
    JsNumber.sub (avgSalary (JsNumber.of_Z 0) b) (avgSalary (JsNumber.of_Z 0) a)
  else if sort =? "salary_low" then
    JsNumber.sub (avgSalary JsNumber.Infinity a) (avgSalary JsNumber.Infinity b)
  else
    JsNumber.sub (dateNumber (Job.created_at b)) (dateNumber (Job.created_at a)).

(** [applyFilters()]: the four filters in turn, then the sort. *)
Definition applyFilters (s : State) : State :=
  let f := filters s in
  let filtered := allJobs s in
  let filtered :=
    if JsString.truthy (Filters.search f)
    then List.filter (searchHit (JsString.toLowerCase (Filters.search f))) filtered
    else filtered in
  let filtered :=
    if Filters.remoteOnly f
    then List.filter Job.is_remote_work filtered else filtered in
  let filtered :=
    if JsString.truthy (Filters.category f)
    then List.filter (fun job => Job.job_category job =? Filters.category f) filtered
    else filtered in
  let filtered :=
    if JsString.truthy (Filters.location f)
    then List.filter (locationHit (Filters.location f)) filtered else filtered in
  set_filteredJobs (JsArray.sort (compareJobs (Filters.sort f)) filtered) s.

(** *** Role and theme *)

Definition setUserRole (role : string) (s : State) : completion unit * State :=
  if negb (role =? "job_seeker") && negb (role =? "recruiter")
  then (Throw InvalidRole, s)
  else (Normal tt,
        emit (roleChanged role)
          (saveToStorage Storage.USER_ROLE (set_userRole role s))).

Definition getUserRole (s : State) : string := userRole s.

Definition setTheme (th : string) (s : State) : State :=
  if negb (th =? "light") && negb (th =? "dark") then s
  else emit (themeChanged th) (saveToStorage Storage.THEME (set_theme th s)).

Definition getTheme (s : State) : string := theme s.

(** *** Jobs *)

Definition setAllJobs (jobs : list Job.t) (s : State) : State :=
  let s := applyFilters (set_allJobs jobs s) in
  emit (jobsUpdated (filteredJobs s)) s.

Definition getAllJobs (s : State) : list Job.t := allJobs s.
Definition getFilteredJobs (s : State) : list Job.t := filteredJobs s.
Definition getUserJobs (s : State) : list Job.t := userJobs s.

(** [addJob(jobData)]; [uid] is the part of the identifier drawn from the
    clock and the random source, [created] and [updated] are the two
    readings of the clock. Returns the job next to the state. *)
Definition addJob (jobData : Job.data) (uid created updated : string) (s : State)
  : Job.t * State :=
  let job :=
    {| Job.id := "user_job_" ++ uid;
       Job.title := Job.d_title jobData;
       Job.description := Job.d_description jobData;
       Job.company := Job.d_company jobData;
       Job.location := Job.d_location jobData;
       Job.salary_from := Job.d_salary_from jobData;
       Job.salary_to := Job.d_salary_to jobData;
       Job.employment_type := Job.d_employment_type jobData;
       Job.application_deadline := Job.d_application_deadline jobData;
       Job.qualifications := Job.d_qualifications jobData;
       Job.contact := Job.d_contact jobData;
       Job.job_category := Job.d_job_category jobData;
       Job.is_remote_work := Job.d_is_remote_work jobData;
       Job.number_of_opening := Job.d_number_of_opening jobData;
       Job.created_at := created;
       Job.updated_at := updated;
       Job.source := "user" |} in
  let s := set_userJobs (JsArray.push (userJobs s) job) s in
  let s := set_allJobs (JsArray.push (allJobs s) job) s in
  let s := saveToStorage Storage.USER_JOBS s in
  let s := applyFilters s in
  let s := emit (jobAdded job) s in
  (job, emit (jobsUpdated (filteredJobs s)) s).

(** [updateJob(jobId, updatedData)]; [now] is the reading of the clock. *)
Definition updateJob (jobId : string) (updatedData : Job.patch) (now : string)
    (s : State) : State :=
  let hasId := fun job : Job.t => Job.id job =? jobId in
  (* Update in user jobs *)
  let '(updatedJob, s) :=
    match JsArray.findIndex hasId (userJobs s) with
    | Some userJobIndex =>
        match userJobs s !! userJobIndex with
        | Some old =>
            let updated := Job.merge old updatedData now in
            (Some updated,
             saveToStorage Storage.USER_JOBS
               (set_userJobs (<[userJobIndex := updated]> (userJobs s)) s))
        | None => (None, s)
        end
    | None => (None, s)
    end in
  (* Update in all jobs *)
  let '(updatedJob, s) :=
    match JsArray.findIndex hasId (allJobs s) with
    | Some allJobIndex =>
        match allJobs s !! allJobIndex with
        | Some old =>
            let updated :=
              match updatedJob with
              | Some u => u
              | None => Job.merge old updatedData now
              end in
            (Some updated, set_allJobs (<[allJobIndex := updated]> (allJobs s)) s)
        | None => (updatedJob, s)
        end
    | None => (updatedJob, s)
    end in
  let s := applyFilters s in
  let s := emit (jobUpdated updatedJob) s in
  emit (jobsUpdated (filteredJobs s)) s.

Definition deleteJob (jobId : string) (s : State) : State :=
  let keep := fun job : Job.t => negb (Job.id job =? jobId) in
  let s := set_userJobs (List.filter keep (userJobs s)) s in
  let s := saveToStorage Storage.USER_JOBS s in
  let s := set_allJobs (List.filter keep (allJobs s)) s in
  let s := applyFilters s in
  let s := emit (jobDeleted jobId) s in
  emit (jobsUpdated (filteredJobs s)) s.

Definition getJobById (jobId : string) (s : State) : option Job.t :=
  JsArray.find (fun job => Job.id job =? jobId) (allJobs s).

(** *** Applications *)

Definition hasApplied (jobId : string) (s : State) : bool :=
  JsArray.some (fun app => Application.jobId app =? jobId) (applications s).

Definition getApplications (s : State) : list Application.t := applications s.

Definition getApplicationsForJob (jobId : string) (s : State)
  : list Application.t :=
  List.filter (fun app => Application.jobId app =? jobId) (applications s).

(** [applyForJob(jobId, applicantDetails)]; [uid] is the part of the
    identifier drawn from the clock and the random source, [now] the
    reading of the clock. *)
Definition applyForJob (jobId : string) (applicantDetails : Application.details)
    (uid now : string) (s : State) : completion Application.t * State :=
  (* Check if already applied *)
  if hasApplied jobId s then (Throw DuplicateApplication, s)
  else
    match JsArray.find (fun j => Job.id j =? jobId) (allJobs s) with
    | None => (Throw JobNotFound, s)
    | Some job =>
        let application :=
          {| Application.id := "app_" ++ uid;
             Application.jobId := jobId;
             Application.jobTitle := Job.title job;
             Application.company := Job.company job;
             Application.appliedAt := now;
             Application.status := "pending";
             Application.name := Application.d_name applicantDetails;
             Application.email := Application.d_email applicantDetails;
             Application.coverLetter :=
               Application.d_coverLetter applicantDetails |} in
        let s := set_applications (JsArray.push (applications s) application) s in
        let s := saveToStorage Storage.APPLICATIONS s in
        (Normal application, emit (applicationSubmitted application) s)
    end.

Definition updateApplicationStatus (applicationId status : string) (s : State)
  : State :=
  match JsArray.findIndex (fun app => Application.id app =? applicationId)
          (applications s) with
  | Some appIndex =>
      match applications s !! appIndex with
      | Some app =>
          let app := Application.with_status status app in
          let s := set_applications (<[appIndex := app]> (applications s)) s in
          let s := saveToStorage Storage.APPLICATIONS s in
          emit (applicationUpdated app) s
      | None => s
      end
  | None => s
  end.

(** *** Saved jobs *)

Definition isJobSaved (jobId : string) (s : State) : bool :=
  JsArray.includes (savedJobs s) jobId.

Definition saveJob (jobId : string) (s : State) : State :=
  if negb (isJobSaved jobId s) then
    let s := set_savedJobs (JsArray.push (savedJobs s) jobId) s in
    let s := saveToStorage Storage.SAVED_JOBS s in
    emit (jobSaved jobId) s
  else s.

Definition unsaveJob (jobId : string) (s : State) : State :=
  match JsArray.indexOf (savedJobs s) jobId with
  | Some index =>
      (* splice(index, 1) *)
      let s := set_savedJobs (delete index (savedJobs s)) s in
      let s := saveToStorage Storage.SAVED_JOBS s in
      emit (jobUnsaved jobId) s
  | None => s
  end.

(** *** Pagination *)

(** [Math.ceil(totalItems / itemsPerPage) || 1]. *)
Definition totalPagesOf (totalItems : Z) : Z :=
  let pages := Qceiling (inject_Z totalItems / inject_Z itemsPerPage) in
  if (pages =? 0)%Z then 1%Z else pages.

Definition getPaginationInfo (s : State) : PaginationInfo.t :=
  let totalItems := Z.of_nat (length (filteredJobs s)) in
  let totalPages := totalPagesOf totalItems in
  {| PaginationInfo.currentPage := currentPage s;
     PaginationInfo.totalPages := totalPages;
     PaginationInfo.totalItems := totalItems;
     PaginationInfo.hasPrevPage := (1 <? currentPage s)%Z;
     PaginationInfo.hasNextPage := (currentPage s <? totalPages)%Z |}.

Definition setPage (page : Z) (s : State) : State :=
  let info := getPaginationInfo s in
  let newPage := Z.max 1 (Z.min page (PaginationInfo.totalPages info)) in
  if negb (currentPage s =? newPage)%Z then
    let s := set_currentPage newPage s in
    emit (pageChanged (getPaginationInfo s)) s
  else s.

Definition getPaginatedJobs (s : State) : list Job.t :=
  let first := ((currentPage s - 1) * itemsPerPage)%Z in
  let last := (first + itemsPerPage)%Z in
  JsArray.slice first last (filteredJobs s).

(** *** Filters *)

Definition setFilters (newFilters : Filters.partial) (s : State) : State :=
  let s := set_currentPage 1 s in
  let s := set_filters (Filters.merge (filters s) newFilters) s in
  let s := saveToStorage Storage.FILTERS s in
  let s := applyFilters s in
  let s := emit (filtersChanged (filters s)) s in
  emit (jobsUpdated (filteredJobs s)) s.

Definition getFilters (s : State) : Filters.t := filters s.

Definition resetFilters (s : State) : State :=
  let s := set_currentPage 1 s in
  let s := set_filters defaultFilters s in
  let s := saveToStorage Storage.FILTERS s in
  let s := applyFilters s in
  let s := emit (filtersChanged (filters s)) s in
  emit (jobsUpdated (filteredJobs s)) s.

(** *** Clearing, export and import *)

Definition clearAllData (s : State) : State :=
  emit dataCleared (init (set_localStorage Storage.empty s)).

(** [exportData()]; [now] is the reading of the clock. *)
Definition exportData (now : string) (s : State) : Snapshot.t :=
  {| Snapshot.userRole := Some (userRole s);
     Snapshot.applications := Some (applications s);
     Snapshot.userJobs := Some (userJobs s);
     Snapshot.savedJobs := Some (savedJobs s);
     Snapshot.theme := Some (theme s);
     Snapshot.filters := Some (Filters.to_partial (filters s));
     Snapshot.exportedAt := Some now |}.

(** [importData(data)]: each field of the record that is present and
    truthy is applied; an exception ends the import with [false]. *)
Definition importData (data : Snapshot.t) (s : State) : bool * State :=
  let attempt :=
    match Snapshot.userRole data with
    | Some role => if JsString.truthy role then setUserRole role s
                   else (Normal tt, s)
    | None => (Normal tt, s)
    end in
  match attempt with
  | (Throw _, s) => (false, s)
  | (Normal _, s) =>
      let s := match Snapshot.theme data with
               | Some th => if JsString.truthy th then setTheme th s else s
               | None => s
               end in
      let s := match Snapshot.applications data with
               | Some l => saveToStorage Storage.APPLICATIONS (set_applications l s)
               | None => s
               end in
      let s := match Snapshot.userJobs data with
               | Some l => saveToStorage Storage.USER_JOBS (set_userJobs l s)
               | None => s
               end in
      let s := match Snapshot.savedJobs data with
               | Some l => saveToStorage Storage.SAVED_JOBS (set_savedJobs l s)
               | None => s
               end in
      let s := match Snapshot.filters data with
               | Some p =>
                   saveToStorage Storage.FILTERS
                     (set_filters (Filters.merge defaultFilters p) s)
               | None => s
               end in
      (true, emit (dataImported data) s)
  end.

(** *** Sessions *)

(** A call on the store, or the page being loaded again ([Reload]: a new
    store is built over what storage holds). *)
Inductive Op : Type :=
| SetUserRole (role : string)
| SetTheme (th : string)
| SetAllJobs (jobs : list Job.t)
| AddJob (jobData : Job.data) (uid created updated : string)
| UpdateJob (jobId : string) (updatedData : Job.patch) (now : string)
| DeleteJob (jobId : string)
| ApplyForJob (jobId : string) (d : Application.details) (uid now : string)
| UpdateApplicationStatus (applicationId status : string)
| SaveJob (jobId : string)
| UnsaveJob (jobId : string)
| SetPage (page : Z)
| SetFilters (newFilters : Filters.partial)
| ResetFilters
| ClearAllData
| ImportData (data : Snapshot.t)
| Reload.

(** The state a call leaves behind. *)
Definition run (op : Op) (s : State) : State :=
  match op with
  | SetUserRole role => snd (setUserRole role s)
  | SetTheme th => setTheme th s
  | SetAllJobs jobs => setAllJobs jobs s
  | AddJob d uid c u => snd (addJob d uid c u s)
  | UpdateJob jobId p now => updateJob jobId p now s
  | DeleteJob jobId => deleteJob jobId s
  | ApplyForJob jobId d uid now => snd (applyForJob jobId d uid now s)
  | UpdateApplicationStatus a st => updateApplicationStatus a st s
  | SaveJob jobId => saveJob jobId s
  | UnsaveJob jobId => unsaveJob jobId s
  | SetPage p => setPage p s
  | SetFilters f => setFilters f s
  | ResetFilters => resetFilters s
  | ClearAllData => clearAllData s
  | ImportData d => snd (importData d s)
  | Reload => new (localStorage s)
  end.

(** The states of the store: a first visit builds it over an empty
    storage, and every call or reload leads to another one. *)
Inductive reachable : State -> Prop :=
| reachable_new : reachable (new Storage.empty)
| reachable_run op s : reachable s -> reachable (run op s).

End WithRuntime.

End JobPortalState.

(** ** JavaScript values, as the upstream source sends them *)

Module JsValue.

(** A value of a decoded JSON document, or [undefined]. A number is an
    exact decimal, [Num m e] standing for [m * 10^e]: the rounding and the
    overflow of doubles are not modelled. Strings hold the bytes of their
    UTF-8 form. The properties of an object are kept in the order the
    document gives them; when a key is repeated the last one counts. *)
#[warnings="-register-all"]
Inductive value : Type :=
| Undefined
| Null
| Bool (b : bool)
| Num (m e : Z)
| Str (s : string)
| Arr (items : list value)
| Obj (props : list (string * value)).

(** An integer as a value. *)
Definition Int (z : Z) : value := Num z 0.

(** The exceptions of the language that the normalizer can meet. *)
Inductive exception : Type :=
| TypeError
| SyntaxError.

Inductive result (A : Type) : Type :=
| Ok (a : A)
| Raise (e : exception).
Arguments Ok {A} a.
Arguments Raise {A} e.

Definition bind {A B : Type} (r : result A) (k : A -> result B) : result B :=
  match r with
  | Ok a => k a
  | Raise e => Raise e
  end.

(** [try { body } catch (e) { handler(e) }]. *)
Definition try_catch {A : Type} (body : result A) (handler : exception -> result A)
  : result A :=
  match body with
  | Ok a => Ok a
  | Raise e => handler e
  end.

Definition truthy (v : value) : bool :=
  match v with
  | Undefined | Null => false
  | Bool b => b
  | Num m _ => negb (m =? 0)%Z
  | Str s => JsString.truthy s
  | Arr _ | Obj _ => true
  end.

(** [a || b]. *)
Definition or (a b : value) : value := if truthy a then a else b.

Definition isArray (v : value) : bool :=
  match v with
  | Arr _ => true
  | _ => false
  end.

(** The last binding of [k] among the properties. *)
Fixpoint lookup (k : string) (props : list (string * value)) : option value :=
  match props with
  | [] => None
  | (k', v) :: r =>
      match lookup k r with
      | Some w => Some w
      | None => if k' =? k then Some v else None
      end
  end.

(** [v.k], for a key [k] that is neither an index nor ["length"]: reading a
    property of [null] or [undefined] throws a [TypeError]; an object
    yields its property, any other value [undefined]. *)
Definition get (v : value) (k : string) : result value :=
  match v with
  | Undefined | Null => Raise TypeError
  | Obj props => Ok (default Undefined (lookup k props))
  | Bool _ | Num _ _ | Str _ | Arr _ => Ok Undefined
  end.

(** *** Numbers to strings *)

Definition digit_char (d : Z) : ascii := ascii_of_nat (48 + Z.to_nat d).

Fixpoint digits_from (fuel : nat) (n : Z) (acc : string) : string :=
  match fuel with
  | O => acc
  | S f =>
      let acc := String (digit_char (n mod 10)) acc in
      if (n / 10 =? 0)%Z then acc else digits_from f (n / 10) acc
  end.

(** The decimal digits of [n >= 0], most significant first. *)
Definition digits (n : Z) : string :=
  digits_from (S (Z.to_nat (Z.log2 n))) n EmptyString.

(** [s] without its trailing zeros, and how many there were. *)
Fixpoint strip_zeros (s : string) : string * nat :=
  match s with
  | EmptyString => (EmptyString, O)
  | String c r =>
      let '(r', z) := strip_zeros r in
      match r' with
      | EmptyString =>
          if Ascii.eqb c "0" then (EmptyString, S z) else (String c EmptyString, z)
      | _ => (String c r', z)
      end
  end.

Fixpoint zeros (n : nat) : string :=
  match n with
  | O => EmptyString
  | S k => String "0" (zeros k)
  end.

(** [Number::toString(m * 10^e)] in radix 10. With [k] significant digits
    and the decimal point after the [n]-th of them: the digits padded with
    zeros when [k <= n <= 21], a decimal point inside them when
    [0 < n <= 21], a leading ["0."] when [-6 < n <= 0], and the exponent
    form otherwise. *)
Definition number_toString (m e : Z) : string :=
  if (m =? 0)%Z then "0"
  else
    let '(ds, t) := strip_zeros (digits (Z.abs m)) in
    let k := Z.of_nat (String.length ds) in
    let n := (k + Z.of_nat t + e)%Z in
    let body :=
      if (k <=? n)%Z && (n <=? 21)%Z then ds ++ zeros (Z.to_nat (n - k))
      else if (0 <? n)%Z && (n <=? 21)%Z then
        substring 0 (Z.to_nat n) ds ++ "."
        ++ substring (Z.to_nat n) (Z.to_nat (k - n)) ds
      else if (-6 <? n)%Z && (n <=? 0)%Z then
        "0." ++ zeros (Z.to_nat (- n)) ++ ds
      else
        let x := (n - 1)%Z in
        let expo := (if (x <? 0)%Z then "-" else "+") ++ digits (Z.abs x) in
        if (k =? 1)%Z then ds ++ "e" ++ expo
        else substring 0 1 ds ++ "." ++ substring 1 (Z.to_nat (k - 1)) ds
             ++ "e" ++ expo in
    if (m <? 0)%Z then "-" ++ body else body.

Definition join_comma (parts : list string) : string :=
  match parts with
  | [] => EmptyString
  | p :: r => fold_left (fun acc q => acc ++ "," ++ q) r p
  end.

(** [String(v)]: an array is its elements joined by commas, [null] and
    [undefined] elements being empty. An object of a JSON document has no
    function among its properties: when it has a property [toString] of
    its own, neither that nor the inherited [valueOf] yields a primitive
    and the conversion throws a [TypeError]; otherwise the inherited
    [toString] gives ["[object Object]"]. *)
Fixpoint toString (v : value) : result string :=
  match v with
  | Undefined => Ok "undefined"
  | Null => Ok "null"
  | Bool true => Ok "true"
  | Bool false => Ok "false"
  | Num m e => Ok (number_toString m e)
  | Str s => Ok s
  | Arr items =>
      bind
        ((fix parts (l : list value) : result (list string) :=
            match l with
            | [] => Ok []
            | x :: r =>
                bind match x with
                     | Undefined | Null => Ok EmptyString
                     | _ => toString x
                     end (fun p =>
                bind (parts r) (fun ps => Ok (p :: ps)))
            end) items)
        (fun ps => Ok (join_comma ps))
  | Obj props =>
      match lookup "toString" props with
      | Some _ => Raise TypeError
      | None => Ok "[object Object]"
      end
  end.

(** *** [parseInt] *)

(** White space and line terminators of one byte: tab, line feed, vertical
    tab, form feed, carriage return and space. *)
Definition is_space (c : ascii) : bool :=
  let n := nat_of_ascii c in
  ((9 <=? n)%nat && (n <=? 13)%nat) || (n =? 32)%nat.

(** Of two bytes: the no-break space U+00A0. *)
Definition is_space2 (c1 c2 : ascii) : bool :=
  (nat_of_ascii c1 =? 194)%nat && (nat_of_ascii c2 =? 160)%nat.

(** Of three bytes: U+1680, U+2000 to U+200A, the line and paragraph
    separators U+2028 and U+2029, U+202F, U+205F, U+3000 and the byte order
    mark U+FEFF. *)
Definition is_space3 (c1 c2 c3 : ascii) : bool :=
  let n1 := nat_of_ascii c1 in
  let n2 := nat_of_ascii c2 in
  let n3 := nat_of_ascii c3 in
  ((n1 =? 225) && (n2 =? 154) && (n3 =? 128))%nat
  || ((n1 =? 226) && (n2 =? 128)
      && (((128 <=? n3) && (n3 <=? 138)) || (n3 =? 168) || (n3 =? 169)
          || (n3 =? 175)))%nat
  || ((n1 =? 226) && (n2 =? 129) && (n3 =? 159))%nat
  || ((n1 =? 227) && (n2 =? 128) && (n3 =? 128))%nat
  || ((n1 =? 239) && (n2 =? 187) && (n3 =? 191))%nat.

(** [s] without the white space and line terminators that start it. *)
Fixpoint trimStart (s : string) : string :=
  match s with
  | String c1 r1 =>
      if is_space c1 then trimStart r1
      else
        match r1 with
        | String c2 r2 =>
            if is_space2 c1 c2 then trimStart r2
            else
              match r2 with
              | String c3 r3 => if is_space3 c1 c2 c3 then trimStart r3 else s
              | EmptyString => s
              end
        | EmptyString => s
        end
  | EmptyString => EmptyString
  end.

(** The value of [c] as a digit of the radix, if it is one. *)
Definition digit_value (radix : Z) (c : ascii) : option Z :=
  let n := Z.of_nat (nat_of_ascii c) in
  let d :=
    if (48 <=? n)%Z && (n <=? 57)%Z then Some (n - 48)%Z
    else if (97 <=? n)%Z && (n <=? 122)%Z then Some (n - 87)%Z
    else if (65 <=? n)%Z && (n <=? 90)%Z then Some (n - 55)%Z
    else None in
  match d with
  | Some x => if (x <? radix)%Z then Some x else None
  | None => None
  end.

(** The value of the longest prefix of [s] made of digits, on top of
    [acc]; [None] when [s] starts with no digit and [seen] is false. *)
Fixpoint leading_digits (radix : Z) (seen : bool) (acc : Z) (s : string)
  : option Z :=
  match s with
  | EmptyString => if seen then Some acc else None
  | String c r =>
      match digit_value radix c with
      | Some d => leading_digits radix true (acc * radix + d) r
      | None => if seen then Some acc else None
      end
  end.

(** [parseInt] on a string, no radix given: the integer that starts the
    string after its white space and an optional sign, in radix 16 after a
    [0x] prefix and 10 otherwise. [None] is [NaN]. *)
Definition parseInt_string (s : string) : option Z :=
  let s := trimStart s in
  let '(sign, s) :=
    match s with
    | String c r =>
        if Ascii.eqb c "-" then ((-1)%Z, r)
        else if Ascii.eqb c "+" then (1%Z, r)
        else (1%Z, s)
    | EmptyString => (1%Z, s)
    end in
  let '(radix, s) :=
    match s with
    | String c (String x r) =>
        if Ascii.eqb c "0" && (Ascii.eqb x "x" || Ascii.eqb x "X")
        then (16%Z, r) else (10%Z, s)
    | _ => (10%Z, s)
    end in
  option_map (Z.mul sign) (leading_digits radix false 0 s).

(** [parseInt(v)]: [parseInt] on the string form of [v]; it throws when
    the conversion to a string does. *)
Definition parseInt (v : value) : result (option Z) :=
  bind (toString v) (fun s => Ok (parseInt_string s)).

(** *** [JSON.parse] *)

Inductive token : Type :=
| TLBrace | TRBrace | TLBracket | TRBracket | TColon | TComma
| TString (s : string)
| TNumber (m e : Z)
| TTrue | TFalse | TNull.

(** The characters a number or a literal name is made of. *)
Definition is_word_char (c : ascii) : bool :=
  let n := nat_of_ascii c in
  ((48 <=? n)%nat && (n <=? 57)%nat) || ((97 <=? n)%nat && (n <=? 122)%nat)
  || ((65 <=? n)%nat && (n <=? 90)%nat)
  || (n =? 43)%nat || (n =? 45)%nat || (n =? 46)%nat.

(** JSON white space: tab, line feed, carriage return, space. *)
Definition is_json_space (c : ascii) : bool :=
  let n := nat_of_ascii c in
  (n =? 9)%nat || (n =? 10)%nat || (n =? 13)%nat || (n =? 32)%nat.

(** A run of decimal digits at the head of [s]: their value on top of
    [acc], how many they are, and what follows. *)
Fixpoint take_digits (acc : Z) (count : nat) (s : string) : Z * nat * string :=
  match s with
  | String c r =>
      match digit_value 10 c with
      | Some d => take_digits (acc * 10 + d) (S count) r
      | None => (acc, count, s)
      end
  | EmptyString => (acc, count, s)
  end.

(** A number of the JSON grammar: an optional minus, an integer part with
    no leading zero, an optional fraction, an optional exponent. *)
Definition number_of_lexeme (s : string) : option (Z * Z) :=
  let '(sign, s) :=
    match s with
    | String "-" r => ((-1)%Z, r)
    | _ => (1%Z, s)
    end in
  let '(int_part, int_len, rest) := take_digits 0 0 s in
  let leading_zero :=
    match s with
    | String "0" _ => negb (int_len =? 1)%nat
    | _ => false
    end in
  if (int_len =? 0)%nat || leading_zero then None
  else
    let frac :=
      match rest with
      | String "." r =>
          let '(m, len, rest) := take_digits int_part 0 r in
          if (len =? 0)%nat then None else Some (m, len, rest)
      | _ => Some (int_part, O, rest)
      end in
    match frac with
    | None => None
    | Some (m, frac_len, rest) =>
        let expo :=
          match rest with
          | String "e" r | String "E" r =>
              let '(esign, r) :=
                match r with
                | String "-" r' => ((-1)%Z, r')
                | String "+" r' => (1%Z, r')
                | _ => (1%Z, r)
                end in
              let '(x, len, rest) := take_digits 0 0 r in
              if (len =? 0)%nat then None else Some ((esign * x)%Z, rest)
          | _ => Some (0%Z, rest)
          end in
        match expo with
        | Some (x, EmptyString) => Some ((sign * m)%Z, (x - Z.of_nat frac_len)%Z)
        | _ => None
        end
    end.

(** The token a run of word characters stands for. *)
Definition token_of_word (w : string) : option token :=
  if w =? "true" then Some TTrue
  else if w =? "false" then Some TFalse
  else if w =? "null" then Some TNull
  else match number_of_lexeme w with
       | Some (m, e) => Some (TNumber m e)
       | None => None
       end.

(** The UTF-8 bytes of a code unit. *)
Definition utf8 (code : nat) : string :=
  if (code <? 128)%nat then String (ascii_of_nat code) EmptyString
  else if (code <? 2048)%nat then
    String (ascii_of_nat (192 + code / 64))
      (String (ascii_of_nat (128 + code mod 64)) EmptyString)
  else
    String (ascii_of_nat (224 + code / 4096))
      (String (ascii_of_nat (128 + (code / 64) mod 64))
         (String (ascii_of_nat (128 + code mod 64)) EmptyString)).

(** Where the lexer stands: between tokens, inside a number or a literal
    name, or inside a string (after a backslash, or inside the four hex
    digits of a [\u] escape). What was read is kept in reverse. *)
Inductive lexer_state : Type :=
| Between
| InWord (rev_word : string)
| InString (rev_chars : string)
| InEscape (rev_chars : string)
| InUnicode (rev_chars : string) (remaining : nat) (code : nat).

Fixpoint rev_append_string (r acc : string) : string :=
  match r with
  | EmptyString => acc
  | String c r' => rev_append_string r' (String c acc)
  end.

Definition unreverse (r : string) : string := rev_append_string r EmptyString.

(** A character met between two tokens. *)
Definition lex_between (c : ascii) (toks : list token)
  : option (lexer_state * list token) :=
  if is_json_space c then Some (Between, toks)
  else if Ascii.eqb c "{" then Some (Between, TLBrace :: toks)
  else if Ascii.eqb c "}" then Some (Between, TRBrace :: toks)
  else if Ascii.eqb c "[" then Some (Between, TLBracket :: toks)
  else if Ascii.eqb c "]" then Some (Between, TRBracket :: toks)
  else if Ascii.eqb c ":" then Some (Between, TColon :: toks)
  else if Ascii.eqb c "," then Some (Between, TComma :: toks)
  else if Ascii.eqb c (ascii_of_nat 34) then Some (InString EmptyString, toks)
  else if is_word_char c then Some (InWord (String c EmptyString), toks)
  else None.

(** The tokens of [s], last first, or [None] when [s] holds something that
    starts no token. *)
Fixpoint lex (st : lexer_state) (toks : list token) (s : string)
  : option (list token) :=
  match s with
  | EmptyString =>
      match st with
      | Between => Some toks
      | InWord w =>
          match token_of_word (unreverse w) with
          | Some t => Some (t :: toks)
          | None => None
          end
      | InString _ | InEscape _ | InUnicode _ _ _ => None
      end
  | String c r =>
      match st with
      | Between =>
          match lex_between c toks with
          | Some (st', toks') => lex st' toks' r
          | None => None
          end
      | InWord w =>
          if is_word_char c then lex (InWord (String c w)) toks r
          else
            match token_of_word (unreverse w) with
            | Some t =>
                match lex_between c (t :: toks) with
                | Some (st', toks') => lex st' toks' r
                | None => None
                end
            | None => None
            end
      | InString acc =>
          if Ascii.eqb c (ascii_of_nat 34)
          then lex Between (TString (unreverse acc) :: toks) r
          else if Ascii.eqb c (ascii_of_nat 92) then lex (InEscape acc) toks r
          else if (nat_of_ascii c <? 32)%nat then None
          else lex (InString (String c acc)) toks r
      | InEscape acc =>
          let plain := fun n => lex (InString (String (ascii_of_nat n) acc)) toks r in
          if Ascii.eqb c (ascii_of_nat 34) then plain 34%nat
          else if Ascii.eqb c (ascii_of_nat 92) then plain 92%nat
          else if Ascii.eqb c "/" then plain 47%nat
          else if Ascii.eqb c "b" then plain 8%nat
          else if Ascii.eqb c "f" then plain 12%nat
          else if Ascii.eqb c "n" then plain 10%nat
          else if Ascii.eqb c "r" then plain 13%nat
          else if Ascii.eqb c "t" then plain 9%nat
          else if Ascii.eqb c "u" then lex (InUnicode acc 4 0) toks r
          else None
      | InUnicode acc remaining code =>
          match digit_value 16 c with
          | Some d =>
              let code := (code * 16 + Z.to_nat d)%nat in
              match remaining with
              | S (S n) => lex (InUnicode acc (S n) code) toks r
              | _ => lex (InString (rev_append_string (utf8 code) acc)) toks r
              end
          | None => None
          end
      end
  end.

(** A container being read: an array with the items read so far, or an
    object with its properties so far and the key whose value is awaited. *)
Inductive frame : Type :=
| InArr (rev_items : list value)
| InObj (rev_props : list (string * value)) (key : string).

(** What the parser awaits, over the stack of open containers. *)
Inductive parser_state : Type :=
| AwaitValue (stack : list frame)
| AwaitValueOrClose (stack : list frame)
| AwaitKeyOrClose (stack : list frame)
| AwaitKey (rev_props : list (string * value)) (stack : list frame)
| AwaitColon (rev_props : list (string * value)) (key : string) (stack : list frame)
| Got (v : value) (stack : list frame).

(** A token that starts a value. *)
Definition open_value (t : token) (stack : list frame) : option parser_state :=
  match t with
  | TString s => Some (Got (Str s) stack)
  | TNumber m e => Some (Got (Num m e) stack)
  | TTrue => Some (Got (Bool true) stack)
  | TFalse => Some (Got (Bool false) stack)
  | TNull => Some (Got Null stack)
  | TLBracket => Some (AwaitValueOrClose stack)
  | TLBrace => Some (AwaitKeyOrClose stack)
  | TRBrace | TRBracket | TColon | TComma => None
  end.

Definition parse_step (st : parser_state) (t : token) : option parser_state :=
  match st with
  | AwaitValue stack => open_value t stack
  | AwaitValueOrClose stack =>
      match t with
      | TRBracket => Some (Got (Arr []) stack)
      | _ => open_value t (InArr [] :: stack)
      end
  | AwaitKeyOrClose stack =>
      match t with
      | TRBrace => Some (Got (Obj []) stack)
      | TString k => Some (AwaitColon [] k stack)
      | _ => None
      end
  | AwaitKey props stack =>
      match t with
      | TString k => Some (AwaitColon props k stack)
      | _ => None
      end
  | AwaitColon props k stack =>
      match t with
      | TColon => Some (AwaitValue (InObj props k :: stack))
      | _ => None
      end
  | Got v (InArr items :: stack) =>
      match t with
      | TComma => Some (AwaitValue (InArr (v :: items) :: stack))
      | TRBracket => Some (Got (Arr (rev (v :: items))) stack)
      | _ => None
      end
  | Got v (InObj props k :: stack) =>
      match t with
      | TComma => Some (AwaitKey ((k, v) :: props) stack)
      | TRBrace => Some (Got (Obj (rev ((k, v) :: props))) stack)
      | _ => None
      end
  | Got _ [] => None
  end.

Fixpoint parse_tokens (st : parser_state) (toks : list token) : option value :=
  match toks with
  | [] =>
      match st with
      | Got v [] => Some v
      | _ => None
      end
  | t :: r =>
      match parse_step st t with
      | Some st' => parse_tokens st' r
      | None => None
      end
  end.

(** [JSON.parse(text)]: the value of the text, or a [SyntaxError]. *)
Definition JSON_parse (text : string) : result value :=
  match lex Between [] text with
  | Some toks =>
      match parse_tokens (AwaitValue []) (rev toks) with
      | Some v => Ok v
      | None => Raise SyntaxError
      end
  | None => Raise SyntaxError
  end.

End JsValue.

(** ** The normalizer: [JobAPI] *)

Module JobAPI.

Import JsValue.

(** A job as the normalizer returns it. *)
Record NormalizedJob : Type := mkJob {
  id : value;
  title : value;
  description : value;
  company : value;
  location : value;
  salary_from : option Z;
  salary_to : option Z;
  employment_type : value;
  application_deadline : option string;
  qualifications : list value;
  contact : value;
  job_category : value;
  is_remote_work : bool;
  number_of_opening : Z;
  created_at : string;
  updated_at : string;
  source : string
}.

(** What one call of [normalizeJob] reads from the clock and the random
    source: [Date.now()] and the random suffix of a synthesized
    identifier, and the two [new Date().toISOString()] of the defaults. *)
Record Readings : Type := mkReadings {
  millis : string;
  random : string;
  now_created : string;
  now_updated : string
}.

(** What the normalizer asks of the browser: the ISO form of
    [new Date(v)], [None] when the date is invalid or when building it
    throws (which [parseDate] catches). *)
Class DateRuntime : Type := {
  Date_toISOString : value -> option string
}.

Section WithDates.
Context `{DateRuntime}.

(** The [parseDate] helper: [null] for a falsy or invalid date. *)
Definition parseDate (dateStr : value) : option string :=
  if negb (truthy dateStr) then None
  else Date_toISOString dateStr.

(** [d || fallback] for a date string or [null]. *)
Definition string_or (d : option string) (fallback : string) : string :=
  match d with
  | Some x => if JsString.truthy x then x else fallback
  | None => fallback
  end.

(** [parseInt(v) || null], [None] being [null]. *)
Definition parseInt_or_null (v : value) : result (option Z) :=
  bind (parseInt v) (fun n =>
  Ok match n with
     | Some z => if (z =? 0)%Z then None else Some z
     | None => None
     end).

(** [parseInt(v) || fallback]. *)
Definition parseInt_or (fallback : Z) (v : value) : result Z :=
  bind (parseInt v) (fun n =>
  Ok match n with
     | Some z => if (z =? 0)%Z then fallback else z
     | None => fallback
     end).

(** The array that [normalizeJob] keeps as qualifications. *)
Definition parseQualifications (raw : value) : list value :=
  let qualifications :=
    if truthy raw then
      try_catch
        match raw with
        | Str text => JSON_parse text
        | Arr _ => Ok raw
        | _ => Ok (Arr [])
        end
        (fun _ => Ok (Arr []))
    else Ok (Arr []) in
  (* Ensure qualifications is an array *)
  match qualifications with
  | Ok (Arr items) => items
  | _ => []
  end.

(** The body of the [try] of [normalizeJob]: reading a property of
    [null] or [undefined] throws, and so does [parseInt] on a value that has
    no string form; [parseDate] catches what it throws. *)
Definition normalizeJob_body (r : Readings) (job : value) : result NormalizedJob :=
  bind (get job "qualifications") (fun raw_qualifications =>
  let qualifications := parseQualifications raw_qualifications in
  bind (get job "id") (fun raw_id =>
  bind (get job "title") (fun raw_title =>
  bind (get job "description") (fun raw_description =>
  bind (get job "company") (fun raw_company =>
  bind (get job "location") (fun raw_location =>
  bind (get job "salary_from") (fun raw_salary_from =>
  bind (parseInt_or_null raw_salary_from) (fun salary_from =>
  bind (get job "salary_to") (fun raw_salary_to =>
  bind (parseInt_or_null raw_salary_to) (fun salary_to =>
  bind (get job "employment_type") (fun raw_employment_type =>
  bind (get job "application_deadline") (fun raw_deadline =>
  bind (get job "contact") (fun raw_contact =>
  bind (get job "job_category") (fun raw_category =>
  bind (get job "is_remote_work") (fun raw_remote =>
  bind (get job "number_of_opening") (fun raw_opening =>
  bind (parseInt_or 1 raw_opening) (fun number_of_opening =>
  bind (get job "created_at") (fun raw_created =>
  bind (get job "updated_at") (fun raw_updated =>
  Ok {| id := or raw_id (Str ("job_" ++ millis r ++ "_" ++ random r));
        title := or raw_title (Str "Untitled Position");
        description := or raw_description (Str "No description available");
        company := or raw_company (Str "Unknown Company");
        location := or raw_location (Str "Location not specified");
        salary_from := salary_from;
        salary_to := salary_to;
        employment_type := or raw_employment_type (Str "Full-time");
        application_deadline := parseDate raw_deadline;
        qualifications := qualifications;
        contact := or raw_contact (Str "No contact information");
        job_category := or raw_category (Str "Other");
        is_remote_work := truthy raw_remote;
        number_of_opening := number_of_opening;
        created_at := string_or (parseDate raw_created) (now_created r);
        updated_at := string_or (parseDate raw_updated) (now_updated r);
        source := "api" |}))))))))))))))))))).

(** [normalizeJob(job)]: the normalized job, or [null] ([None]) when the
    body threw. *)
Definition normalizeJob (r : Readings) (job : value)
  : result (option NormalizedJob) :=
  try_catch
    (bind (normalizeJob_body r job) (fun j => Ok (Some j)))
    (fun _ => Ok None).

(** [jobs.map(f)], the [i]-th call reading [clock i]. *)
Fixpoint map_from {B : Type} (f : nat -> value -> result B) (i : nat)
    (jobs : list value) : result (list B) :=
  match jobs with
  | [] => Ok []
  | job :: rest =>
      bind (f i job) (fun x =>
      bind (map_from f (S i) rest) (fun xs => Ok (x :: xs)))
  end.

(** [normalizeJobs(jobs)]: not an array, no job; otherwise the records
    normalized in turn, those that came out [null] left out. *)
Definition normalizeJobs (clock : nat -> Readings) (jobs : value)
  : result (list NormalizedJob) :=
  match jobs with
  | Arr items =>
      bind (map_from (fun i => normalizeJob (clock i)) 0 items) (fun normalized =>
      Ok (omap (fun job => job) normalized))
  | _ => Ok []
  end.

End WithDates.

End JobAPI.

(** ** Data for the examples *)

(** A browser for the examples: a date string is its time value written in
    decimal, and storage accepts every write. *)
Definition example_runtime : Runtime :=
  {| Date_getTime := JsValue.leading_digits 10 false 0;
     setItem_accepts := fun _ _ => true |}.

(** A job with the given identifier, salary bounds and creation date. *)
Definition example_job (id : string) (lo hi : option Z) (created : string)
  : Job.t :=
  {| Job.id := id; Job.title := "Frontend Developer";
     Job.description := "Build user-facing web applications";
     Job.company := "Tech Solutions Inc"; Job.location := "Austin, TX";
     Job.salary_from := lo; Job.salary_to := hi;
     Job.employment_type := "Full-time"; Job.application_deadline := None;
     Job.qualifications := []; Job.contact := "hr@techsolutions.com";
     Job.job_category := "Software Engineer"; Job.is_remote_work := true;
     Job.number_of_opening := 1; Job.created_at := created;
     Job.updated_at := created; Job.source := "api" |}.

(** ** What a call emits *)

(** The notifications emitted between the state [s] and a later state
    [s']. *)
Definition emitted (s s' : JobPortalState.State) : list Event :=
  drop (length (JobPortalState.events s)) (JobPortalState.events s').

(** The notification [jobSaved] for [x]. *)
Definition is_jobSaved (x : string) (e : Event) : bool :=
  match e with
  | jobSaved y => y =? x
  | _ => false
  end.

(** How many times [x] occurs in a list of identifiers. *)
Definition occurrences (x : string) (l : list string) : nat :=
  length (List.filter (String.eqb x) l).

(** An applicant. *)
Definition ann : Application.details :=
  {| Application.d_name := "Ann"; Application.d_email := "a@x.com";
     Application.d_coverLetter := None |}.

(** The job of the application scenario. *)
Definition job_j1 : Job.t := example_job "j1" (Some 50000%Z) (Some 70000%Z) "1000".

(** The store after [setAllJobs([jobA])] and a first application to [j1]. *)
Definition after_first_application : JobPortalState.State :=
  snd (JobPortalState.applyForJob (H := example_runtime) "j1" ann "1" "1001"
         (JobPortalState.setAllJobs (H := example_runtime) [job_j1]
            (JobPortalState.new Storage.empty))).

(** The claim C5 as the specification words it: from any state, two calls
    of [saveJob(x)] leave [x] saved, exactly once in the list, and emit
    [jobSaved] exactly once. *)
Definition saveJob_twice_emits_once `{Runtime} (s : JobPortalState.State)
    (x : string) : Prop :=
  let s2 := JobPortalState.saveJob x (JobPortalState.saveJob x s) in
  JobPortalState.isJobSaved x s2 = true
  /\ occurrences x (JobPortalState.savedJobs s2) = 1%nat
  /\ length (List.filter (is_jobSaved x) (emitted s s2)) = 1%nat.

(** A patch that renames a job. *)
Definition rename_patch (t : string) : Job.patch :=
  {| Job.p_id := None; Job.p_title := Some t; Job.p_description := None;
     Job.p_company := None; Job.p_location := None; Job.p_salary_from := None;
     Job.p_salary_to := None; Job.p_employment_type := None;
     Job.p_application_deadline := None; Job.p_qualifications := None;
     Job.p_contact := None; Job.p_job_category := None;
     Job.p_is_remote_work := None; Job.p_number_of_opening := None;
     Job.p_created_at := None; Job.p_updated_at := None; Job.p_source := None |}.

(** The store with job [j1] loaded. *)
Definition with_j1 : JobPortalState.State :=
  JobPortalState.setAllJobs (H := example_runtime) [job_j1]
    (JobPortalState.new Storage.empty).

(** ** The filters and the salary orders, as the specification words them *)

(** A job passes the filters when it passes each of the four: the search
    term is empty or occurs, case-insensitively, in the title, the company
    or the description; [remoteOnly] is off or the job is remote; the
    category is empty or is exactly that of the job; the location is empty
    or occurs, case-insensitively, in the location of the job. *)
Definition passes_filters (f : Filters.t) (job : Job.t) : Prop :=
  (Filters.search f = EmptyString
   \/ JsString.substring_of (JsString.toLowerCase (Filters.search f))
        (JsString.toLowerCase (Job.title job))
   \/ JsString.substring_of (JsString.toLowerCase (Filters.search f))
        (JsString.toLowerCase (Job.company job))
   \/ JsString.substring_of (JsString.toLowerCase (Filters.search f))
        (JsString.toLowerCase (Job.description job)))
  /\ (Filters.remoteOnly f = false \/ Job.is_remote_work job = true)
  /\ (Filters.category f = EmptyString
      \/ Job.job_category job = Filters.category f)
  /\ (Filters.location f = EmptyString
      \/ JsString.substring_of (JsString.toLowerCase (Filters.location f))
           (JsString.toLowerCase (Job.location job))).

(** The same test as a boolean. *)
Definition passes_filtersb (f : Filters.t) (job : Job.t) : bool :=
  (negb (JsString.truthy (Filters.search f))
   || JobPortalState.searchHit (JsString.toLowerCase (Filters.search f)) job)
  && (negb (Filters.remoteOnly f) || Job.is_remote_work job)
  && (negb (JsString.truthy (Filters.category f))
      || (Job.job_category job =? Filters.category f))
  && (negb (JsString.truthy (Filters.location f))
      || JobPortalState.locationHit (Filters.location f) job).

(** The filtered view of a state holds exactly the jobs of the collection
    that pass its filters, each as many times as the collection does. *)
Definition view_is_filtered `{Runtime} (s : JobPortalState.State) : Prop :=
  (forall job,
      In job (JobPortalState.getFilteredJobs s)
      <-> In job (JobPortalState.getAllJobs s)
          /\ passes_filters (JobPortalState.getFilters s) job)
  /\ Permutation (JobPortalState.getFilteredJobs s)
       (List.filter (passes_filtersb (JobPortalState.getFilters s))
          (JobPortalState.getAllJobs s)).

(** The average of the two salary bounds of a job that has both. *)
Definition stated_average (j : Job.t) : option Q :=
  match Job.salary_from j, Job.salary_to j with
  | Some lo, Some hi => Some ((inject_Z lo + inject_Z hi) / 2)%Q
  | _, _ => None
  end.

(** The average the comparators use: that of a job whose two bounds are
    present and other than zero. *)
Definition average (j : Job.t) : option Q :=
  match Job.salary_from j, Job.salary_to j with
  | Some lo, Some hi =>
      if negb (lo =? 0)%Z && negb (hi =? 0)%Z
      then Some ((inject_Z lo + inject_Z hi) / 2)%Q
      else None
  | _, _ => None
  end.

(** Descending order of averages, a job without one counting as 0. *)
Definition descending (avg : Job.t -> option Q) (a b : Job.t) : Prop :=
  (default 0%Q (avg b) <= default 0%Q (avg a))%Q.

(** Ascending order of averages, a job without one counting as
    [+Infinity]. *)
Definition ascending (avg : Job.t -> option Q) (a b : Job.t) : Prop :=
  match avg a, avg b with
  | Some x, Some y => (x <= y)%Q
  | _, None => True
  | None, Some _ => False
  end.

(** A partial filter that sets the sort key only. *)
Definition sort_by (key : string) : Filters.partial :=
  {| Filters.p_search := None; Filters.p_sort := Some key;
     Filters.p_remoteOnly := None; Filters.p_category := None;
     Filters.p_location := None |}.

(** The three jobs of the salary example, two jobs of which one has a
    lower bound of zero, and a job with negative bounds. *)
Definition job_A : Job.t := example_job "A" (Some 50000%Z) (Some 70000%Z) "1000".
Definition job_B : Job.t := example_job "B" None None "2000".
Definition job_C : Job.t := example_job "C" (Some 100000%Z) (Some 120000%Z) "3000".
Definition job_X : Job.t := example_job "X" (Some 0%Z) (Some 100000%Z) "4000".
Definition job_Y : Job.t := example_job "Y" (Some 10000%Z) (Some 20000%Z) "5000".
Definition job_N : Job.t := example_job "N" (Some (-20)%Z) (Some (-10)%Z) "6000".

(** The six orders in which the three jobs of the example can be loaded. *)
Definition orders_ABC : list (list Job.t) :=
  [ [job_A; job_B; job_C]; [job_A; job_C; job_B]; [job_B; job_A; job_C];
    [job_B; job_C; job_A]; [job_C; job_A; job_B]; [job_C; job_B; job_A] ].

(** The page stays within its bounds. *)
Definition page_in_bounds `{Runtime} (s : JobPortalState.State) : Prop :=
  let info := JobPortalState.getPaginationInfo s in
  (1 <= PaginationInfo.currentPage info <= PaginationInfo.totalPages info)%Z.

(** Ten jobs, [j0] to [j9]. *)
Definition ten_jobs : list Job.t :=
  List.map (fun n => example_job ("j" ++ JsValue.digits n) None None "1000")
    [0; 1; 2; 3; 4; 5; 6; 7; 8; 9]%Z.

(** The session that loads the ten jobs and goes to the second page. *)
Definition on_page_two `{Runtime} : JobPortalState.State :=
  JobPortalState.run (JobPortalState.SetPage 2)
    (JobPortalState.run (JobPortalState.SetAllJobs ten_jobs)
       (JobPortalState.new Storage.empty)).

(** ** What a backup restores *)

(** The two roles. *)
Definition role_ok (role : string) : Prop :=
  role = "job_seeker" \/ role = "recruiter".

(** The role of the store is one of the two, and so is the role that
    storage holds, if it holds one. *)
Definition role_invariant (s : JobPortalState.State) : Prop :=
  role_ok (JobPortalState.userRole s)
  /\ forall role, Storage.user_role (JobPortalState.localStorage s) = Some role ->
                  role_ok role.

(** Two states show the same store: the same applications, user jobs,
    saved jobs, filters, role and theme, and the same jobs, view and
    page. *)
Definition same_store (s s' : JobPortalState.State) : Prop :=
  JobPortalState.applications s' = JobPortalState.applications s
  /\ JobPortalState.userJobs s' = JobPortalState.userJobs s
  /\ JobPortalState.savedJobs s' = JobPortalState.savedJobs s
  /\ JobPortalState.filters s' = JobPortalState.filters s
  /\ JobPortalState.userRole s' = JobPortalState.userRole s
  /\ JobPortalState.theme s' = JobPortalState.theme s
  /\ JobPortalState.allJobs s' = JobPortalState.allJobs s
  /\ JobPortalState.filteredJobs s' = JobPortalState.filteredJobs s
  /\ JobPortalState.currentPage s' = JobPortalState.currentPage s.

(** ** Decimal digits *)

(** A decimal digit character. *)
Definition is_digit (c : ascii) : bool :=
  (48 <=? nat_of_ascii c)%nat && (nat_of_ascii c <=? 57)%nat.

(** A string of decimal digits. *)
Fixpoint all_digits (s : string) : bool :=
  match s with
  | EmptyString => true
  | String c r => is_digit c && all_digits r
  end.

(** ** What the normalizer keeps *)

(** The property [k] of a record, [undefined] when it has none. *)
Definition field (job : JsValue.value) (k : string) : JsValue.value :=
  match JsValue.get job k with
  | JsValue.Ok v => v
  | JsValue.Raise _ => JsValue.Undefined
  end.

(** The records of a batch whose normalization does not throw,
    normalized, in their order; [i] is the index of the first. *)
Fixpoint normalized_records `{JobAPI.DateRuntime} (clock : nat -> JobAPI.Readings)
    (i : nat) (items : list JsValue.value) : list JobAPI.NormalizedJob :=
  match items with
  | [] => []
  | job :: rest =>
      match JobAPI.normalizeJob_body (clock i) job with
      | JsValue.Ok j => j :: normalized_records clock (S i) rest
      | JsValue.Raise _ => normalized_records clock (S i) rest
      end
  end.

(** Dates for the examples: a string is its own ISO form, any other value
    is an invalid date. *)
Definition example_dates : JobAPI.DateRuntime :=
  {| JobAPI.Date_toISOString :=
       fun v => match v with
                | JsValue.Str s => Some s
                | _ => None
                end |}.

(** Readings for the examples. *)
Definition example_readings : JobAPI.Readings :=
  {| JobAPI.millis := "1767225600000"; JobAPI.random := "k3j9x0q2m";
     JobAPI.now_created := "2026-01-01T00:00:00.000Z";
     JobAPI.now_updated := "2026-01-01T00:00:00.000Z" |}.

(** Two records: one whose qualifications do not parse, one whose salary
    bounds and openings are zero. *)
Definition record_bad_qualifications : JsValue.value :=
  JsValue.Obj [("id", JsValue.Str "r1");
               ("qualifications", JsValue.Str "{not valid json")].

Definition record_zero_salary : JsValue.value :=
  JsValue.Obj [("id", JsValue.Str "r2"); ("title", JsValue.Str "Intern");
               ("salary_from", JsValue.Int 0); ("salary_to", JsValue.Str "0");
               ("number_of_opening", JsValue.Int 0)].

(** The page a call leaves: 1 after a change of filters, a clearing or a
    reload, the clamped page after [setPage], and the page as it was after
    any other call. *)
Definition page_after `{Runtime} (op : JobPortalState.Op)
    (s : JobPortalState.State) : Z :=
  match op with
  | JobPortalState.SetFilters _ | JobPortalState.ResetFilters
  | JobPortalState.ClearAllData | JobPortalState.Reload => 1%Z
  | JobPortalState.SetPage p =>
      Z.max 1
        (Z.min p (PaginationInfo.totalPages (JobPortalState.getPaginationInfo s)))
  | _ => JobPortalState.currentPage s
  end.

(** ** The store: saved jobs and statistics *)

Module JobPortalQueries.

Import JobPortalState.

(** [l.indexOf(x)] as a number, [-1] when [x] is not in [l]. *)
Definition indexNumber (l : list string) (x : string) : JsNumber.number :=
  match JsArray.indexOf l x with
  | Some i => JsNumber.of_Z (Z.of_nat i)
  | None => JsNumber.of_Z (-1)
  end.

(** [getSavedJobs()]: the jobs of the collection whose identifier is
    saved, sorted by the position of the identifier in the saved list, last
    saved first. *)
Definition getSavedJobs (s : State) : list Job.t :=
  if (length (savedJobs s) =? 0)%nat then []
  else
    JsArray.sort
      (fun a b => JsNumber.sub (indexNumber (savedJobs s) (Job.id b))
                    (indexNumber (savedJobs s) (Job.id a)))
      (List.filter (fun job => JsArray.includes (savedJobs s) (Job.id job))
         (allJobs s)).

(** What [getStats] returns. *)
Record Stats : Type := mkStats {
  totalJobs : nat;
  stat_filteredJobs : nat;
  stat_applications : nat;
  stat_userJobs : nat;
  stat_savedJobs : nat
}.

Definition getStats (s : State) : Stats :=
  {| totalJobs := length (allJobs s);
     stat_filteredJobs := length (filteredJobs s);
     stat_applications := length (applications s);
     stat_userJobs := length (userJobs s);
     stat_savedJobs := length (savedJobs s) |}.

End JobPortalQueries.

(** ** Identifiers *)

(** The job identifiers of the applications on record. *)
Definition applied_jobs (s : JobPortalState.State) : list string :=
  List.map Application.jobId (JobPortalState.applications s).

(** The position of the identifier of a job in the saved list, [-1] when
    it is not saved. *)
Definition saved_position (s : JobPortalState.State) (job : Job.t) : Z :=
  match JsArray.indexOf (JobPortalState.savedJobs s) (Job.id job) with
  | Some i => Z.of_nat i
  | None => (-1)%Z
  end.

(** ** Backups for the examples *)

(** A backup with a role that is not one of the two, and other fields. *)
Definition backup_admin : Snapshot.t :=
  {| Snapshot.userRole := Some "admin"; Snapshot.applications := Some [];
     Snapshot.userJobs := None; Snapshot.savedJobs := Some ["j1"];
     Snapshot.theme := Some "dark"; Snapshot.filters := None;
     Snapshot.exportedAt := None |}.

(** A backup that carries a role and a list of saved jobs only. *)
Definition backup_recruiter : Snapshot.t :=
  {| Snapshot.userRole := Some "recruiter"; Snapshot.applications := None;
     Snapshot.userJobs := None; Snapshot.savedJobs := Some ["j1"];
     Snapshot.theme := None; Snapshot.filters := None;
     Snapshot.exportedAt := None |}.

(** ** What a reload keeps *)

(** Storage takes every write: no quota is exceeded. *)
Definition storage_accepts_all `{Runtime} : Prop :=
  forall k st, setItem_accepts k st = true.

(** Storage holds what the store shows: [init] would read back the role,
    the theme, the applications, the user jobs, the saved jobs and the
    filters that the store has. *)
Definition persisted (s : JobPortalState.State) : Prop :=
  JobPortalState.userRole (JobPortalState.init s) = JobPortalState.userRole s
  /\ JobPortalState.theme (JobPortalState.init s) = JobPortalState.theme s
  /\ JobPortalState.applications (JobPortalState.init s)
     = JobPortalState.applications s
  /\ JobPortalState.userJobs (JobPortalState.init s) = JobPortalState.userJobs s
  /\ JobPortalState.savedJobs (JobPortalState.init s) = JobPortalState.savedJobs s
  /\ JobPortalState.filters (JobPortalState.init s) = JobPortalState.filters s.

(** ** The theme *)

(** The two themes. *)
Definition theme_ok (th : string) : Prop := th = "light" \/ th = "dark".

(** The theme of the store is one of the two, and so is the theme that
    storage holds, if it holds one. *)
Definition theme_invariant (s : JobPortalState.State) : Prop :=
  theme_ok (JobPortalState.theme s)
  /\ forall th, Storage.theme (JobPortalState.localStorage s) = Some th ->
                theme_ok th.

(** ** Sorting by date *)

(** The time value of the creation date of a job, [None] when the date is
    invalid. *)
Definition created `{Runtime} (j : Job.t) : option Z :=
  Date_getTime (Job.created_at j).

(** Both jobs have a valid creation date and that of [a] is not later
    than that of [b]. *)
Definition not_later `{Runtime} (a b : Job.t) : Prop :=
  match created a, created b with
  | Some x, Some y => (x <= y)%Z
  | _, _ => False
  end.

(** Two jobs of the date example, the second one created later. *)
Definition job_old : Job.t := example_job "old" None None "1000".
Definition job_new : Job.t := example_job "new" None None "2000".

(** ** The view and the collection *)

(** The filtered view holds jobs of the collection only: it is, up to
    the order, what some filters keep of the collection. *)
Definition view_from_collection (s : JobPortalState.State) : Prop :=
  exists f, Permutation (JobPortalState.filteredJobs s)
              (List.filter (passes_filtersb f) (JobPortalState.allJobs s)).

(** ** The client and its cache: [JobAPI.fetchJobs] *)

Module JobAPIClient.

Import JsValue JobAPI.

(** The fields of a [JobAPI] object that change: the cached jobs and the
    time of the last fetch that succeeded, both [null] at first. *)
Record Client : Type := mkClient {
  cache : option (list NormalizedJob);
  lastFetch : option Z
}.

(** [new JobAPI()]. *)
Definition new : Client := {| cache := None; lastFetch := None |}.

Definition cacheTimeout : Z := 5 * 60 * 1000.

(** What [fetch(baseURL)] and [response.json()] come to: the request
    fails, the response has a status that is not ok, its body is no JSON
    document, or its body decodes to [data]. *)
Inductive Response : Type :=
| NetworkError
| HttpError (status : Z)
| BadBody
| Body (data : value).

(** [clearCache()]. *)
Definition clearCache (c : Client) : Client :=
  {| cache := None; lastFetch := None |}.

(** The test that opens [fetchJobs]:
    [this.cache && this.lastFetch && (Date.now() - this.lastFetch < this.cacheTimeout)];
    a cached array is truthy also when it is empty. *)
Definition cache_is_fresh (now : Z) (c : Client) : bool :=
  match cache c, lastFetch c with
  | Some _, Some t => negb (t =? 0)%Z && (now - t <? cacheTimeout)%Z
  | _, _ => false
  end.

Section WithDates.
Context `{DateRuntime}.

Definition day : Z := 24 * 60 * 60 * 1000.

(** [new Date(ms).toISOString()]; [None] when it throws a [RangeError]. *)
Definition iso (ms : Z) : option string := Date_toISOString (Int ms).

(** [getMockJobs()]; [clock k] is the [k]-th reading of the clock, in the
    order of evaluation. [None]: a date was out of range and the call
    threw. *)
Definition getMockJobs (clock : nat -> Z) : option (list NormalizedJob) :=
  match iso (clock 0%nat + 30 * day), iso (clock 1%nat), iso (clock 2%nat),
        iso (clock 3%nat + 45 * day), iso (clock 4%nat - 7 * day),
        iso (clock 5%nat - 7 * day),
        iso (clock 6%nat + 20 * day), iso (clock 7%nat - 2 * day),
        iso (clock 8%nat - 2 * day) with
  | Some deadline1, Some created1, Some updated1,
    Some deadline2, Some created2, Some updated2,
    Some deadline3, Some created3, Some updated3 =>
      Some
        [ {| id := Str "mock_1";
             title := Str "Frontend Developer";
             description := Str "We are looking for a skilled Frontend Developer to join our team. You will be responsible for building user-facing web applications using modern JavaScript frameworks.";
             company := Str "Tech Solutions Inc";
             location := Str "San Francisco, CA";
             salary_from := Some 80000%Z;
             salary_to := Some 120000%Z;
             employment_type := Str "Full-time";
             application_deadline := Some deadline1;
             qualifications :=
               [Str "3+ years React experience";
                Str "JavaScript/TypeScript proficiency";
                Str "CSS/HTML expertise"];
             contact := Str "hr@techsolutions.com";
             job_category := Str "Software Engineer";
             is_remote_work := true;
             number_of_opening := 2;
             created_at := created1;
             updated_at := updated1;
             source := "mock" |};
          {| id := Str "mock_2";
             title := Str "Data Scientist";
             description := Str "Join our data team to work on machine learning projects and help drive business insights through data analysis.";
             company := Str "Data Corp";
             location := Str "New York, NY";
             salary_from := Some 90000%Z;
             salary_to := Some 140000%Z;
             employment_type := Str "Full-time";
             application_deadline := Some deadline2;
             qualifications :=
               [Str "Python/R proficiency";
                Str "Machine Learning experience";
                Str "Statistics background"];
             contact := Str "careers@datacorp.com";
             job_category := Str "Data Scientist";
             is_remote_work := false;
             number_of_opening := 1;
             created_at := created2;
             updated_at := updated2;
             source := "mock" |};
          {| id := Str "mock_3";
             title := Str "Full-Stack Developer";
             description := Str "Looking for a versatile full-stack developer to work on both frontend and backend systems.";
             company := Str "Startup Hub";
             location := Str "Austin, TX";
             salary_from := Some 70000%Z;
             salary_to := Some 100000%Z;
             employment_type := Str "Contract";
             application_deadline := Some deadline3;
             qualifications :=
               [Str "Node.js experience";
                Str "React/Vue.js skills";
                Str "Database knowledge"];
             contact := Str "jobs@startuphub.io";
             job_category := Str "Full-stack Developer";
             is_remote_work := true;
             number_of_opening := 3;
             created_at := created3;
             updated_at := updated3;
             source := "mock" |} ]
  | _, _, _, _, _, _, _, _, _ => None
  end.

(** What one call of [fetchJobs] meets: the reading of the clock at the
    test of the cache, what the request comes to, the readings of
    [normalizeJob] for each record, the reading of the clock when the
    cache is filled, and the readings of [getMockJobs]. *)
Record Visit : Type := mkVisit {
  now_check : Z;
  response : Response;
  record_clock : nat -> Readings;
  now_store : Z;
  mock_clock : nat -> Z
}.

(** The body of the [try] of [fetchJobs]: the normalized jobs, [None] when
    it throws. *)
Definition fetched (v : Visit) : option (list NormalizedJob) :=
  match response v with
  | Body data =>
      match normalizeJobs (record_clock v) data with
      | Ok jobs => Some jobs
      | Raise _ => None
      end
  | NetworkError | HttpError _ | BadBody => None
  end.

(** [fetchJobs()], one call running to its end before the next one
    starts: what the promise resolves to ([None] when it rejects) and the
    client afterwards. *)
Definition fetchJobs (v : Visit) (c : Client)
  : option (list NormalizedJob) * Client :=
  if cache_is_fresh (now_check v) c then (cache c, c)
  else
    match fetched v with
    | Some normalizedJobs =>
        (Some normalizedJobs,
         {| cache := Some normalizedJobs; lastFetch := Some (now_store v) |})
    | None =>
        match cache c with
        | Some jobs => (Some jobs, c)
        | None => (getMockJobs (mock_clock v), c)
        end
    end.

(** A call on the client, and the client after a sequence of calls. *)
Inductive Call : Type :=
| FetchJobs (v : Visit)
| ClearCache.

Definition run (call : Call) (c : Client) : Client :=
  match call with
  | FetchJobs v => snd (fetchJobs v c)
  | ClearCache => clearCache c
  end.

Definition run_all (calls : list Call) (c : Client) : Client :=
  fold_left (fun c call => run call c) calls c.

End WithDates.

End JobAPIClient.

(** A visit for the examples: the server answers with two records, at
    the given time. *)
Definition visit_at (t : Z) (r : JobAPIClient.Response) : JobAPIClient.Visit :=
  {| JobAPIClient.now_check := t;
     JobAPIClient.response := r;
     JobAPIClient.record_clock := fun _ => example_readings;
     JobAPIClient.now_store := t;
     JobAPIClient.mock_clock := fun _ => t |}.

Definition two_records : JsValue.value :=
  JsValue.Arr [record_bad_qualifications; record_zero_salary].

(** ** The interface: [JobPortalUI] *)

Module JobPortalUI.

Import JobPortalState.

(** A piece of the markup that [renderPaginationControls] writes: the
    previous and next buttons with the page they lead to, a page button,
    active or not, and an ellipsis. *)
Inductive Control : Type :=
| PrevButton (page : Z) (disabled : bool)
| PageButton (page : Z) (active : bool)
| Ellipsis
| NextButton (page : Z) (disabled : bool).

Definition maxButtons : Z := 5.

(** [startPage] and [endPage] of [renderPaginationControls]. *)
Definition pageWindow (info : PaginationInfo.t) : Z * Z :=
  let currentPage := PaginationInfo.currentPage info in
  let totalPages := PaginationInfo.totalPages info in
  if (totalPages <=? maxButtons)%Z then (1%Z, totalPages)
  else
    let maxPagesBeforeCurrent := Qfloor (inject_Z maxButtons / 2) in
    let maxPagesAfterCurrent := (Qceiling (inject_Z maxButtons / 2) - 1)%Z in
    if (currentPage <=? maxPagesBeforeCurrent)%Z then (1%Z, maxButtons)
    else if (totalPages <=? currentPage + maxPagesAfterCurrent)%Z
    then ((totalPages - maxButtons + 1)%Z, totalPages)
    else ((currentPage - maxPagesBeforeCurrent)%Z,
          (currentPage + maxPagesAfterCurrent)%Z).

(** The values of [i] in [for (let i = startPage; i <= endPage; i++)]. *)
Definition pages_between (startPage endPage : Z) : list Z :=
  List.map (fun k => (startPage + Z.of_nat k)%Z)
    (seq 0 (Z.to_nat (endPage - startPage + 1))).

(** [renderPaginationControls()]: the controls written into the element
    of the pagination, when the page has one. *)
Definition renderPaginationControls (s : State) : list Control :=
  let info := getPaginationInfo s in
  let currentPage := PaginationInfo.currentPage info in
  let totalPages := PaginationInfo.totalPages info in
  if (totalPages <=? 1)%Z then []
  else
    let '(startPage, endPage) := pageWindow info in
    ([PrevButton (currentPage - 1) (negb (PaginationInfo.hasPrevPage info))]
     ++ (if (1 <? startPage)%Z
         then PageButton 1 false :: (if (2 <? startPage)%Z then [Ellipsis] else [])
         else [])
     ++ List.map (fun i => PageButton i (i =? currentPage)%Z)
          (pages_between startPage endPage)
     ++ (if (endPage <? totalPages)%Z
         then (if (endPage <? totalPages - 1)%Z then [Ellipsis] else [])
              ++ [PageButton totalPages false]
         else [])
     ++ [NextButton (currentPage + 1) (negb (PaginationInfo.hasNextPage info))])%list.

Section WithRuntime.
Context `{Runtime}.

(** [handleSaveToggle(jobId)]. *)
Definition handleSaveToggle (jobId : string) (s : State) : State :=
  if negb (getUserRole s =? "job_seeker") then s
  else if isJobSaved jobId s then unsaveJob jobId s else saveJob jobId s.

End WithRuntime.

End JobPortalUI.

(** The pages of the page buttons of a list of controls, and the pages of
    those that are active. *)
Definition page_numbers (cs : list JobPortalUI.Control) : list Z :=
  omap (fun c => match c with
                 | JobPortalUI.PageButton p _ => Some p
                 | _ => None
                 end) cs.

Definition active_pages (cs : list JobPortalUI.Control) : list Z :=
  omap (fun c => match c with
                 | JobPortalUI.PageButton p true => Some p
                 | _ => None
                 end) cs.

(** ** White space and numerals, as the language defines them *)

(** The code points of the white space of the language (tab, vertical
    tab, form feed, space, no-break space, the byte order mark and the
    space separators) and of its line terminators. *)
Definition white_space_code_points : list N :=
  [9; 11; 12; 32; 160; 65279;
   5760; 8192; 8193; 8194; 8195; 8196; 8197; 8198; 8199; 8200; 8201; 8202;
   8239; 8287; 12288;
   10; 13; 8232; 8233]%N.

(** The same characters as strings. *)
Definition white_space_chars : list string :=
  List.map (fun code => JsValue.utf8 (N.to_nat code)) white_space_code_points.

(** A string made of white space only. *)
Inductive white : string -> Prop :=
| white_nil : white EmptyString
| white_cons (c s : string) :
    In c white_space_chars -> white s -> white (c ++ s).

(** A string that starts with no white space. *)
Definition starts_black (s : string) : Prop :=
  forall c r, In c white_space_chars -> s <> c ++ r.

(** An optional sign and its factor. *)
Inductive signed : string -> Z -> Prop :=
| signed_none : signed EmptyString 1
| signed_plus : signed "+" 1
| signed_minus : signed "-" (-1).

(** [ds] is a run of decimal digits, not empty, that writes [n]. *)
Definition writes (ds : string) (n : Z) : Prop :=
  ds <> EmptyString
  /\ exists u, DecimalString.NilEmpty.uint_of_string ds = Some u
               /\ n = Z.of_uint u.

(** [rest] is empty or starts with a character that is no digit. *)
Definition no_digit_first (rest : string) : Prop :=
  match rest with
  | EmptyString => True
  | String c _ => is_digit c = false
  end.

(** [ds] followed by [rest] starts with the prefix [0x] or [0X]. *)
Definition hex_prefixed (ds rest : string) : Prop :=
  ds = "0" /\ exists r, rest = String "x" r \/ rest = String "X" r.

(** A value that has no string form: an object with a property
    [toString] of its own, or an array that holds such a value. *)
Inductive no_string_form : JsValue.value -> Prop :=
| no_string_form_object props v :
    JsValue.lookup "toString" props = Some v ->
    no_string_form (JsValue.Obj props)
| no_string_form_array items x :
    In x items -> no_string_form x -> no_string_form (JsValue.Arr items).

(** A record that the normalizer drops: [null], [undefined], or a record
    one of whose three numeric fields has no string form. *)
Definition dropped (job : JsValue.value) : Prop :=
  job = JsValue.Null \/ job = JsValue.Undefined
  \/ no_string_form (field job "salary_from")
  \/ no_string_form (field job "salary_to")
  \/ no_string_form (field job "number_of_opening").

(** A record whose salary has no string form. *)
Definition record_no_string_form : JsValue.value :=
  JsValue.Obj [("id", JsValue.Str "r9");
               ("salary_from", JsValue.Obj [("toString", JsValue.Int 1)])].

(** ** Merging a patch, as the specification words it *)

(** A key of the merged record: the value of the patch when the patch
    carries the key, that of the record otherwise. *)
Definition laid_over {A : Type} (old : A) (patch : option A) (merged : A) : Prop :=
  match patch with
  | Some v => merged = v
  | None => merged = old
  end.

(** [merged] is the record [old] with the patch merged into it and
    [updated_at] refreshed: every key but [updated_at] is that of the patch
    laid over that of the record, and [updated_at] is the reading of the
    clock, whatever the patch carries under that key. *)
Definition patched (old : Job.t) (patch : Job.patch) (now : string)
    (merged : Job.t) : Prop :=
  laid_over (Job.id old) (Job.p_id patch) (Job.id merged)
  /\ laid_over (Job.title old) (Job.p_title patch) (Job.title merged)
  /\ laid_over (Job.description old) (Job.p_description patch)
       (Job.description merged)
  /\ laid_over (Job.company old) (Job.p_company patch) (Job.company merged)
  /\ laid_over (Job.location old) (Job.p_location patch) (Job.location merged)
  /\ laid_over (Job.salary_from old) (Job.p_salary_from patch)
       (Job.salary_from merged)
  /\ laid_over (Job.salary_to old) (Job.p_salary_to patch) (Job.salary_to merged)
  /\ laid_over (Job.employment_type old) (Job.p_employment_type patch)
       (Job.employment_type merged)
  /\ laid_over (Job.application_deadline old) (Job.p_application_deadline patch)
       (Job.application_deadline merged)
  /\ laid_over (Job.qualifications old) (Job.p_qualifications patch)
       (Job.qualifications merged)
  /\ laid_over (Job.contact old) (Job.p_contact patch) (Job.contact merged)
  /\ laid_over (Job.job_category old) (Job.p_job_category patch)
       (Job.job_category merged)
  /\ laid_over (Job.is_remote_work old) (Job.p_is_remote_work patch)
       (Job.is_remote_work merged)
  /\ laid_over (Job.number_of_opening old) (Job.p_number_of_opening patch)
       (Job.number_of_opening merged)
  /\ laid_over (Job.created_at old) (Job.p_created_at patch)
       (Job.created_at merged)
  /\ laid_over (Job.source old) (Job.p_source patch) (Job.source merged)
  /\ Job.updated_at merged = now.

(** ** A store with data *)

(** The session of a job seeker who loads [j1], applies for it, saves it
    and turns to the dark theme. *)
Definition store_with_data : JobPortalState.State :=
  JobPortalState.run (H := example_runtime) (JobPortalState.SetTheme "dark")
    (JobPortalState.run (H := example_runtime) (JobPortalState.SaveJob "j1")
       (JobPortalState.run (H := example_runtime)
          (JobPortalState.ApplyForJob "j1" ann "1" "1001")
          (JobPortalState.run (H := example_runtime)
             (JobPortalState.SetAllJobs [job_j1])
             (JobPortalState.new Storage.empty)))).

(** A record with the unparseable qualifications whose salary has no
    string form. *)
Definition record_bad_qualifications_and_salary : JsValue.value :=
  JsValue.Obj [("id", JsValue.Str "r8");
               ("qualifications", JsValue.Str "{not valid json");
               ("salary_from", JsValue.Obj [("toString", JsValue.Int 1)])].

(** The example of C7 as the specification words it: a record with the
    unparseable qualifications normalizes with no qualifications. *)
Definition unparseable_qualifications_normalize `{JobAPI.DateRuntime}
    (r : JobAPI.Readings) (job : JsValue.value) : Prop :=
  field job "qualifications" = JsValue.Str "{not valid json" ->
  exists j, JobAPI.normalizeJob r job = JsValue.Ok (Some j)
            /\ JobAPI.qualifications j = [].

(** * Properties *)

(** ** Pagination *)

Section Pagination.
Context `{Runtime}.
Import JobPortalState.

Lemma Qceiling_div9 (n : Z) :
  Qceiling (inject_Z n / inject_Z itemsPerPage) = ((n + 8) / 9)%Z.
Proof.
  unfold Qceiling, Qfloor, itemsPerPage, Qdiv, Qopp, Qmult, Qinv, inject_Z.
  simpl. rewrite Z.mul_1_r. change (Z.pos (1 * 9)) with 9%Z.
  pose proof (Z.div_mod (- n) 9 ltac:(lia)) as E1.
  pose proof (Z.mod_pos_bound (- n) 9 ltac:(lia)) as B1.
  pose proof (Z.div_mod (n + 8) 9 ltac:(lia)) as E2.
  pose proof (Z.mod_pos_bound (n + 8) 9 ltac:(lia)) as B2.
  lia.
Qed.

Lemma totalPagesOf_spec (n : Z) :
  (0 <= n)%Z ->
  totalPagesOf n = Z.max 1 ((n + 8) / 9)%Z.
Proof.
  intros Hn. unfold totalPagesOf. rewrite Qceiling_div9.
  pose proof (Z.div_mod (n + 8) 9 ltac:(lia)) as E2.
  pose proof (Z.mod_pos_bound (n + 8) 9 ltac:(lia)) as B2.
  destruct (Z.eqb_spec ((n + 8) / 9) 0); lia.
Qed.

(** C4. [getPaginationInfo] reports [totalPages = ceil(n / 9)], and 1 when
    the filtered view is empty; [setPage(p)] clamps [p] to
    [1 .. totalPages], leaves the state as it is (no notification) when the
    clamped page is the current one, and otherwise sets the current page
    and emits [pageChanged] with the new pagination information; it never
    touches the filters. *)
Theorem setPage_clamps_getPaginationInfo_totalPages (s : State) (p : Z) :
  let n := Z.of_nat (length (getFilteredJobs s)) in
  let info := getPaginationInfo s in
  let pages := PaginationInfo.totalPages info in
  let clamped := Z.max 1 (Z.min p pages) in
  (* totalPages is the ceiling of n / 9, and 1 for an empty view *)
  PaginationInfo.totalItems info = n
  /\ pages = Z.max 1 ((n + 8) / 9)%Z
  /\ (1 <= pages)%Z
  /\ (n <= 9 * pages)%Z
  /\ ((9 * (pages - 1) < n)%Z \/ (n = 0%Z /\ pages = 1%Z))
  (* setPage clamps to 1 .. totalPages *)
  /\ (1 <= clamped <= pages)%Z
  /\ clamped = (if (p <? 1)%Z then 1%Z else if (pages <? p)%Z then pages else p)
  (* no-op on the current page, update and notification otherwise *)
  /\ (if (currentPage s =? clamped)%Z then setPage p s = s
      else setPage p s
           = emit (pageChanged (getPaginationInfo (set_currentPage clamped s)))
               (set_currentPage clamped s)
           /\ currentPage (setPage p s) = clamped
           /\ events (setPage p s)
              = (events s
                 ++ [pageChanged
                       {| PaginationInfo.currentPage := clamped;
                          PaginationInfo.totalPages := pages;
                          PaginationInfo.totalItems := n;
                          PaginationInfo.hasPrevPage := (1 <? clamped)%Z;
                          PaginationInfo.hasNextPage := (clamped <? pages)%Z |}])%list)
  (* the filters stay *)
  /\ getFilters (setPage p s) = getFilters s.
Proof.
  intros n info pages clamped.
  assert (Hn : (0 <= n)%Z) by (unfold n; lia).
  assert (Hp : pages = Z.max 1 ((n + 8) / 9)%Z).
  { unfold pages, info, getPaginationInfo. simpl. now apply totalPagesOf_spec. }
  pose proof (Z.div_mod (n + 8) 9 ltac:(lia)) as E.
  pose proof (Z.mod_pos_bound (n + 8) 9 ltac:(lia)) as B.
  repeat split; try reflexivity; try lia.
  - unfold clamped. destruct (Z.ltb_spec p 1); destruct (Z.ltb_spec pages p); lia.
  - unfold setPage. fold info. fold pages. fold clamped.
    destruct (Z.eqb_spec (currentPage s) clamped) as [E1 | E1]; simpl.
    + reflexivity.
    + repeat split; reflexivity.
  - unfold setPage, getFilters. fold info. fold pages. fold clamped.
    destruct (Z.eqb_spec (currentPage s) clamped); reflexivity.
Qed.
End Pagination.


(** ** Saved jobs *)

Section SavedJobs.
Context `{Runtime}.
Import JobPortalState.

Lemma events_saveToStorage k s : events (saveToStorage k s) = events s.
Proof. unfold saveToStorage. now destruct (setItem_accepts _ _). Qed.

Lemma savedJobs_saveToStorage k s : savedJobs (saveToStorage k s) = savedJobs s.
Proof. unfold saveToStorage. now destruct (setItem_accepts _ _). Qed.

Lemma emitted_one (s s' : State) (e : Event) :
  events s' = (events s ++ [e])%list -> emitted s s' = [e].
Proof.
  intros E. unfold emitted. rewrite E. now rewrite drop_app_length.
Qed.

Lemma emitted_refl (s : State) : emitted s s = [].
Proof. unfold emitted. apply drop_all. Qed.

Lemma includes_occurrences (l : list string) (x : string) :
  JsArray.includes l x = negb (occurrences x l =? 0)%nat.
Proof.
  unfold JsArray.includes, occurrences.
  induction l as [| y l IH]; simpl; [reflexivity |].
  destruct (String.eqb x y); simpl; [reflexivity | exact IH].
Qed.

Lemma occurrences_push (l : list string) (x y : string) :
  occurrences x (JsArray.push l y)
  = (occurrences x l + if String.eqb x y then 1 else 0)%nat.
Proof.
  unfold occurrences, JsArray.push. rewrite List.filter_app, length_app. simpl.
  now destruct (String.eqb x y).
Qed.

Lemma indexOf_includes (l : list string) (x : string) :
  JsArray.includes l x = match JsArray.indexOf l x with Some _ => true | None => false end.
Proof.
  unfold JsArray.includes, JsArray.indexOf.
  induction l as [| y l IH]; simpl; [reflexivity |].
  destruct (String.eqb x y); simpl; [reflexivity |].
  rewrite IH. now destruct (JsArray.findIndex _ l).
Qed.

Lemma occurrences_delete_indexOf (l : list string) (x : string) (i : nat) :
  JsArray.indexOf l x = Some i ->
  S (occurrences x (delete i l)) = occurrences x l.
Proof.
  unfold JsArray.indexOf, occurrences. revert i.
  induction l as [| y l IH]; simpl; intros i E; [discriminate |].
  destruct (String.eqb x y) eqn:Exy.
  - injection E as <-. simpl. reflexivity.
  - destruct (JsArray.findIndex _ l) as [j |]; [| discriminate].
    injection E as <-. simpl. rewrite Exy. now apply IH.
Qed.

(** C5, as amended. Two calls of [saveJob(x)] leave [x] saved and the
    second call changes nothing. When [x] was not saved beforehand, the
    first call appends it, the list then holds [x] exactly once, and
    [jobSaved] is emitted exactly once; when [x] was already saved, neither
    call changes the state or emits anything. [unsaveJob(x)] emits
    [jobUnsaved], once, exactly when [x] was saved, and removes one
    occurrence of [x]. *)
Theorem saveJob_idempotent (s : State) (x : string) :
  let s1 := saveJob x s in
  let s2 := saveJob x s1 in
  isJobSaved x s2 = true
  /\ s2 = s1
  /\ (if isJobSaved x s
      then s1 = s /\ emitted s s2 = []
      else savedJobs s2 = (savedJobs s ++ [x])%list
           /\ occurrences x (savedJobs s2) = 1%nat
           /\ emitted s s2 = [jobSaved x])
  /\ (if isJobSaved x s
      then emitted s (unsaveJob x s) = [jobUnsaved x]
           /\ S (occurrences x (savedJobs (unsaveJob x s)))
              = occurrences x (savedJobs s)
      else unsaveJob x s = s).
Proof.
  intros s1 s2.
  assert (E1 : isJobSaved x s1 = true).
  { unfold s1, saveJob. destruct (isJobSaved x s) eqn:E; simpl; [exact E |].
    unfold isJobSaved. rewrite events_saveToStorage || idtac.
    simpl. rewrite savedJobs_saveToStorage. simpl.
    rewrite includes_occurrences, occurrences_push, String.eqb_refl.
    destruct (occurrences x (savedJobs s)); reflexivity. }
  assert (E2 : s2 = s1) by (unfold s2, saveJob; now rewrite E1).
  split; [now rewrite E2 |]. split; [exact E2 |]. split.
  - rewrite E2. unfold s1, saveJob.
    destruct (isJobSaved x s) eqn:E; simpl.
    + split; [reflexivity | apply emitted_refl].
    + rewrite savedJobs_saveToStorage. simpl. split; [reflexivity |]. split.
      * rewrite occurrences_push, String.eqb_refl.
        unfold isJobSaved in E. rewrite includes_occurrences in E.
        destruct (occurrences x (savedJobs s)); [reflexivity | discriminate].
      * apply emitted_one. simpl. now rewrite events_saveToStorage.
  - unfold isJobSaved, unsaveJob. rewrite indexOf_includes.
    destruct (JsArray.indexOf (savedJobs s) x) as [i |] eqn:Ei; [| reflexivity].
    split.
    + apply emitted_one. simpl. now rewrite events_saveToStorage.
    + simpl. rewrite savedJobs_saveToStorage. simpl.
      now apply occurrences_delete_indexOf.
Qed.

End SavedJobs.

(** C5 as worded fails in a state where the job is already saved: the two
    calls emit nothing. *)
Lemma saveJob_twice_emits_once_fails :
  ~ saveJob_twice_emits_once (H := example_runtime)
      (JobPortalState.saveJob (H := example_runtime) "j1"
         (JobPortalState.new Storage.empty)) "j1".
Proof.
  unfold saveJob_twice_emits_once. vm_compute. intros (_ & _ & E). discriminate E.
Qed.

(** From a first visit, saving a job that is not saved yet. *)
Lemma saveJob_idempotent_example :
  JobPortalState.isJobSaved "j1"
    (JobPortalState.saveJob (H := example_runtime) "j1"
       (JobPortalState.saveJob (H := example_runtime) "j1"
          (JobPortalState.new Storage.empty))) = true.
Proof.
  exact (proj1 (saveJob_idempotent (H := example_runtime)
                  (JobPortalState.new Storage.empty) "j1")).
Defined.


(** ** Applications *)

Section Applications.
Context `{Runtime}.
Import JobPortalState.

Lemma applications_saveToStorage k s :
  applications (saveToStorage k s) = applications s.
Proof. unfold saveToStorage. now destruct (setItem_accepts _ _). Qed.

Lemma allJobs_saveToStorage k s : allJobs (saveToStorage k s) = allJobs s.
Proof. unfold saveToStorage. now destruct (setItem_accepts _ _). Qed.

Lemma userJobs_saveToStorage k s : userJobs (saveToStorage k s) = userJobs s.
Proof. unfold saveToStorage. now destruct (setItem_accepts _ _). Qed.

Lemma hasApplied_true (jobId : string) (s : State) :
  hasApplied jobId s = true
  <-> exists app, In app (applications s) /\ Application.jobId app = jobId.
Proof.
  unfold hasApplied, JsArray.some. rewrite existsb_exists.
  split; intros (app & Hin & E); exists app; split; try assumption.
  - now apply String.eqb_eq.
  - now apply String.eqb_eq.
Qed.

Lemma find_none_absent (jobId : string) (jobs : list Job.t) :
  JsArray.find (fun j => Job.id j =? jobId) jobs = None
  <-> forall j, In j jobs -> Job.id j <> jobId.
Proof.
  unfold JsArray.find. split.
  - intros E j Hin Eid. apply (List.find_none _ _ E) in Hin.
    apply String.eqb_neq in Hin. contradiction.
  - intros Habs. destruct (List.find _ jobs) as [j |] eqn:E; [| reflexivity].
    apply List.find_some in E as [Hin Eid]. apply String.eqb_eq in Eid.
    now apply Habs in Hin.
Qed.

(** C1. [applyForJob(x, details)] throws [DuplicateApplication] when an
    application for [x] exists, and otherwise [JobNotFound] when no job of
    the collection has the identifier [x]; in both cases the state, and so
    the list of applications, is as before. Otherwise it appends exactly
    one application, whose title and company are those of the job found
    for [x] and whose status is pending, emits [applicationSubmitted] with
    it and returns it. *)
Theorem applyForJob_guards (s : State) (x : string) (d : Application.details)
    (uid now : string) :
  let applied := exists app, In app (applications s) /\ Application.jobId app = x in
  let absent := forall j, In j (allJobs s) -> Job.id j <> x in
  (applied -> applyForJob x d uid now s = (Throw DuplicateApplication, s))
  /\ (~ applied -> absent -> applyForJob x d uid now s = (Throw JobNotFound, s))
  /\ match applyForJob x d uid now s with
     | (Throw e, s') =>
         s' = s
         /\ ((applied /\ e = DuplicateApplication)
             \/ (~ applied /\ absent /\ e = JobNotFound))
     | (Normal a, s') =>
         ~ applied
         /\ (exists job,
               JsArray.find (fun j => Job.id j =? x) (allJobs s) = Some job
               /\ In job (allJobs s) /\ Job.id job = x
               /\ Application.jobTitle a = Job.title job
               /\ Application.company a = Job.company job)
         /\ Application.jobId a = x
         /\ Application.status a = "pending"
         /\ Application.name a = Application.d_name d
         /\ Application.email a = Application.d_email d
         /\ Application.coverLetter a = Application.d_coverLetter d
         /\ getApplications s' = (getApplications s ++ [a])%list
         /\ emitted s s' = [applicationSubmitted a]
         /\ allJobs s' = allJobs s
     end.
Proof.
  intros applied absent. unfold applyForJob.
  destruct (hasApplied x s) eqn:Eh.
  - assert (Ha : applied) by now apply hasApplied_true.
    split; [reflexivity |]. split; [intros Hn; contradiction |].
    split; [reflexivity |]. left. now split.
  - assert (Hn : ~ applied).
    { intros Ha. apply hasApplied_true in Ha. congruence. }
    split; [intros Ha; contradiction |].
    destruct (JsArray.find _ (allJobs s)) as [job |] eqn:Ef.
    + pose proof Ef as Ef'. unfold JsArray.find in Ef'.
      apply List.find_some in Ef' as [Hin Eid]. apply String.eqb_eq in Eid.
      split; [intros _ Habs; now apply Habs in Hin |].
      split; [exact Hn |]. split.
      { exists job. repeat split; auto. }
      simpl. unfold getApplications.
      repeat split; try reflexivity.
      * simpl. now rewrite applications_saveToStorage.
      * apply emitted_one. simpl. now rewrite events_saveToStorage.
      * simpl. now rewrite allJobs_saveToStorage.
    + assert (Habs : absent) by (unfold absent; now apply find_none_absent).
      split; [reflexivity |].
      split; [reflexivity |]. right. now repeat split.
Qed.

End Applications.

(** The scenario of the specification: with job [j1] loaded and a first
    application by Ann on record, a second call for [j1] throws
    [DuplicateApplication], and one application is on record. *)
Lemma applyForJob_scenario :
  JobPortalState.applyForJob (H := example_runtime) "j1" ann "2" "1002"
    after_first_application
  = (Throw DuplicateApplication, after_first_application)
  /\ length (JobPortalState.getApplications after_first_application) = 1%nat.
Proof.
  split; [| reflexivity].
  apply (proj1 (applyForJob_guards (H := example_runtime)
                  after_first_application "j1" ann "2" "1002")).
  eexists. split; [left; reflexivity | reflexivity].
Defined.


(** ** Updating a job *)

Section UpdateJob.
Context `{Runtime}.
Import JobPortalState.

Lemma findIndex_None {A : Type} (p : A -> bool) (l : list A) :
  JsArray.findIndex p l = None <-> forall x, In x l -> p x = false.
Proof.
  induction l as [| y l IH]; simpl.
  - split; [intros _ x [] | reflexivity].
  - destruct (p y) eqn:Ey.
    + split; [discriminate |]. intros Hall. rewrite (Hall y) in Ey by now left.
      discriminate.
    + destruct (JsArray.findIndex p l) as [i |]; simpl.
      * split; [discriminate |]. intros Hall.
        assert (E : Some i = None) by (apply IH; intros x Hx; apply Hall; now right).
        discriminate.
      * split; [| reflexivity]. intros _ x [<- | Hx]; [exact Ey |].
        now apply IH.
Qed.

Lemma findIndex_Some {A : Type} (p : A -> bool) (l : list A) (i : nat) :
  JsArray.findIndex p l = Some i ->
  exists x, l !! i = Some x /\ p x = true
            /\ forall k y, (k < i)%nat -> l !! k = Some y -> p y = false.
Proof.
  revert i. induction l as [| y l IH]; simpl; intros i E; [discriminate |].
  destruct (p y) eqn:Ey.
  - injection E as <-. exists y. repeat split; auto. intros k z Hk. lia.
  - destruct (JsArray.findIndex p l) as [j |]; [| discriminate].
    injection E as <-. destruct (IH j eq_refl) as (x & Hx & Px & Hmin).
    exists x. repeat split; auto.
    intros [| k] z Hk Hz; simpl in Hz.
    + now injection Hz as <-.
    + apply (Hmin k); [lia | exact Hz].
Qed.

Lemma absent_findIndex (jobId : string) (jobs : list Job.t) :
  (forall j, In j jobs -> Job.id j <> jobId)
  <-> JsArray.findIndex (fun job => Job.id job =? jobId) jobs = None.
Proof.
  rewrite findIndex_None. split; intros Hx j Hin.
  - apply String.eqb_neq. now apply Hx.
  - apply String.eqb_neq. now apply Hx.
Qed.

Lemma find_findIndex {A : Type} (p : A -> bool) (l : list A) :
  JsArray.find p l
  = match JsArray.findIndex p l with
    | Some i => l !! i
    | None => None
    end.
Proof.
  unfold JsArray.find. induction l as [| y l IH]; simpl; [reflexivity |].
  destruct (p y); [reflexivity |]. rewrite IH.
  now destruct (JsArray.findIndex p l).
Qed.

Lemma userJobs_applyFilters s : userJobs (applyFilters s) = userJobs s.
Proof. reflexivity. Qed.

Lemma allJobs_applyFilters s : allJobs (applyFilters s) = allJobs s.
Proof. reflexivity. Qed.

Lemma events_applyFilters s : events (applyFilters s) = events s.
Proof. reflexivity. Qed.

Lemma merge_patched (old : Job.t) (patch : Job.patch) (now : string) :
  patched old patch now (Job.merge old patch now).
Proof.
  unfold patched, Job.merge.
  cbn [Job.id Job.title Job.description Job.company Job.location
         Job.salary_from Job.salary_to Job.employment_type
         Job.application_deadline Job.qualifications Job.contact
         Job.job_category Job.is_remote_work Job.number_of_opening
         Job.created_at Job.updated_at Job.source].
  repeat split; unfold laid_over;
    match goal with
    | |- match ?p with _ => _ end => destruct p; reflexivity
    end.
Qed.

(** C9. [updateJob(id, patch)] cannot throw: it is a function from states
    to states. When no job of the two collections has the identifier, both
    collections are left as they are. When the identifier is found in the
    user jobs, the record there is replaced by the record with the patch
    merged into it; when it is found in all jobs, the record there is
    replaced by that same merged record, or by its own merge with the patch
    when the user jobs do not hold the identifier. In the merged record
    every key that the patch carries has the value of the patch, every
    other key is as it was, and [updated_at] is the new date. The merged
    record is what [jobUpdated] announces. *)
Theorem updateJob_merges_or_leaves (s : State) (jobId : string)
    (patch : Job.patch) (now : string) :
  let s' := updateJob jobId patch now s in
  let hasId := fun job : Job.t => Job.id job =? jobId in
  let absent := fun jobs : list Job.t => forall j, In j jobs -> Job.id j <> jobId in
  (* unknown identifier: nothing changes in the collections *)
  (absent (getUserJobs s) -> absent (getAllJobs s) ->
   getUserJobs s' = getUserJobs s /\ getAllJobs s' = getAllJobs s
   /\ emitted s s' = [jobUpdated None; jobsUpdated (getFilteredJobs s')])
  (* the user jobs *)
  /\ match JsArray.findIndex hasId (getUserJobs s) with
     | Some i =>
         exists old merged,
           getUserJobs s !! i = Some old /\ Job.id old = jobId
           /\ patched old patch now merged
           /\ getUserJobs s' = <[i := merged]> (getUserJobs s)
           /\ emitted s s'
              = [jobUpdated (Some merged); jobsUpdated (getFilteredJobs s')]
     | None => getUserJobs s' = getUserJobs s
     end
  (* all jobs *)
  /\ match JsArray.findIndex hasId (getAllJobs s) with
     | Some k =>
         exists old merged,
           getAllJobs s !! k = Some old /\ Job.id old = jobId
           /\ match JsArray.find hasId (getUserJobs s) with
              | Some mine => patched mine patch now merged
              | None => patched old patch now merged
              end
           /\ getAllJobs s' = <[k := merged]> (getAllJobs s)
           /\ emitted s s'
              = [jobUpdated (Some merged); jobsUpdated (getFilteredJobs s')]
     | None => getAllJobs s' = getAllJobs s
     end.
Proof.
  intros s' hasId absent.
  unfold getUserJobs, getAllJobs, getFilteredJobs.
  rewrite find_findIndex.
  unfold s', updateJob, emitted. fold hasId.
  destruct (JsArray.findIndex hasId (userJobs s)) as [i |] eqn:Eu.
  - destruct (findIndex_Some _ _ _ Eu) as (old & Hold & Pold & _).
    apply String.eqb_eq in Pold. rewrite Hold.
    rewrite allJobs_saveToStorage. cbn [allJobs set_userJobs].
    destruct (JsArray.findIndex hasId (allJobs s)) as [k |] eqn:Ea.
    + destruct (findIndex_Some _ _ _ Ea) as (old' & Hold' & Pold' & _).
      apply String.eqb_eq in Pold'. rewrite Hold'. cbn.
      rewrite ?userJobs_saveToStorage, ?allJobs_saveToStorage,
        ?events_saveToStorage. cbn.
      rewrite <- app_assoc, drop_app_length.
      split; [| split].
      * intros Hu _. apply absent_findIndex in Hu. unfold getUserJobs in Hu.
        fold hasId in Hu. congruence.
      * exists old, (Job.merge old patch now).
        split; [reflexivity |]. split; [exact Pold |].
        split; [apply merge_patched |]. split; reflexivity.
      * exists old', (Job.merge old patch now).
        split; [reflexivity |]. split; [exact Pold' |].
        split; [apply merge_patched |]. split; reflexivity.
    + cbn. rewrite ?userJobs_saveToStorage, ?allJobs_saveToStorage,
        ?events_saveToStorage. cbn.
      rewrite <- app_assoc, drop_app_length.
      split; [| split]; auto.
      * intros Hu _. apply absent_findIndex in Hu. unfold getUserJobs in Hu.
        fold hasId in Hu. congruence.
      * exists old, (Job.merge old patch now).
        split; [reflexivity |]. split; [exact Pold |].
        split; [apply merge_patched |]. split; reflexivity.
  - destruct (JsArray.findIndex hasId (allJobs s)) as [k |] eqn:Ea.
    + destruct (findIndex_Some _ _ _ Ea) as (old' & Hold' & Pold' & _).
      apply String.eqb_eq in Pold'. rewrite Hold'. cbn.
      rewrite <- app_assoc, drop_app_length.
      split; [| split]; auto.
      * intros _ Ha. apply absent_findIndex in Ha. unfold getAllJobs in Ha.
        fold hasId in Ha. congruence.
      * exists old', (Job.merge old' patch now).
        split; [reflexivity |]. split; [exact Pold' |].
        split; [apply merge_patched |]. split; reflexivity.
    + cbn. rewrite <- app_assoc, drop_app_length.
      split; [| split]; auto.
Qed.

End UpdateJob.

(** With job [j1] loaded, updating the unknown [j2] leaves the jobs as they
    are, and renaming [j1] replaces it by the record with the new title and
    date and every other field as it was. *)
Lemma updateJob_example :
  (JobPortalState.getUserJobs
     (JobPortalState.updateJob (H := example_runtime) "j2" (rename_patch "Lead")
        "2000" with_j1)
   = JobPortalState.getUserJobs with_j1
   /\ JobPortalState.getAllJobs
        (JobPortalState.updateJob (H := example_runtime) "j2" (rename_patch "Lead")
           "2000" with_j1)
      = JobPortalState.getAllJobs with_j1)
  /\ exists merged,
       JobPortalState.getAllJobs
         (JobPortalState.updateJob (H := example_runtime) "j1"
            (rename_patch "Lead") "2000" with_j1)
       = [merged]
       /\ Job.title merged = "Lead"
       /\ Job.updated_at merged = "2000"
       /\ Job.id merged = Job.id job_j1
       /\ Job.company merged = Job.company job_j1
       /\ Job.description merged = Job.description job_j1
       /\ Job.salary_from merged = Job.salary_from job_j1.
Proof.
  split.
  - destruct (updateJob_merges_or_leaves (H := example_runtime) with_j1 "j2"
                (rename_patch "Lead") "2000") as (Hno & _).
    destruct Hno as (Eu & Ea & _).
    + intros j [].
    + intros j [<- | []]. discriminate.
    + split; [exact Eu | exact Ea].
  - destruct (updateJob_merges_or_leaves (H := example_runtime) with_j1 "j1"
                (rename_patch "Lead") "2000") as (_ & _ & Hall).
    change (JsArray.findIndex (fun job : Job.t => Job.id job =? "j1")
              (JobPortalState.getAllJobs with_j1)) with (Some 0%nat) in Hall.
    destruct Hall as (old & merged & Eold & _ & Hp & Eall & _).
    injection Eold as <-.
    change (JsArray.find (fun job : Job.t => Job.id job =? "j1")
              (JobPortalState.getUserJobs with_j1)) with (@None Job.t) in Hp.
    destruct Hp as (Hid & Htitle & Hdesc & Hcomp & _ & Hfrom & _ & _ & _ & _
                    & _ & _ & _ & _ & _ & _ & Hdate).
    exists merged. split; [exact Eall |].
    repeat split; assumption.
Defined.

(** ** Sorting *)

Section Sorting.
Context {A : Type} (cmp : A -> A -> JsNumber.number).

Lemma sort_insert_Permutation (x : A) (l : list A) :
  Permutation (x :: l) (JsArray.sort_insert cmp x l).
Proof.
  induction l as [| y l IH]; simpl; [reflexivity |].
  destruct (JsNumber.is_positive (cmp x y)); [| reflexivity].
  rewrite perm_swap. now apply perm_skip.
Qed.

Lemma sort_Permutation (l : list A) : Permutation l (JsArray.sort cmp l).
Proof.
  induction l as [| x l IH]; simpl; [reflexivity |].
  rewrite <- sort_insert_Permutation. now apply perm_skip.
Qed.

Lemma sort_length (l : list A) : length (JsArray.sort cmp l) = length l.
Proof. symmetry. apply Permutation_length, sort_Permutation. Qed.

(** When the comparator follows an order [R] ([a] may stay before [b]
    unless the comparator is positive, and then [b] may stay before [a]),
    the sort yields a list ordered by [R]. *)
Section Ordered.
Variable R : A -> A -> Prop.
Hypothesis R_trans : forall x y z, R x y -> R y z -> R x z.
Hypothesis cmp_positive : forall x y, JsNumber.is_positive (cmp x y) = true -> R y x.
Hypothesis cmp_not_positive :
  forall x y, JsNumber.is_positive (cmp x y) = false -> R x y.

Lemma sort_insert_sorted (x : A) (l : list A) :
  StronglySorted R l -> StronglySorted R (JsArray.sort_insert cmp x l).
Proof.
  induction l as [| y l IH]; simpl; intros Hs.
  - constructor; [constructor | constructor].
  - apply StronglySorted_inv in Hs as [Hs Hy].
    destruct (JsNumber.is_positive (cmp x y)) eqn:E.
    + constructor; [now apply IH |].
      apply (Permutation_Forall (sort_insert_Permutation x l)).
      constructor; [now apply cmp_positive | exact Hy].
    + apply cmp_not_positive in E.
      constructor; [now constructor |].
      constructor; [exact E |].
      eapply List.Forall_impl; [| exact Hy]. intros z Hz. now apply (R_trans x y z).
Qed.

Lemma sort_sorted (l : list A) : StronglySorted R (JsArray.sort cmp l).
Proof.
  induction l as [| x l IH]; simpl; [constructor |].
  now apply sort_insert_sorted.
Qed.

End Ordered.

End Sorting.

(** ** Filtering *)

Section Filtering.
Context `{Runtime}.
Import JobPortalState.

Lemma prefix_spec (p s : string) :
  String.prefix p s = true <-> exists post, s = p ++ post.
Proof.
  revert s. induction p as [| c p IH]; intros s.
  - split; [intros _; now exists s | now destruct s].
  - destruct s as [| d s]; simpl.
    + split; [discriminate | intros (post & E); discriminate].
    + destruct (ascii_dec c d) as [-> | Hne].
      * rewrite IH. split; intros (post & E); exists post; congruence.
      * split; [discriminate | intros (post & E); congruence].
Qed.

Lemma includes_spec (hay ndl : string) :
  JsString.includes hay ndl = true <-> JsString.substring_of ndl hay.
Proof.
  unfold JsString.substring_of. induction hay as [| c hay IH];
    cbn [JsString.includes].
  - destruct (String.prefix ndl EmptyString) eqn:E.
    + split; [intros _ | reflexivity].
      apply prefix_spec in E as (post & E). now exists EmptyString, post.
    + split; [discriminate |]. intros (pre & post & E').
      destruct pre; simpl in E'; [| discriminate].
      assert (String.prefix ndl EmptyString = true) by (apply prefix_spec; eauto).
      congruence.
  - destruct (String.prefix ndl (String c hay)) eqn:E.
    + split; [intros _ | reflexivity].
      apply prefix_spec in E as (post & E). now exists EmptyString, post.
    + rewrite IH. split.
      * intros (pre & post & ->). now exists (String c pre), post.
      * intros (pre & post & E'). destruct pre as [| d pre]; simpl in E'.
        -- assert (String.prefix ndl (String c hay) = true)
             by (apply prefix_spec; eauto).
           congruence.
        -- injection E' as -> ->. now exists pre, post.
Qed.

Lemma truthy_false (s : string) : JsString.truthy s = false <-> s = EmptyString.
Proof.
  unfold JsString.truthy. rewrite negb_false_iff. apply String.eqb_eq.
Qed.

Lemma passes_filtersb_spec (f : Filters.t) (job : Job.t) :
  passes_filtersb f job = true <-> passes_filters f job.
Proof.
  unfold passes_filtersb, passes_filters, searchHit, locationHit.
  rewrite !andb_true_iff, !orb_true_iff, !negb_true_iff, !truthy_false,
    !includes_spec, String.eqb_eq.
  tauto.
Qed.

Lemma filter_if {A : Type} (c : bool) (p : A -> bool) (l : list A) :
  (if c then List.filter p l else l) = List.filter (fun x => negb c || p x) l.
Proof.
  destruct c; simpl; [reflexivity |].
  induction l as [| x l IH]; simpl; congruence.
Qed.

Lemma filter_filter {A : Type} (p q : A -> bool) (l : list A) :
  List.filter q (List.filter p l) = List.filter (fun x => p x && q x) l.
Proof.
  induction l as [| x l IH]; simpl; [reflexivity |].
  destruct (p x); simpl; [| exact IH]. destruct (q x); congruence.
Qed.

(** What [applyFilters] stores: the jobs that pass, sorted. *)
Lemma filteredJobs_applyFilters (s : State) :
  filteredJobs (applyFilters s)
  = JsArray.sort (compareJobs (Filters.sort (filters s)))
      (List.filter (passes_filtersb (filters s)) (allJobs s)).
Proof.
  unfold applyFilters. cbn [filteredJobs set_filteredJobs]. f_equal.
  rewrite !filter_if, !filter_filter. apply List.filter_ext.
  intros job. unfold passes_filtersb. now rewrite !andb_assoc.
Qed.

Lemma view_is_filtered_applyFilters (s : State) : view_is_filtered (applyFilters s).
Proof.
  unfold view_is_filtered, getFilteredJobs, getAllJobs, getFilters.
  rewrite filteredJobs_applyFilters. cbn [allJobs filters applyFilters set_filteredJobs].
  assert (P : Permutation
                (JsArray.sort (compareJobs (Filters.sort (filters s)))
                   (List.filter (passes_filtersb (filters s)) (allJobs s)))
                (List.filter (passes_filtersb (filters s)) (allJobs s)))
    by (symmetry; apply sort_Permutation).
  split; [| exact P].
  intros job. rewrite <- passes_filtersb_spec, <- List.filter_In.
  split; apply Permutation_in; [exact P | now symmetry].
Qed.

(** The filtering depends on the jobs and the filters only. *)
Lemma view_is_filtered_ext (s s' : State) :
  filteredJobs s' = filteredJobs s -> allJobs s' = allJobs s ->
  filters s' = filters s -> view_is_filtered s -> view_is_filtered s'.
Proof.
  unfold view_is_filtered, getFilteredJobs, getAllJobs, getFilters.
  now intros -> -> ->.
Qed.

(** C2. The view that [applyFilters] computes, and so the view that
    [getFilteredJobs] returns after every call that recomputes it
    ([setAllJobs], [setFilters], [resetFilters], [addJob], [updateJob],
    [deleteJob]), holds exactly the jobs of the collection that pass the
    conjunction of the four filters: search (the lowercased term occurs in
    the lowercased title, company or description), remote only, category
    (exact match) and location (the lowercased term occurs in the
    lowercased location), an empty or unset filter letting every job
    pass. *)
Theorem getFilteredJobs_conjunction (s : State) :
  view_is_filtered (applyFilters s)
  /\ (forall jobs, view_is_filtered (setAllJobs jobs s))
  /\ (forall newFilters, view_is_filtered (setFilters newFilters s))
  /\ view_is_filtered (resetFilters s)
  /\ (forall d uid created updated,
         view_is_filtered (snd (addJob d uid created updated s)))
  /\ (forall jobId patch now, view_is_filtered (updateJob jobId patch now s))
  /\ (forall jobId, view_is_filtered (deleteJob jobId s)).
Proof.
  split; [apply view_is_filtered_applyFilters |].
  split; [| split; [| split; [| split; [| split]]]]; intros.
  - eapply view_is_filtered_ext; [| | | apply view_is_filtered_applyFilters];
      reflexivity.
  - eapply view_is_filtered_ext; [| | | apply view_is_filtered_applyFilters];
      reflexivity.
  - eapply view_is_filtered_ext; [| | | apply view_is_filtered_applyFilters];
      reflexivity.
  - eapply view_is_filtered_ext; [| | | apply view_is_filtered_applyFilters];
      reflexivity.
  - unfold updateJob.
    repeat match goal with
           | |- context [match ?x with _ => _ end] => destruct x
           end;
      (eapply view_is_filtered_ext; [| | | apply view_is_filtered_applyFilters];
       reflexivity).
  - eapply view_is_filtered_ext; [| | | apply view_is_filtered_applyFilters];
      reflexivity.
Qed.

End Filtering.

(** ** Sorting by salary *)

Section SalarySort.
Context `{Runtime}.
Import JobPortalState.

Lemma avgSalary_average (missing : JsNumber.number) (j : Job.t) :
  avgSalary missing j
  = match average j with
    | Some q => JsNumber.Finite q
    | None => missing
    end.
Proof.
  unfold avgSalary, average, JsNumber.truthy.
  destruct (Job.salary_from j) as [lo |], (Job.salary_to j) as [hi |];
    try reflexivity.
  now destruct (negb (lo =? 0)%Z && negb (hi =? 0)%Z).
Qed.

Lemma is_positive_Finite (q : Q) :
  JsNumber.is_positive (JsNumber.Finite q) = true <-> (0 < q)%Q.
Proof.
  unfold JsNumber.is_positive. destruct (Qlt_le_dec 0 q) as [L | L].
  - tauto.
  - split; [discriminate | intros L'; lra].
Qed.

Lemma is_not_positive_Finite (q : Q) :
  JsNumber.is_positive (JsNumber.Finite q) = false <-> (q <= 0)%Q.
Proof.
  unfold JsNumber.is_positive. destruct (Qlt_le_dec 0 q) as [L | L].
  - split; [discriminate | intros L'; lra].
  - tauto.
Qed.

Lemma sorted_salary_high (l : list Job.t) :
  StronglySorted (descending average) (JsArray.sort (compareJobs "salary_high") l).
Proof.
  apply sort_sorted; unfold descending; change (compareJobs "salary_high")
    with (fun a b => JsNumber.sub (avgSalary (JsNumber.of_Z 0) b)
                       (avgSalary (JsNumber.of_Z 0) a)); cbv beta.
  - intros x y z Hxy Hyz. lra.
  - intros x y. rewrite !avgSalary_average.
    destruct (average x) as [a |], (average y) as [b |];
      cbn [JsNumber.sub JsNumber.of_Z from_option id];
      rewrite is_positive_Finite; unfold inject_Z; intros L; lra.
  - intros x y. rewrite !avgSalary_average.
    destruct (average x) as [a |], (average y) as [b |];
      cbn [JsNumber.sub JsNumber.of_Z from_option id];
      rewrite is_not_positive_Finite; unfold inject_Z; intros L; lra.
Qed.

Lemma sorted_salary_low (l : list Job.t) :
  StronglySorted (ascending average) (JsArray.sort (compareJobs "salary_low") l).
Proof.
  apply sort_sorted; unfold ascending; change (compareJobs "salary_low")
    with (fun a b => JsNumber.sub (avgSalary JsNumber.Infinity a)
                       (avgSalary JsNumber.Infinity b)); cbv beta.
  - intros x y z.
    destruct (average x) as [a |], (average y) as [b |], (average z) as [c |];
      try tauto.
    intros; lra.
  - intros x y. rewrite !avgSalary_average.
    destruct (average x) as [a |], (average y) as [b |];
      cbn [JsNumber.sub JsNumber.is_positive]; try discriminate; try tauto.
    fold (JsNumber.is_positive (JsNumber.Finite (a - b))).
    rewrite is_positive_Finite. intros L; lra.
  - intros x y. rewrite !avgSalary_average.
    destruct (average x) as [a |], (average y) as [b |];
      cbn [JsNumber.sub JsNumber.is_positive]; try discriminate; try tauto.
    fold (JsNumber.is_positive (JsNumber.Finite (a - b))).
    rewrite is_not_positive_Finite. intros L; lra.
Qed.

Lemma filteredJobs_setFilters (newFilters : Filters.partial) (s : State) :
  getFilteredJobs (setFilters newFilters s)
  = JsArray.sort
      (compareJobs (Filters.sort (Filters.merge (filters s) newFilters)))
      (List.filter (passes_filtersb (Filters.merge (filters s) newFilters))
         (allJobs s)).
Proof.
  unfold getFilteredJobs, setFilters. cbn [filteredJobs emit set_events].
  rewrite filteredJobs_applyFilters.
  unfold saveToStorage. now destruct (setItem_accepts _ _).
Qed.

Lemma filters_saveToStorage k s : filters (saveToStorage k s) = filters s.
Proof. unfold saveToStorage. now destruct (setItem_accepts _ _). Qed.

Lemma view_after_reload (key : string) (jobs : list Job.t) (s : State) :
  getFilteredJobs (setFilters (sort_by key) (resetFilters (setAllJobs jobs s)))
  = JsArray.sort (compareJobs key) jobs.
Proof.
  rewrite filteredJobs_setFilters.
  assert (Ef : filters (resetFilters (setAllJobs jobs s)) = defaultFilters).
  { unfold resetFilters. cbn [filters emit set_events applyFilters set_filteredJobs].
    now rewrite filters_saveToStorage. }
  assert (Ea : allJobs (resetFilters (setAllJobs jobs s)) = jobs).
  { unfold resetFilters. cbn [allJobs emit set_events applyFilters set_filteredJobs].
    now rewrite allJobs_saveToStorage. }
  rewrite Ef, Ea. cbn [Filters.merge Filters.sort sort_by Filters.p_sort from_option id].
  f_equal. clear Ef Ea. induction jobs as [| j jobs IH]; [reflexivity |].
  cbn [List.filter]. change (passes_filtersb _ j) with true. cbv iota.
  now f_equal.
Qed.

(** C3, as amended. Under the sort [salary_high] the filtered view is in
    descending order of the average of the two salary bounds, a job of
    which a bound is missing or zero counting as average 0 (so it follows
    every job of positive average); under [salary_low] the view is in
    ascending order of the same average, such a job counting as
    [+Infinity] (so it follows every job that has an average). For a job
    whose bounds are not zero this is the average of the bounds it has. For
    the jobs A (50000 to 70000), B (no salary) and C (100000 to 120000),
    loaded in any order, [salary_high] yields [C, A, B] and [salary_low]
    yields [A, C, B]. *)
Theorem salary_sort_orders (s : State) :
  StronglySorted (descending average)
    (getFilteredJobs (setFilters (sort_by "salary_high") s))
  /\ StronglySorted (ascending average)
       (getFilteredJobs (setFilters (sort_by "salary_low") s))
  /\ (forall j,
         (Job.salary_from j = Some 0%Z \/ Job.salary_to j = Some 0%Z)
         \/ average j = stated_average j)
  /\ Forall
       (fun jobs =>
          getFilteredJobs
            (setFilters (sort_by "salary_high") (resetFilters (setAllJobs jobs s)))
          = [job_C; job_A; job_B]
          /\ getFilteredJobs
               (setFilters (sort_by "salary_low") (resetFilters (setAllJobs jobs s)))
             = [job_A; job_C; job_B])
       orders_ABC.
Proof.
  split; [| split; [| split]].
  - rewrite filteredJobs_setFilters. apply sorted_salary_high.
  - rewrite filteredJobs_setFilters. apply sorted_salary_low.
  - intros j. unfold average, stated_average.
    destruct (Job.salary_from j) as [lo |], (Job.salary_to j) as [hi |]; auto.
    destruct (Z.eqb_spec lo 0) as [-> | ?]; [now left; left |].
    destruct (Z.eqb_spec hi 0) as [-> | ?]; [now left; right |].
    now right.
  - unfold orders_ABC.
    repeat (constructor; [rewrite !view_after_reload; split; vm_compute; reflexivity |]).
    constructor.
Qed.

End SalarySort.

(** C3 as worded fails for a job that has a bound of zero: with X (0 to
    100000, average 50000) and Y (10000 to 20000, average 15000) loaded,
    [salary_high] puts Y first, X counting as average 0. And a job without
    salary is not always last under [salary_high]: it precedes a job of
    negative average. *)
Lemma salary_high_zero_bound :
  JobPortalState.getFilteredJobs
    (JobPortalState.setFilters (H := example_runtime) (sort_by "salary_high")
       (JobPortalState.setAllJobs (H := example_runtime) [job_X; job_Y]
          (JobPortalState.new Storage.empty)))
  = [job_Y; job_X]
  /\ ~ StronglySorted (descending stated_average)
         (JobPortalState.getFilteredJobs
            (JobPortalState.setFilters (H := example_runtime) (sort_by "salary_high")
               (JobPortalState.setAllJobs (H := example_runtime) [job_X; job_Y]
                  (JobPortalState.new Storage.empty))))
  /\ JobPortalState.getFilteredJobs
       (JobPortalState.setFilters (H := example_runtime) (sort_by "salary_high")
          (JobPortalState.setAllJobs (H := example_runtime) [job_N; job_B]
             (JobPortalState.new Storage.empty)))
     = [job_B; job_N].
Proof.
  assert (E : JobPortalState.getFilteredJobs
    (JobPortalState.setFilters (H := example_runtime) (sort_by "salary_high")
       (JobPortalState.setAllJobs (H := example_runtime) [job_X; job_Y]
          (JobPortalState.new Storage.empty)))
  = [job_Y; job_X]) by (vm_compute; reflexivity).
  split; [exact E |]. split; [| vm_compute; reflexivity].
  rewrite E. intros Hs.
  apply StronglySorted_inv in Hs as [_ Hs].
  apply Forall_inv in Hs. unfold descending, stated_average in Hs.
  vm_compute in Hs. apply Hs. reflexivity.
Qed.

(** ** The page after the job set shrinks *)

Section PageBounds.
Context `{Runtime}.
Import JobPortalState.

Lemma currentPage_saveToStorage k s :
  currentPage (saveToStorage k s) = currentPage s.
Proof. unfold saveToStorage. now destruct (setItem_accepts _ _). Qed.

Ltac page_steps :=
  repeat first
    [ rewrite currentPage_saveToStorage
    | progress cbn [currentPage emit set_events applyFilters set_filteredJobs
                      set_allJobs set_userJobs set_applications set_savedJobs
                      set_filters set_theme set_userRole set_currentPage
                      set_localStorage init fst snd] ];
  try reflexivity.

Lemma currentPage_setTheme (th : string) (s : State) :
  currentPage (setTheme th s) = currentPage s.
Proof.
  unfold setTheme. destruct (negb (th =? "light") && negb (th =? "dark"));
    page_steps.
Qed.

Lemma currentPage_setUserRole (role : string) (s : State) :
  currentPage (snd (setUserRole role s)) = currentPage s.
Proof.
  unfold setUserRole.
  destruct (negb (role =? "job_seeker") && negb (role =? "recruiter"));
    page_steps.
Qed.

Lemma currentPage_importData (data : Snapshot.t) (s : State) :
  currentPage (snd (importData data s)) = currentPage s.
Proof.
  unfold importData.
  assert (Ha : forall a,
             a = match Snapshot.userRole data with
                 | Some role => if JsString.truthy role then setUserRole role s
                                else (Normal tt, s)
                 | None => (Normal tt, s)
                 end -> currentPage (snd a) = currentPage s).
  { intros a ->. destruct (Snapshot.userRole data) as [role |]; [| reflexivity].
    destruct (JsString.truthy role); [| reflexivity].
    apply currentPage_setUserRole. }
  specialize (Ha _ eq_refl).
  destruct (match Snapshot.userRole data with
            | Some role => _
            | None => _
            end) as [[[] | e] s1]; cbn [snd] in *; [| exact Ha].
  destruct (Snapshot.filters data), (Snapshot.savedJobs data),
    (Snapshot.userJobs data), (Snapshot.applications data),
    (Snapshot.theme data) as [th |];
    try destruct (JsString.truthy th);
    page_steps; rewrite ?currentPage_setTheme; exact Ha.
Qed.

(** The page that each call leaves. *)
Lemma currentPage_run (op : Op) (s : State) :
  currentPage (run op s) = page_after op s.
Proof.
  destruct op; cbn [run page_after].
  - apply currentPage_setUserRole.
  - apply currentPage_setTheme.
  - reflexivity.
  - unfold addJob. page_steps.
  - unfold updateJob.
    destruct (JsArray.findIndex _ (userJobs s)) as [i |];
      [destruct (userJobs s !! i) |];
      match goal with
      | |- context [JsArray.findIndex ?p (allJobs ?t)] =>
          destruct (JsArray.findIndex p (allJobs t)) as [k |];
          [destruct (allJobs t !! k) |]
      end; page_steps.
  - unfold deleteJob. page_steps.
  - unfold applyForJob. destruct (hasApplied jobId s); [reflexivity |].
    destruct (JsArray.find _ (allJobs s)); page_steps.
  - unfold updateApplicationStatus.
    destruct (JsArray.findIndex _ (applications s)) as [i |]; [| reflexivity].
    destruct (applications s !! i); page_steps.
  - unfold saveJob. destruct (negb (isJobSaved jobId s)); page_steps.
  - unfold unsaveJob. destruct (JsArray.indexOf (savedJobs s) jobId); page_steps.
  - unfold setPage.
    destruct (Z.eqb_spec (currentPage s)
                (Z.max 1 (Z.min page (PaginationInfo.totalPages (getPaginationInfo s)))))
      as [E | E]; cbn [negb]; page_steps. exact E.
  - unfold setFilters. page_steps.
  - unfold resetFilters. page_steps.
  - reflexivity.
  - apply currentPage_importData.
  - reflexivity.
Qed.

Lemma filteredJobs_length_default (s : State) :
  filters s = defaultFilters ->
  length (filteredJobs (applyFilters s)) = length (allJobs s).
Proof.
  intros E. rewrite filteredJobs_applyFilters, sort_length, E. f_equal.
  induction (allJobs s) as [| j jobs IH]; [reflexivity |].
  cbn [List.filter]. change (passes_filtersb _ j) with true. cbv iota.
  now f_equal.
Qed.

Lemma slice_past_the_end {A : Type} (l : list A) (first last : Z) :
  (Z.of_nat (length l) <= first)%Z -> JsArray.slice first last l = [].
Proof.
  intros Hl. unfold JsArray.slice, JsArray.slice_bound.
  destruct (Z.ltb_spec first 0); [exfalso; lia |].
  rewrite (Z.min_r first) by lia. rewrite Nat2Z.id. rewrite drop_all. apply take_nil.
Qed.

Lemma getPaginationInfo_eq (s : State) (n : nat) :
  length (filteredJobs s) = n ->
  getPaginationInfo s
  = {| PaginationInfo.currentPage := currentPage s;
       PaginationInfo.totalPages := totalPagesOf (Z.of_nat n);
       PaginationInfo.totalItems := Z.of_nat n;
       PaginationInfo.hasPrevPage := (1 <? currentPage s)%Z;
       PaginationInfo.hasNextPage := (currentPage s <? totalPagesOf (Z.of_nat n))%Z |}.
Proof. intros <-. reflexivity. Qed.

(** The store after the ten jobs are loaded, and then on page 2. *)
Lemma ten_jobs_loaded :
  let s := run (SetAllJobs ten_jobs) (new Storage.empty) in
  length (filteredJobs s) = 10%nat /\ currentPage s = 1%Z
  /\ allJobs s = ten_jobs /\ filters s = defaultFilters.
Proof.
  cbv zeta. split; [| repeat split].
  change (filteredJobs (run (SetAllJobs ten_jobs) (new Storage.empty)))
    with (filteredJobs (applyFilters (set_allJobs ten_jobs (new Storage.empty)))).
  now rewrite filteredJobs_length_default.
Qed.

Lemma on_page_two_fields :
  length (filteredJobs on_page_two) = 10%nat /\ currentPage on_page_two = 2%Z
  /\ allJobs on_page_two = ten_jobs /\ filters on_page_two = defaultFilters.
Proof.
  destruct ten_jobs_loaded as (El & Ec & Ea & Ef).
  unfold on_page_two.
  set (s := run (SetAllJobs ten_jobs) (new Storage.empty)) in *.
  change (run (SetPage 2) s) with (setPage 2 s).
  unfold setPage. rewrite (getPaginationInfo_eq s 10 El). cbn [PaginationInfo.totalPages].
  rewrite Ec. change (Z.max 1 (Z.min 2 (totalPagesOf (Z.of_nat 10)))) with 2%Z.
  cbn [Z.eqb negb]. cbv iota.
  cbn [filteredJobs currentPage allJobs filters emit set_events set_currentPage].
  auto.
Qed.

(** C10. The current page is set to 1 by the calls that change the filters
    (and when the store is cleared or built again), [setPage] sets it to
    the clamped page, and every other call, those that change the job set
    among them, leaves it as it is. So the page can end up past the last
    one: in the session that loads ten jobs and goes to page 2, the page
    is within its bounds, and after [deleteJob] removes one job, or
    [setAllJobs] loads nine, [getPaginationInfo] reports page 2 of 1 and
    [getPaginatedJobs] returns no job although nine are in the view. *)
Theorem currentPage_not_clamped :
  (forall op s, currentPage (run op s) = page_after op s)
  /\ (forall s jobId, currentPage (deleteJob jobId s) = currentPage s)
  /\ (forall s jobs, currentPage (setAllJobs jobs s) = currentPage s)
  /\ (forall s jobId patch now,
         currentPage (updateJob jobId patch now s) = currentPage s)
  /\ (forall s d uid created updated,
         currentPage (snd (addJob d uid created updated s)) = currentPage s)
  /\ (forall s newFilters, currentPage (setFilters newFilters s) = 1%Z)
  /\ (forall s, currentPage (resetFilters s) = 1%Z)
  /\ reachable on_page_two
  /\ page_in_bounds on_page_two
  /\ Forall
       (fun s' =>
          reachable s'
          /\ PaginationInfo.currentPage (getPaginationInfo s') = 2%Z
          /\ PaginationInfo.totalPages (getPaginationInfo s') = 1%Z
          /\ PaginationInfo.totalItems (getPaginationInfo s') = 9%Z
          /\ getPaginatedJobs s' = []
          /\ ~ page_in_bounds s')
       [deleteJob "j9" on_page_two;
        setAllJobs (List.removelast ten_jobs) on_page_two].
Proof.
  destruct on_page_two_fields as (El & Ec & Ea & Ef).
  split; [intros op s; apply currentPage_run |].
  split; [| split; [| split; [| split; [| split; [| split; [| split; [| split]]]]]]].
  - intros s jobId. unfold deleteJob.
    cbn [currentPage emit set_events applyFilters set_filteredJobs set_allJobs].
    now rewrite currentPage_saveToStorage.
  - reflexivity.
  - intros s jobId patch now. unfold updateJob.
    destruct (JsArray.findIndex _ (userJobs s)) as [i |];
      [destruct (userJobs s !! i) |];
      match goal with
      | |- context [JsArray.findIndex ?p (allJobs ?t)] =>
          destruct (JsArray.findIndex p (allJobs t)) as [k |];
          [destruct (allJobs t !! k) |]
      end;
      cbn [currentPage emit set_events applyFilters set_filteredJobs set_allJobs];
      rewrite ?currentPage_saveToStorage; reflexivity.
  - intros s d uid created updated. unfold addJob.
    cbn [snd currentPage emit set_events applyFilters set_filteredJobs].
    now rewrite currentPage_saveToStorage.
  - intros s newFilters. unfold setFilters.
    cbn [currentPage emit set_events applyFilters set_filteredJobs].
    now rewrite currentPage_saveToStorage.
  - intros s. unfold resetFilters.
    cbn [currentPage emit set_events applyFilters set_filteredJobs].
    now rewrite currentPage_saveToStorage.
  - unfold on_page_two. do 2 apply reachable_run. apply reachable_new.
  - unfold page_in_bounds. rewrite (getPaginationInfo_eq _ 10 El).
    cbn [PaginationInfo.currentPage PaginationInfo.totalPages]. rewrite Ec.
    change (totalPagesOf (Z.of_nat 10)) with 2%Z. lia.
  - assert (Hnine : forall s', reachable s' -> length (filteredJobs s') = 9%nat ->
                               currentPage s' = 2%Z ->
              reachable s'
              /\ PaginationInfo.currentPage (getPaginationInfo s') = 2%Z
              /\ PaginationInfo.totalPages (getPaginationInfo s') = 1%Z
              /\ PaginationInfo.totalItems (getPaginationInfo s') = 9%Z
              /\ getPaginatedJobs s' = []
              /\ ~ page_in_bounds s').
    { intros s' Hr El' Ec'. unfold page_in_bounds.
      rewrite (getPaginationInfo_eq _ 9 El').
      cbn [PaginationInfo.currentPage PaginationInfo.totalPages
             PaginationInfo.totalItems].
      rewrite Ec'. change (totalPagesOf (Z.of_nat 9)) with 1%Z.
      repeat split; auto; [| lia].
      unfold getPaginatedJobs. rewrite Ec'. apply slice_past_the_end.
      rewrite El'. unfold itemsPerPage. lia. }
    constructor; [| constructor; [| constructor]].
    + apply Hnine.
      * apply (reachable_run (DeleteJob "j9")).
        unfold on_page_two. do 2 apply reachable_run. apply reachable_new.
      * unfold deleteJob.
        cbn [filteredJobs emit set_events].
        rewrite filteredJobs_length_default.
        -- cbn [allJobs set_allJobs]. rewrite allJobs_saveToStorage.
           cbn [allJobs set_userJobs]. now rewrite Ea.
        -- cbn [filters set_allJobs]. rewrite filters_saveToStorage. exact Ef.
      * unfold deleteJob.
        cbn [currentPage emit set_events applyFilters set_filteredJobs set_allJobs].
        now rewrite currentPage_saveToStorage.
    + apply Hnine.
      * apply (reachable_run (SetAllJobs (List.removelast ten_jobs))).
        unfold on_page_two. do 2 apply reachable_run. apply reachable_new.
      * unfold setAllJobs. cbn [filteredJobs emit set_events].
        now rewrite filteredJobs_length_default.
      * exact Ec.
Qed.

End PageBounds.

(** ** Export and import *)

Section ExportImport.
Context `{Runtime}.
Import JobPortalState.

Lemma role_ok_test (role : string) :
  negb (role =? "job_seeker") && negb (role =? "recruiter") = false
  <-> role_ok role.
Proof.
  unfold role_ok.
  destruct (String.eqb_spec role "job_seeker"), (String.eqb_spec role "recruiter");
    simpl; intuition congruence.
Qed.

Lemma role_ok_truthy (role : string) : role_ok role -> JsString.truthy role = true.
Proof. intros [-> | ->]; reflexivity. Qed.

(** *** The role stays one of the two *)

Lemma role_invariant_ext (s s' : State) :
  userRole s' = userRole s -> localStorage s' = localStorage s ->
  role_invariant s -> role_invariant s'.
Proof. unfold role_invariant. now intros -> ->. Qed.

Lemma role_invariant_saveToStorage (k : Storage.key) (s : State) :
  role_invariant s -> role_invariant (saveToStorage k s).
Proof.
  intros [Hr Hs]. unfold saveToStorage.
  destruct (setItem_accepts k (localStorage s)); [| now split].
  split; [exact Hr |]. intros role.
  destruct k; cbn; try apply Hs. now intros [= <-].
Qed.

Lemma role_invariant_init (s : State) :
  (forall role, Storage.user_role (localStorage s) = Some role -> role_ok role) ->
  role_invariant (init s).
Proof.
  intros Hs. split; [| exact Hs]. cbn. unfold stored_string.
  destruct (Storage.user_role (localStorage s)) as [role |] eqn:E;
    [| now left].
  destruct (JsString.truthy role); [now apply Hs | now left].
Qed.

Lemma role_invariant_setUserRole (role : string) (s : State) :
  role_invariant s -> role_invariant (snd (setUserRole role s)).
Proof.
  intros Hi. unfold setUserRole.
  destruct (negb (role =? "job_seeker") && negb (role =? "recruiter")) eqn:E;
    [exact Hi |].
  apply role_ok_test in E. cbn [snd].
  apply (role_invariant_ext (saveToStorage Storage.USER_ROLE (set_userRole role s)));
    try reflexivity.
  apply role_invariant_saveToStorage. split; [exact E | apply Hi].
Qed.

Lemma role_invariant_setTheme (th : string) (s : State) :
  role_invariant s -> role_invariant (setTheme th s).
Proof.
  intros Hi. unfold setTheme.
  destruct (negb (th =? "light") && negb (th =? "dark")); [exact Hi |].
  apply (role_invariant_ext (saveToStorage Storage.THEME (set_theme th s)));
    try reflexivity.
  now apply role_invariant_saveToStorage.
Qed.

(** A call that ends with notifications over a state whose role is as
    before. *)
Ltac role_steps :=
  repeat first
    [ assumption
    | apply role_invariant_saveToStorage
    | match goal with
      | |- role_invariant (emit _ ?s) =>
          apply (role_invariant_ext s); [reflexivity | reflexivity |]
      | |- role_invariant (applyFilters ?s) =>
          apply (role_invariant_ext s); [reflexivity | reflexivity |]
      | |- role_invariant (set_applications _ ?s) =>
          apply (role_invariant_ext s); [reflexivity | reflexivity |]
      | |- role_invariant (set_userJobs _ ?s) =>
          apply (role_invariant_ext s); [reflexivity | reflexivity |]
      | |- role_invariant (set_savedJobs _ ?s) =>
          apply (role_invariant_ext s); [reflexivity | reflexivity |]
      | |- role_invariant (set_theme _ ?s) =>
          apply (role_invariant_ext s); [reflexivity | reflexivity |]
      | |- role_invariant (set_filters _ ?s) =>
          apply (role_invariant_ext s); [reflexivity | reflexivity |]
      | |- role_invariant (set_currentPage _ ?s) =>
          apply (role_invariant_ext s); [reflexivity | reflexivity |]
      | |- role_invariant (set_allJobs _ ?s) =>
          apply (role_invariant_ext s); [reflexivity | reflexivity |]
      | |- role_invariant (set_filteredJobs _ ?s) =>
          apply (role_invariant_ext s); [reflexivity | reflexivity |]
      end ].

Lemma role_invariant_importData (data : Snapshot.t) (s : State) :
  role_invariant s -> role_invariant (snd (importData data s)).
Proof.
  intros Hi. unfold importData.
  assert (Ha : forall a,
             a = match Snapshot.userRole data with
                 | Some role => if JsString.truthy role then setUserRole role s
                                else (Normal tt, s)
                 | None => (Normal tt, s)
                 end -> role_invariant (snd a)).
  { intros a ->. destruct (Snapshot.userRole data) as [role |]; [| exact Hi].
    destruct (JsString.truthy role); [| exact Hi].
    now apply role_invariant_setUserRole. }
  specialize (Ha _ eq_refl).
  destruct (match Snapshot.userRole data with
            | Some role => _
            | None => _
            end) as [[[] | e] s1]; cbn [snd] in *; [| exact Ha].
  destruct (Snapshot.filters data), (Snapshot.savedJobs data),
    (Snapshot.userJobs data), (Snapshot.applications data),
    (Snapshot.theme data) as [th |];
    try destruct (JsString.truthy th);
    role_steps; now apply role_invariant_setTheme.
Qed.

Lemma role_invariant_run (op : Op) (s : State) :
  role_invariant s -> role_invariant (run op s).
Proof.
  intros Hi. destruct op; cbn [run].
  - now apply role_invariant_setUserRole.
  - now apply role_invariant_setTheme.
  - unfold setAllJobs. role_steps.
  - unfold addJob. cbn [snd]. role_steps.
  - unfold updateJob.
    destruct (JsArray.findIndex _ (userJobs s)) as [i |];
      [destruct (userJobs s !! i) |];
      match goal with
      | |- context [JsArray.findIndex ?p (allJobs ?t)] =>
          destruct (JsArray.findIndex p (allJobs t)) as [k |];
          [destruct (allJobs t !! k) |]
      end; role_steps.
  - unfold deleteJob. role_steps.
  - unfold applyForJob. destruct (hasApplied jobId s); [exact Hi |].
    destruct (JsArray.find _ (allJobs s)); [| exact Hi]. cbn [snd]. role_steps.
  - unfold updateApplicationStatus.
    destruct (JsArray.findIndex _ (applications s)) as [i |]; [| exact Hi].
    destruct (applications s !! i); [| exact Hi]. role_steps.
  - unfold saveJob. destruct (negb (isJobSaved jobId s)); [| exact Hi]. role_steps.
  - unfold unsaveJob. destruct (JsArray.indexOf (savedJobs s) jobId); [| exact Hi].
    role_steps.
  - unfold setPage. destruct (negb _); [| exact Hi]. role_steps.
  - unfold setFilters. role_steps.
  - unfold resetFilters. role_steps.
  - unfold clearAllData.
    apply (role_invariant_ext (init (set_localStorage Storage.empty s)));
      try reflexivity.
    apply role_invariant_init. cbn. discriminate.
  - now apply role_invariant_importData.
  - unfold new. apply role_invariant_init. cbn. apply Hi.
Qed.

Lemma reachable_role_invariant (s : State) : reachable s -> role_invariant s.
Proof.
  induction 1 as [| op s Hr IH].
  - unfold new. apply role_invariant_init. cbn. discriminate.
  - now apply role_invariant_run.
Qed.

(** *** Filters in a backup *)

Lemma merge_default_to_partial (f : Filters.t) :
  Filters.merge defaultFilters (Filters.to_partial f) = f.
Proof. now destruct f. Qed.

End ExportImport.

(** ** Numbers and [parseInt] *)

Section ParseInt.
Import JsValue.

(** *** White space *)

Lemma white_space_chars_bytes :
  white_space_chars
  = List.map (fun bytes => fold_right (fun b s => String (ascii_of_nat b) s)
                             EmptyString bytes)
      [ [9]; [11]; [12]; [32]; [194; 160]; [239; 187; 191];
        [225; 154; 128];
        [226; 128; 128]; [226; 128; 129]; [226; 128; 130]; [226; 128; 131];
        [226; 128; 132]; [226; 128; 133]; [226; 128; 134]; [226; 128; 135];
        [226; 128; 136]; [226; 128; 137]; [226; 128; 138];
        [226; 128; 175]; [226; 129; 159]; [227; 128; 128];
        [10]; [13]; [226; 128; 168]; [226; 128; 169] ]%nat.
Proof. vm_compute. reflexivity. Qed.

Lemma append_assoc (a b c : string) : (a ++ b) ++ c = a ++ b ++ c.
Proof. induction a as [| x a IH]; cbn; [reflexivity | now rewrite IH]. Qed.

Lemma ascii_of_code (c : ascii) (n : nat) : nat_of_ascii c = n -> c = ascii_of_nat n.
Proof. intros <-. symmetry. apply ascii_nat_embedding. Qed.

Ltac in_white :=
  rewrite white_space_chars_bytes; cbn [List.map fold_right In]; tauto.

Lemma is_space_white (c : ascii) :
  is_space c = true -> In (String c EmptyString) white_space_chars.
Proof.
  unfold is_space. intros Hs.
  assert (E : (nat_of_ascii c = 9 \/ nat_of_ascii c = 10 \/ nat_of_ascii c = 11
               \/ nat_of_ascii c = 12 \/ nat_of_ascii c = 13
               \/ nat_of_ascii c = 32)%nat).
  { destruct (Nat.leb_spec 9 (nat_of_ascii c)), (Nat.leb_spec (nat_of_ascii c) 13),
      (Nat.eqb_spec (nat_of_ascii c) 32); cbn in Hs; try discriminate; lia. }
  repeat destruct E as [E | E]; apply ascii_of_code in E; subst c; in_white.
Qed.

Lemma is_space2_white (c1 c2 : ascii) :
  is_space2 c1 c2 = true ->
  In (String c1 (String c2 EmptyString)) white_space_chars.
Proof.
  unfold is_space2. intros Hs. apply andb_true_iff in Hs as [E1 E2].
  apply Nat.eqb_eq, ascii_of_code in E1, E2. subst. in_white.
Qed.

Lemma is_space3_white (c1 c2 c3 : ascii) :
  is_space3 c1 c2 c3 = true ->
  In (String c1 (String c2 (String c3 EmptyString))) white_space_chars.
Proof.
  unfold is_space3. intros Hs.
  repeat match type of Hs with
         | (_ || _)%bool = true => apply orb_true_iff in Hs as [Hs | Hs]
         end;
    repeat match goal with
           | H : (_ && _)%bool = true |- _ => apply andb_true_iff in H as [? ?]
           | H : (_ || _)%bool = true |- _ => apply orb_true_iff in H as [? | ?]
           | H : (_ =? _)%nat = true |- _ => apply Nat.eqb_eq, ascii_of_code in H
           end;
    subst; try in_white.
  (* U+2000 to U+200A *)
  match goal with
  | H1 : (128 <=? _)%nat = true, H2 : (_ <=? 138)%nat = true |- _ =>
      apply Nat.leb_le in H1, H2
  end.
  assert (E : (nat_of_ascii c3 = 128 \/ nat_of_ascii c3 = 129
               \/ nat_of_ascii c3 = 130 \/ nat_of_ascii c3 = 131
               \/ nat_of_ascii c3 = 132 \/ nat_of_ascii c3 = 133
               \/ nat_of_ascii c3 = 134 \/ nat_of_ascii c3 = 135
               \/ nat_of_ascii c3 = 136 \/ nat_of_ascii c3 = 137
               \/ nat_of_ascii c3 = 138)%nat) by lia.
  repeat destruct E as [E | E]; apply ascii_of_code in E; subst c3; in_white.
Qed.

Lemma trimStart_white_char (c s : string) :
  In c white_space_chars -> trimStart (c ++ s) = trimStart s.
Proof.
  rewrite white_space_chars_bytes. cbn [List.map fold_right In].
  intros Hin. repeat destruct Hin as [<- | Hin]; try reflexivity.
  destruct Hin.
Qed.

(** The white space that starts a string is skipped. *)
Lemma trimStart_white (ws t : string) :
  white ws -> trimStart (ws ++ t) = trimStart t.
Proof.
  induction 1 as [| c s Hc Hs IH]; [reflexivity |].
  now rewrite append_assoc, trimStart_white_char.
Qed.

(** Nothing else is skipped. *)
Lemma trimStart_black (s : string) : starts_black s -> trimStart s = s.
Proof.
  intros Hb. destruct s as [| c1 r1]; [reflexivity |]. cbn [trimStart].
  destruct (is_space c1) eqn:E1.
  { exfalso. exact (Hb _ r1 (is_space_white c1 E1) eq_refl). }
  destruct r1 as [| c2 r2]; [reflexivity |].
  destruct (is_space2 c1 c2) eqn:E2.
  { exfalso. exact (Hb _ r2 (is_space2_white c1 c2 E2) eq_refl). }
  destruct r2 as [| c3 r3]; [reflexivity |].
  destruct (is_space3 c1 c2 c3) eqn:E3; [| reflexivity].
  exfalso. exact (Hb _ r3 (is_space3_white c1 c2 c3 E3) eq_refl).
Qed.

(** A string that starts with a character below 128 that is no white
    space starts with no white space. *)
Lemma starts_black_ascii (c : ascii) (r : string) :
  (nat_of_ascii c < 128)%nat -> is_space c = false ->
  starts_black (String c r).
Proof.
  intros Hlt Hs w t Hin E. rewrite white_space_chars_bytes in Hin.
  cbn [List.map fold_right In] in Hin.
  repeat destruct Hin as [<- | Hin]; try destruct Hin;
    cbn in E; injection E as -> _;
    first [ discriminate Hs | vm_compute in Hlt; lia ].
Qed.

Lemma digit_char_spec (d : Z) :
  (0 <= d < 10)%Z ->
  digit_value 10 (digit_char d) = Some d /\ is_digit (digit_char d) = true.
Proof.
  intros Hd.
  assert (E : (d = 0 \/ d = 1 \/ d = 2 \/ d = 3 \/ d = 4 \/ d = 5 \/ d = 6
               \/ d = 7 \/ d = 8 \/ d = 9)%Z) by lia.
  repeat destruct E as [-> | E]; try subst d; split; reflexivity.
Qed.

Lemma is_digit_facts (c : ascii) :
  is_digit c = true ->
  is_space c = false /\ Ascii.eqb c "-" = false /\ Ascii.eqb c "+" = false
  /\ Ascii.eqb c "x" = false /\ Ascii.eqb c "X" = false.
Proof.
  unfold is_digit, is_space. intros Hc.
  apply andb_true_iff in Hc as [Hlo Hhi].
  apply Nat.leb_le in Hlo, Hhi.
  repeat split.
  - destruct (Nat.leb_spec 9 (nat_of_ascii c)), (Nat.leb_spec (nat_of_ascii c) 13),
      (Nat.eqb_spec (nat_of_ascii c) 32); simpl; try reflexivity; lia.
  - apply Ascii.eqb_neq. intros ->. vm_compute in Hlo, Hhi. lia.
  - apply Ascii.eqb_neq. intros ->. vm_compute in Hlo, Hhi. lia.
  - apply Ascii.eqb_neq. intros ->. vm_compute in Hlo, Hhi. lia.
  - apply Ascii.eqb_neq. intros ->. vm_compute in Hlo, Hhi. lia.
Qed.

Lemma digits_from_spec (fuel : nat) :
  forall (n : Z) (acc : string) (b : bool),
    (0 <= n < 10 ^ Z.of_nat fuel)%Z -> (1 <= fuel)%nat ->
    leading_digits 10 b 0 (digits_from fuel n acc) = leading_digits 10 true n acc
    /\ (all_digits acc = true -> all_digits (digits_from fuel n acc) = true)
    /\ exists c r, digits_from fuel n acc = String c r.
Proof.
  induction fuel as [| fuel IH]; intros n acc b Hn Hf; [lia |].
  cbn [digits_from].
  pose proof (Z.div_mod n 10 ltac:(lia)) as Ed.
  pose proof (Z.mod_pos_bound n 10 ltac:(lia)) as Bd.
  destruct (digit_char_spec (n mod 10) Bd) as [Ev Ei].
  destruct (Z.eqb_spec (n / 10) 0) as [E0 | E0].
  - repeat split.
    + cbn [leading_digits]. rewrite Ev. f_equal. lia.
    + intros Ha. cbn [all_digits]. now rewrite Ei, Ha.
    + eauto.
  - assert (Hq : (0 <= n / 10 < 10 ^ Z.of_nat fuel)%Z).
    { split; [apply Z.div_pos; lia |].
      apply Z.div_lt_upper_bound; [lia |].
      rewrite Nat2Z.inj_succ, Z.pow_succ_r in Hn by lia. lia. }
    assert (Hf' : (1 <= fuel)%nat).
    { destruct fuel; [| lia]. simpl in Hq. lia. }
    destruct (IH (n / 10)%Z (String (digit_char (n mod 10)) acc) b Hq Hf')
      as (El & Ea & Ex).
    repeat split.
    + rewrite El. cbn [leading_digits]. rewrite Ev. f_equal. lia.
    + intros Ha. apply Ea. cbn [all_digits]. now rewrite Ei, Ha.
    + exact Ex.
Qed.

Lemma digits_fuel (n : Z) :
  (0 <= n)%Z -> (0 <= n < 10 ^ Z.of_nat (S (Z.to_nat (Z.log2 n))))%Z.
Proof.
  intros Hn. split; [exact Hn |].
  destruct (Z.eq_dec n 0%Z) as [-> | Hne]; [reflexivity |].
  pose proof (Z.log2_spec n ltac:(lia)) as [_ Hl].
  pose proof (Z.log2_nonneg n) as Hp.
  rewrite Nat2Z.inj_succ, Z2Nat.id by lia.
  eapply Z.lt_le_trans; [exact Hl |].
  apply Z.pow_le_mono_l. lia.
Qed.

(** The digits of [n] read back as [n]. *)
Lemma leading_digits_digits (n : Z) (b : bool) :
  (0 <= n)%Z -> leading_digits 10 b 0 (digits n) = Some n.
Proof.
  intros Hn. unfold digits.
  destruct (digits_from_spec _ n EmptyString b (digits_fuel n Hn) ltac:(lia))
    as (El & _). now rewrite El.
Qed.

Lemma all_digits_digits (n : Z) :
  (0 <= n)%Z -> all_digits (digits n) = true /\ exists c r, digits n = String c r.
Proof.
  intros Hn. unfold digits.
  destruct (digits_from_spec _ n EmptyString false (digits_fuel n Hn) ltac:(lia))
    as (_ & Ea & Ex). split; [now apply Ea | exact Ex].
Qed.

Lemma strip_zeros_spec (s : string) :
  s = fst (strip_zeros s) ++ zeros (snd (strip_zeros s))
  /\ String.length s
     = (String.length (fst (strip_zeros s)) + snd (strip_zeros s))%nat.
Proof.
  induction s as [| c r [IH IHl]]; [now split |].
  cbn [strip_zeros]. destruct (strip_zeros r) as [r' z]. cbn [fst snd] in *.
  destruct r' as [| c' r'].
  - destruct (Ascii.eqb_spec c "0") as [-> | Hne]; cbn [fst snd].
    + cbn in *. split; congruence.
    + cbn in *. split; congruence.
  - cbn [fst snd]. cbn in *. split; congruence.
Qed.

Lemma digits_from_length (fuel : nat) :
  forall (n : Z) (acc : string) (m : nat),
    (0 <= n < 10 ^ Z.of_nat m)%Z -> (1 <= m)%nat ->
    (String.length (digits_from fuel n acc) <= m + String.length acc)%nat.
Proof.
  induction fuel as [| fuel IH]; intros n acc m Hn Hm; cbn [digits_from]; [lia |].
  destruct (Z.eqb_spec (n / 10) 0) as [E0 | E0]; [cbn; lia |].
  destruct m as [| m]; [lia |].
  assert (Hq : (0 <= n / 10 < 10 ^ Z.of_nat m)%Z).
  { split; [apply Z.div_pos; lia |].
    apply Z.div_lt_upper_bound; [lia |].
    rewrite Nat2Z.inj_succ, Z.pow_succ_r in Hn by lia. lia. }
  assert (Hm' : (1 <= m)%nat).
  { destruct m; [| lia]. simpl in Hq. lia. }
  specialize (IH (n / 10)%Z (String (digit_char (n mod 10)) acc) m Hq Hm').
  cbn in IH. lia.
Qed.

(** The string form of an integer below [10^21] in magnitude is its sign
    and its digits. *)
Lemma number_toString_integer (z : Z) :
  z <> 0%Z -> (Z.abs z < 10 ^ 21)%Z ->
  number_toString z 0 = (if (z <? 0)%Z then "-" else EmptyString) ++ digits (Z.abs z).
Proof.
  intros Hz Hb. unfold number_toString.
  destruct (Z.eqb_spec z 0) as [? | _]; [contradiction |].
  destruct (strip_zeros_spec (digits (Z.abs z))) as [Es El].
  pose proof (digits_from_length (S (Z.to_nat (Z.log2 (Z.abs z)))) (Z.abs z)
                EmptyString 21 ltac:(split; [lia | exact Hb]) ltac:(lia)) as Hl.
  fold (digits (Z.abs z)) in Hl. cbn [String.length] in Hl.
  destruct (strip_zeros (digits (Z.abs z))) as [ds t]. cbn [fst snd] in *.
  rewrite El in Hl.
  replace (Z.of_nat (String.length ds) <=? Z.of_nat (String.length ds) + Z.of_nat t + 0)%Z
    with true by (symmetry; apply Z.leb_le; lia).
  replace (Z.of_nat (String.length ds) + Z.of_nat t + 0 <=? 21)%Z
    with true by (symmetry; apply Z.leb_le; lia).
  cbn [andb].
  replace (Z.to_nat (Z.of_nat (String.length ds) + Z.of_nat t + 0
                     - Z.of_nat (String.length ds))) with t by lia.
  rewrite <- Es. now destruct (z <? 0)%Z.
Qed.

(** *** Numerals *)

Lemma is_not_digit (c : ascii) : is_digit c = false -> digit_value 10 c = None.
Proof.
  destruct c as [[] [] [] [] [] [] [] []]; try reflexivity; discriminate.
Qed.

Lemma is_digit_ascii (c : ascii) :
  is_digit c = true -> (nat_of_ascii c < 128)%nat.
Proof.
  unfold is_digit. intros Hc. apply andb_true_iff in Hc as [_ Hhi].
  apply Nat.leb_le in Hhi. lia.
Qed.

Lemma of_uint_acc_value (u : Decimal.uint) (k : positive) :
  Z.pos (Pos.of_uint_acc u k)
  = (Z.pos k * 10 ^ Z.of_N (DecimalPos.Unsigned.usize u) + Z.of_uint u)%Z.
Proof.
  pose proof (DecimalPos.Unsigned.of_uint_acc_rev u k) as E.
  rewrite <- DecimalPos.Unsigned.of_uint_alt in E.
  apply (f_equal Z.of_N) in E.
  rewrite N2Z.inj_add, N2Z.inj_mul, N2Z.inj_pow in E. cbn [Z.of_N] in E.
  unfold Z.of_uint. change (Z.of_N 10) with 10%Z in E. lia.
Qed.

(** The number that a digit and a numeral write. *)
Lemma uint_of_char_value (c : ascii) (u u' : Decimal.uint) :
  DecimalString.uint_of_char c (Some u) = Some u' ->
  exists d,
    digit_value 10 c = Some d /\ is_digit c = true
    /\ DecimalPos.Unsigned.usize u' = N.succ (DecimalPos.Unsigned.usize u)
    /\ Z.of_uint u'
       = (d * 10 ^ Z.of_N (DecimalPos.Unsigned.usize u) + Z.of_uint u)%Z.
Proof.
  destruct c as [[] [] [] [] [] [] [] []]; cbn [DecimalString.uint_of_char];
    try discriminate; intros [= <-];
    lazymatch goal with
    | |- exists d, digit_value 10 ?c = _ /\ _ =>
        let v := eval vm_compute in (digit_value 10 c) in
        lazymatch v with Some ?d => exists d end
    end;
    (split; [reflexivity |]); (split; [reflexivity |]);
    (split; [reflexivity |]);
    unfold Z.of_uint at 1; cbn [Pos.of_uint Z.of_N];
    rewrite ?of_uint_acc_value; unfold Z.of_uint; lia.
Qed.

(** The digits of a numeral are read up to the first character that is no
    digit. *)
Lemma leading_digits_numeral (ds rest : string) :
  no_digit_first rest ->
  forall (u : Decimal.uint) (seen : bool) (acc : Z),
    DecimalString.NilEmpty.uint_of_string ds = Some u ->
    ds <> EmptyString \/ seen = true ->
    leading_digits 10 seen acc (ds ++ rest)
    = Some (acc * 10 ^ Z.of_N (DecimalPos.Unsigned.usize u) + Z.of_uint u)%Z.
Proof.
  intros Hrest. induction ds as [| c ds IH]; intros u seen acc Eu Hs.
  - injection Eu as <-. destruct Hs as [Hs | ->]; [contradiction |].
    cbn [String.append DecimalPos.Unsigned.usize Z.of_N Z.pow_pos].
    replace (acc * 10 ^ 0 + Z.of_uint Decimal.Nil)%Z with acc
      by (change (Z.of_uint Decimal.Nil) with 0%Z; lia).
    destruct rest as [| x rest]; [reflexivity |].
    cbn [leading_digits]. cbn in Hrest. now rewrite (is_not_digit x Hrest).
  - cbn [DecimalString.NilEmpty.uint_of_string] in Eu.
    destruct (DecimalString.NilEmpty.uint_of_string ds) as [u0 |] eqn:E0;
      [| discriminate Eu].
    destruct (uint_of_char_value c u0 u Eu) as (d & Ed & _ & Esize & Eval).
    cbn [String.append leading_digits]. rewrite Ed.
    rewrite (IH u0 true (acc * 10 + d)%Z eq_refl (or_intror eq_refl)).
    f_equal. rewrite Esize, Eval, N2Z.inj_succ, Z.pow_succ_r by lia. ring.
Qed.

Lemma numeral_first_digit (ds : string) (u : Decimal.uint) :
  DecimalString.NilEmpty.uint_of_string ds = Some u ->
  ds <> EmptyString ->
  exists c r, ds = String c r /\ is_digit c = true
              /\ (r = EmptyString
                  \/ exists x r', r = String x r' /\ is_digit x = true).
Proof.
  intros Eu Hne. destruct ds as [| c r]; [contradiction |].
  exists c, r. split; [reflexivity |].
  cbn [DecimalString.NilEmpty.uint_of_string] in Eu.
  destruct (DecimalString.NilEmpty.uint_of_string r) as [u0 |] eqn:E0;
    [| discriminate Eu].
  destruct (uint_of_char_value c u0 u Eu) as (d & _ & Hc & _).
  split; [exact Hc |].
  destruct r as [| x r']; [now left |]. right. exists x, r'.
  split; [reflexivity |].
  cbn [DecimalString.NilEmpty.uint_of_string] in E0.
  destruct (DecimalString.NilEmpty.uint_of_string r') as [u1 |] eqn:E1;
    [| discriminate E0].
  now destruct (uint_of_char_value x u1 u0 E0) as (d' & _ & Hx & _).
Qed.

(** What follows the sign: the radix is 10 and the numeral is read. *)
Lemma parse_numeral (ds rest : string) (n : Z) :
  writes ds n -> no_digit_first rest -> ~ hex_prefixed ds rest ->
  exists c r,
    ds ++ rest = String c r /\ is_digit c = true
    /\ match ds ++ rest with
       | String c0 (String x r0) =>
           if Ascii.eqb c0 "0" && (Ascii.eqb x "x" || Ascii.eqb x "X")
           then (16%Z, r0) else (10%Z, ds ++ rest)
       | _ => (10%Z, ds ++ rest)
       end = (10%Z, ds ++ rest)
    /\ leading_digits 10 false 0 (ds ++ rest) = Some n.
Proof.
  intros (Hne & u & Eu & ->) Hrest Hhex.
  destruct (numeral_first_digit ds u Eu Hne) as (c & r & -> & Hc & Hr).
  exists c, (r ++ rest). split; [reflexivity |]. split; [exact Hc |]. split.
  - cbn [String.append].
    destruct (r ++ rest) as [| x t] eqn:Et; [reflexivity |].
    destruct (Ascii.eqb_spec c "0") as [-> | Hn0]; [| reflexivity].
    destruct Hr as [-> | (x' & r' & -> & Hx)].
    + cbn [String.append] in Et. subst rest.
      destruct (Ascii.eqb_spec x "x") as [-> | Hx1].
      { exfalso. apply Hhex. split; [reflexivity |]. exists t. now left. }
      destruct (Ascii.eqb_spec x "X") as [-> | Hx2]; [| reflexivity].
      exfalso. apply Hhex. split; [reflexivity |]. exists t. now right.
    + cbn [String.append] in Et. injection Et as <- _.
      destruct (is_digit_facts x' Hx) as (_ & _ & _ & E1 & E2).
      now rewrite E1, E2.
  - rewrite (leading_digits_numeral _ rest Hrest u false 0 Eu (or_introl Hne)).
    f_equal; lia.
Qed.

(** After white space and an optional sign, a numeral that is followed by
    no digit is read as the number it writes. *)
Lemma parseInt_string_numeral (ws sgn ds rest : string) (sigma n : Z) :
  white ws -> signed sgn sigma -> writes ds n -> no_digit_first rest ->
  ~ hex_prefixed ds rest ->
  parseInt_string (ws ++ sgn ++ ds ++ rest) = Some (sigma * n)%Z.
Proof.
  intros Hw Hs Hd Hrest Hhex.
  destruct (parse_numeral ds rest n Hd Hrest Hhex) as (c & r & Et & Hc & Er & El).
  destruct (is_digit_facts c Hc) as (Hsp & Hm & Hp & _).
  unfold parseInt_string. rewrite (trimStart_white ws _ Hw).
  set (t := ds ++ rest) in *.
  assert (Hb : starts_black t)
    by (rewrite Et; apply starts_black_ascii; [now apply is_digit_ascii | exact Hsp]).
  destruct Hs; cbn [String.append].
  - rewrite (trimStart_black t Hb). clearbody t. subst t.
    rewrite Hm, Hp. rewrite Er, El. reflexivity.
  - rewrite trimStart_black by (apply starts_black_ascii; [vm_compute; lia | reflexivity]).
    change (Ascii.eqb "+" "-") with false. change (Ascii.eqb "+" "+") with true.
    cbv iota. rewrite Er, El. reflexivity.
  - rewrite trimStart_black by (apply starts_black_ascii; [vm_compute; lia | reflexivity]).
    change (Ascii.eqb "-" "-") with true. cbv iota. rewrite Er, El. reflexivity.
Qed.

(** With no digit after the white space and the sign, there is no
    number. *)
Lemma parseInt_string_no_digit (ws sgn rest : string) (sigma : Z) :
  white ws -> signed sgn sigma -> no_digit_first rest ->
  (sgn = EmptyString ->
   starts_black rest /\ forall r, rest <> String "+" r /\ rest <> String "-" r) ->
  parseInt_string (ws ++ sgn ++ rest) = None.
Proof.
  intros Hw Hs Hrest Hplain.
  assert (Hparse :
            (let '(radix, s) :=
               match rest with
               | String c (String x r) =>
                   if Ascii.eqb c "0" && (Ascii.eqb x "x" || Ascii.eqb x "X")
                   then (16%Z, r) else (10%Z, rest)
               | _ => (10%Z, rest)
               end in
             option_map (Z.mul sigma) (leading_digits radix false 0 s)) = None).
  { destruct rest as [| c t]; [reflexivity |]. cbn in Hrest.
    assert (E0 : Ascii.eqb c "0" = false).
    { apply Ascii.eqb_neq. intros ->. discriminate Hrest. }
    rewrite E0. cbn [andb].
    assert (El : leading_digits 10 false 0 (String c t) = None)
      by (cbn [leading_digits]; now rewrite (is_not_digit c Hrest)).
    destruct t; cbv zeta; now rewrite El. }
  unfold parseInt_string. rewrite (trimStart_white ws _ Hw).
  destruct Hs; cbn [String.append].
  - destruct (Hplain eq_refl) as [Hb Hsign]. rewrite (trimStart_black _ Hb).
    destruct rest as [| c t]; [reflexivity |].
    destruct (Ascii.eqb_spec c "-") as [-> | _];
      [now destruct (Hsign t) as [_ []] |].
    destruct (Ascii.eqb_spec c "+") as [-> | _];
      [now destruct (Hsign t) as [[] _] |].
    exact Hparse.
  - rewrite trimStart_black by (apply starts_black_ascii; [vm_compute; lia | reflexivity]).
    change (Ascii.eqb "+" "-") with false. change (Ascii.eqb "+" "+") with true.
    cbv iota. exact Hparse.
  - rewrite trimStart_black by (apply starts_black_ascii; [vm_compute; lia | reflexivity]).
    change (Ascii.eqb "-" "-") with true. cbv iota. exact Hparse.
Qed.

Lemma value_is_null (job : JsValue.value) :
  (job = Null \/ job = Undefined) \/ (job <> Null /\ job <> Undefined).
Proof. destruct job; (now left; auto) || (right; split; discriminate). Qed.

(** *** From a value to a number *)

(** The conversion to a string throws exactly on the values that have no
    string form. *)
Lemma toString_spec :
  forall v : value,
    match toString v with
    | Ok _ => ~ no_string_form v
    | Raise _ => no_string_form v
    end.
Proof.
  fix IH 1. intros [| | b | m e | s | items | props]; cbn [toString].
  - inversion 1.
  - inversion 1.
  - destruct b; inversion 1.
  - inversion 1.
  - inversion 1.
  - set (parts := fix parts (l : list value) : result (list string) :=
                    match l with
                    | [] => Ok []
                    | x :: r =>
                        bind match x with
                             | Undefined | Null => Ok EmptyString
                             | _ => toString x
                             end (fun p =>
                        bind (parts r) (fun ps => Ok (p :: ps)))
                    end).
    assert (Hparts : match parts items with
                     | Ok _ => forall x, In x items -> ~ no_string_form x
                     | Raise _ => exists x, In x items /\ no_string_form x
                     end).
    { induction items as [| x l IHl]; cbn [parts]; [intros x [] |].
      fold parts.
      assert (Hx : match match x with
                         | Undefined | Null => Ok EmptyString
                         | _ => toString x
                         end with
                   | Ok _ => ~ no_string_form x
                   | Raise _ => no_string_form x
                   end).
      { pose proof (IH x) as Hx. destruct x; try exact Hx; inversion 1. }
      destruct (match x with
                | Undefined | Null => Ok EmptyString
                | _ => toString x
                end) as [p | e]; cbn [bind].
      - destruct (parts l) as [ps | e]; cbn [bind].
        + intros y [<- | Hy]; [exact Hx | now apply IHl].
        + destruct IHl as (y & Hy & Hn). exists y. split; [now right | exact Hn].
      - exists x. split; [now left | exact Hx]. }
    destruct (parts items) as [ps | e]; cbn [bind].
    + intros Hn. inversion Hn as [| ? x Hin Hx]; subst. exact (Hparts x Hin Hx).
    + destruct Hparts as (x & Hin & Hx). exact (no_string_form_array items x Hin Hx).
  - destruct (lookup "toString" props) as [v |] eqn:E.
    + exact (no_string_form_object props v E).
    + intros Hn. inversion Hn; congruence.
Qed.

Lemma toString_raises (v : value) :
  (exists e, toString v = Raise e) <-> no_string_form v.
Proof.
  pose proof (toString_spec v) as Hs. split.
  - intros (e & E). now rewrite E in Hs.
  - intros Hn. destruct (toString v) as [s | e]; [contradiction | eauto].
Qed.

(** [parseInt] throws exactly on the values that have no string form. *)
Lemma parseInt_raises (v : value) :
  (exists e, parseInt v = Raise e) <-> no_string_form v.
Proof.
  rewrite <- toString_raises. unfold parseInt.
  destruct (toString v) as [s | e]; cbn [bind]; split; intros (e' & E);
    try discriminate; eauto.
Qed.

Lemma parseInt_total (v : value) :
  ~ no_string_form v -> exists n, parseInt v = Ok n.
Proof.
  intros Hn. destruct (parseInt v) as [n | e] eqn:E; [eauto |].
  exfalso. apply Hn, parseInt_raises. eauto.
Qed.

(** The digits of a number, after a minus sign or not, read back as the
    number. *)
Lemma parseInt_string_digits (n : Z) (negative : bool) :
  (0 <= n)%Z ->
  parseInt_string ((if negative then "-" else EmptyString) ++ digits n)
  = Some (if negative then - n else n)%Z.
Proof.
  intros Hn. unfold parseInt_string.
  destruct (all_digits_digits n Hn) as [Ha (c & r & Ed)].
  pose proof (leading_digits_digits n false Hn) as El.
  rewrite Ed in *. cbn [all_digits] in Ha.
  apply andb_true_iff in Ha as [Hc Hr].
  destruct (is_digit_facts c Hc) as (Hs & Hm & Hp & _).
  assert (Eradix :
            match String c r with
            | String c0 (String x r0) =>
                if Ascii.eqb c0 "0" && (Ascii.eqb x "x" || Ascii.eqb x "X")
                then (16%Z, r0) else (10%Z, String c r)
            | _ => (10%Z, String c r)
            end = (10%Z, String c r)).
  { destruct r as [| x r']; [reflexivity |]. cbn [all_digits] in Hr.
    apply andb_true_iff in Hr as [Hx _].
    destruct (is_digit_facts x Hx) as (_ & _ & _ & E1 & E2).
    now rewrite E1, E2, andb_false_r. }
  destruct negative; cbn [String.append].
  - rewrite trimStart_black by (apply starts_black_ascii; [vm_compute; lia | reflexivity]).
    change (Ascii.eqb "-" "-") with true. cbv iota.
    rewrite Eradix, El. cbn [option_map]. f_equal; lia.
  - rewrite trimStart_black
      by (apply starts_black_ascii; [now apply is_digit_ascii | exact Hs]).
    rewrite Hm, Hp, Eradix, El. cbn [option_map]. f_equal; lia.
Qed.

(** [parseInt] gives back an integer below [10^21] in magnitude. *)
Lemma parseInt_integer (z : Z) :
  z <> 0%Z -> (Z.abs z < 10 ^ 21)%Z -> parseInt (Int z) = Ok (Some z).
Proof.
  intros Hz Hb. unfold parseInt, Int. cbn [toString bind].
  rewrite (number_toString_integer z Hz Hb).
  rewrite (parseInt_string_digits (Z.abs z) (z <? 0)%Z) by lia.
  do 2 f_equal. destruct (Z.ltb_spec z 0); lia.
Qed.

End ParseInt.

(** ** The normalizer *)

Section Normalizer.
Context `{JobAPI.DateRuntime}.
Import JsValue JobAPI.

(** [parseInt(x) || null] and [parseInt(x) || 1] on what [parseInt]
    returns. *)
Lemma parseInt_or_null_spec (v : value) (n : option Z) :
  parseInt v = Ok n ->
  exists m,
    parseInt_or_null v = Ok m
    /\ (m = None <-> n = None \/ n = Some 0%Z)
    /\ (forall z, n = Some z -> z <> 0%Z -> m = Some z)
    /\ m <> Some 0%Z.
Proof.
  intros E. unfold parseInt_or_null. rewrite E. cbn [bind]. eexists.
  split; [reflexivity |].
  destruct n as [z |]; [destruct (Z.eqb_spec z 0) as [-> | Hz] |];
    repeat split; try tauto; try congruence; try (intros [? | ?]; congruence).
Qed.

Lemma parseInt_or_spec (v : value) (n : option Z) :
  parseInt v = Ok n ->
  exists m,
    parseInt_or 1 v = Ok m
    /\ (n = None \/ n = Some 0%Z -> m = 1%Z)
    /\ (forall z, n = Some z -> z <> 0%Z -> m = z)
    /\ m <> 0%Z.
Proof.
  intros E. unfold parseInt_or. rewrite E. cbn [bind]. eexists.
  split; [reflexivity |].
  destruct n as [z |]; [destruct (Z.eqb_spec z 0) as [-> | Hz] |];
    repeat split; try tauto; try congruence; try (intros [? | ?]; congruence);
    try lia.
Qed.

Lemma parseInt_or_null_raises (v : value) :
  (exists e, parseInt_or_null v = Raise e) <-> no_string_form v.
Proof.
  rewrite <- parseInt_raises. unfold parseInt_or_null.
  destruct (parseInt v); cbn [bind]; split; intros (e' & E);
    try discriminate; eauto.
Qed.

Lemma parseInt_or_raises (v : value) :
  (exists e, parseInt_or 1 v = Raise e) <-> no_string_form v.
Proof.
  rewrite <- parseInt_raises. unfold parseInt_or.
  destruct (parseInt v); cbn [bind]; split; intros (e' & E);
    try discriminate; eauto.
Qed.

(** The body of [normalizeJob] on a record that is neither [null] nor
    [undefined]: the three numeric fields are converted in turn. *)
Lemma normalizeJob_body_eq (r : Readings) (job : value) :
  job <> Null -> job <> Undefined ->
  normalizeJob_body r job
  = bind (parseInt_or_null (field job "salary_from")) (fun salary_from =>
    bind (parseInt_or_null (field job "salary_to")) (fun salary_to =>
    bind (parseInt_or 1 (field job "number_of_opening")) (fun number_of_opening =>
    Ok {| id := or (field job "id") (Str ("job_" ++ millis r ++ "_" ++ random r));
          title := or (field job "title") (Str "Untitled Position");
          description :=
            or (field job "description") (Str "No description available");
          company := or (field job "company") (Str "Unknown Company");
          location := or (field job "location") (Str "Location not specified");
          salary_from := salary_from;
          salary_to := salary_to;
          employment_type := or (field job "employment_type") (Str "Full-time");
          application_deadline := parseDate (field job "application_deadline");
          qualifications := parseQualifications (field job "qualifications");
          contact := or (field job "contact") (Str "No contact information");
          job_category := or (field job "job_category") (Str "Other");
          is_remote_work := truthy (field job "is_remote_work");
          number_of_opening := number_of_opening;
          created_at :=
            string_or (parseDate (field job "created_at")) (now_created r);
          updated_at :=
            string_or (parseDate (field job "updated_at")) (now_updated r);
          source := "api" |}))).
Proof.
  intros Hn Hu. destruct job; try contradiction; reflexivity.
Qed.

(** The body of [normalizeJob] throws exactly on the records that are
    dropped. *)
Lemma normalizeJob_body_throws (r : Readings) (job : value) :
  (exists e, normalizeJob_body r job = Raise e) <-> dropped job.
Proof.
  unfold dropped.
  destruct (value_is_null job) as [[-> | ->] | [Hn Hu]].
  - split; [now left | intros _; exists TypeError; reflexivity].
  - split; [now right; left | intros _; exists TypeError; reflexivity].
  - rewrite (normalizeJob_body_eq r job Hn Hu).
    rewrite <- (parseInt_or_null_raises (field job "salary_from")),
      <- (parseInt_or_null_raises (field job "salary_to")),
      <- (parseInt_or_raises (field job "number_of_opening")).
    destruct (parseInt_or_null (field job "salary_from")) as [a | e1];
      cbn [bind].
    2:{ split; [intros _; right; right; left; eauto | eauto]. }
    destruct (parseInt_or_null (field job "salary_to")) as [b | e2];
      cbn [bind].
    2:{ split; [intros _; right; right; right; left; eauto | eauto]. }
    destruct (parseInt_or 1 (field job "number_of_opening")) as [c | e3];
      cbn [bind].
    2:{ split; [intros _; right; right; right; right; eauto | eauto]. }
    split; [intros (e & E); discriminate E |].
    intros [E | [E | [(e & E) | [(e & E) | (e & E)]]]];
      try contradiction; discriminate E.
Qed.

(** What [normalizeJob] returns for a record that is not dropped, field
    by field; [a], [b] and [c] are what [parseInt] makes of the three
    numeric fields. *)
Lemma normalizeJob_fields (r : Readings) (job : value) :
  ~ dropped job ->
  exists j a b c,
    normalizeJob_body r job = Ok j /\ normalizeJob r job = Ok (Some j)
    /\ parseInt (field job "salary_from") = Ok a
    /\ parseInt (field job "salary_to") = Ok b
    /\ parseInt (field job "number_of_opening") = Ok c
    /\ id j = or (field job "id") (Str ("job_" ++ millis r ++ "_" ++ random r))
    /\ title j = or (field job "title") (Str "Untitled Position")
    /\ qualifications j = parseQualifications (field job "qualifications")
    /\ ((salary_from j = None <-> a = None \/ a = Some 0%Z)
        /\ forall z, a = Some z -> z <> 0%Z -> salary_from j = Some z)
    /\ ((salary_to j = None <-> b = None \/ b = Some 0%Z)
        /\ forall z, b = Some z -> z <> 0%Z -> salary_to j = Some z)
    /\ ((c = None \/ c = Some 0%Z -> number_of_opening j = 1%Z)
        /\ forall z, c = Some z -> z <> 0%Z -> number_of_opening j = z).
Proof.
  intros Hk. unfold dropped in Hk.
  assert (Hn : job <> Null) by tauto. assert (Hu : job <> Undefined) by tauto.
  destruct (parseInt_total (field job "salary_from") ltac:(tauto)) as (a & Ea).
  destruct (parseInt_total (field job "salary_to") ltac:(tauto)) as (b & Eb).
  destruct (parseInt_total (field job "number_of_opening") ltac:(tauto))
    as (c & Ec).
  destruct (parseInt_or_null_spec _ a Ea) as (ma & Ema & Ha1 & Ha2 & _).
  destruct (parseInt_or_null_spec _ b Eb) as (mb & Emb & Hb1 & Hb2 & _).
  destruct (parseInt_or_spec _ c Ec) as (mc & Emc & Hc1 & Hc2 & _).
  unfold normalizeJob. rewrite (normalizeJob_body_eq r job Hn Hu).
  rewrite Ema, Emb, Emc. cbn [bind try_catch].
  eexists. exists a, b, c. repeat split; try reflexivity; try assumption;
    cbn [salary_from salary_to number_of_opening]; try apply Ha1;
    try apply Hb1.
Qed.

Lemma normalizeJob_never_throws (r : Readings) (job : value) :
  normalizeJob r job
  = Ok match normalizeJob_body r job with
       | Ok j => Some j
       | Raise _ => None
       end.
Proof. unfold normalizeJob. now destruct (normalizeJob_body r job). Qed.

(** [normalizeJob] returns [null] exactly for the records that are
    dropped. *)
Lemma normalizeJob_dropped (r : Readings) (job : value) :
  normalizeJob r job = Ok None <-> dropped job.
Proof.
  rewrite <- (normalizeJob_body_throws r job), normalizeJob_never_throws.
  destruct (normalizeJob_body r job) as [j | e]; split;
    try discriminate; eauto.
  intros (e & E). discriminate E.
Qed.

Lemma map_from_normalizeJob (clock : nat -> Readings) (items : list value) :
  forall i,
    exists out,
      map_from (fun i => normalizeJob (clock i)) i items = Ok out
      /\ omap (fun job => job) out = normalized_records clock i items
      /\ length out = length items.
Proof.
  induction items as [| job rest IH]; intros i; cbn [map_from normalized_records].
  - now exists [].
  - rewrite normalizeJob_never_throws. cbn [bind].
    destruct (IH (S i)) as (out & -> & Eo & El). cbn [bind].
    eexists. split; [reflexivity |].
    destruct (normalizeJob_body (clock i) job); cbn; split; congruence.
Qed.

Lemma normalized_records_length (clock : nat -> Readings) (items : list value) :
  forall i, (length (normalized_records clock i items) <= length items)%nat.
Proof.
  induction items as [| job rest IH]; intros i; cbn [normalized_records length];
    [lia |].
  specialize (IH (S i)).
  destruct (normalizeJob_body (clock i) job); cbn [length]; lia.
Qed.

(** C7, as amended. [normalizeJobs] returns a list for every input and
    never throws:
    for an input that is no array the list is empty, and for an array it
    holds, in order, the normalized form of the records whose
    normalization does not throw, so it is no longer than the input. A
    record whose normalization throws makes [normalizeJob] return [null]
    and is left out: these are [null] and [undefined] (reading a property
    throws) and the records one of whose three numeric fields has no string
    form ([parseInt] throws). Among the records that are kept, a record
    whose qualifications are the string ["{not valid json"] has no
    qualifications, and a record with no title has the title
    ["Untitled Position"]. *)
Theorem normalizeJobs_total (clock : nat -> Readings) (jobs : value) :
  (exists normalized,
      normalizeJobs clock jobs = Ok normalized
      /\ match jobs with
         | Arr items =>
             normalized = normalized_records clock 0 items
             /\ (length normalized <= length items)%nat
         | _ => normalized = []
         end)
  /\ (forall r job,
         exists out, normalizeJob r job = Ok out
           /\ (out = None <-> exists e, normalizeJob_body r job = Raise e)
           /\ (out = None <-> dropped job))
  /\ (forall r props,
         lookup "qualifications" props = Some (Str "{not valid json") ->
         ~ dropped (Obj props) ->
         exists j, normalizeJob r (Obj props) = Ok (Some j) /\ qualifications j = [])
  /\ (forall r props,
         lookup "title" props = None ->
         ~ dropped (Obj props) ->
         exists j, normalizeJob r (Obj props) = Ok (Some j)
                   /\ title j = Str "Untitled Position").
Proof.
  split; [| split; [| split]].
  - destruct jobs; try (now exists []).
    cbn [normalizeJobs].
    destruct (map_from_normalizeJob clock items 0) as (out & -> & Eo & El).
    cbn [bind]. eexists. split; [reflexivity |]. split; [exact Eo |].
    rewrite Eo. apply normalized_records_length.
  - intros r job. rewrite normalizeJob_never_throws. eexists.
    split; [reflexivity |].
    rewrite <- normalizeJob_body_throws.
    split; (split; [| intros (e & ->); reflexivity]);
      destruct (normalizeJob_body r job); try discriminate; eauto.
  - intros r props Eq Hk.
    destruct (normalizeJob_fields r (Obj props) Hk)
      as (j & a & b & c & _ & En & _ & _ & _ & _ & _ & Equal & _).
    exists j. split; [exact En |]. rewrite Equal. unfold field. cbn [get].
    rewrite Eq. reflexivity.
  - intros r props Et Hk.
    destruct (normalizeJob_fields r (Obj props) Hk)
      as (j & a & b & c & _ & En & _ & _ & _ & _ & Etitle & _).
    exists j. split; [exact En |]. rewrite Etitle. unfold field. cbn [get].
    rewrite Et. reflexivity.
Qed.

(** C8, as amended. A record one of whose three numeric fields has no
    string form is dropped. For every other record the salary bounds are
    [parseInt(raw) || null] and the number of openings is
    [parseInt(raw) || 1]: a bound is [null] exactly when [parseInt] of the
    raw value is [NaN] or 0 and is the integer that [parseInt] returns
    otherwise, and the openings are 1 when it is [NaN] or 0 and that
    integer otherwise. [parseInt] reads the string form of the value: after
    white space and an optional sign, a decimal numeral that no digit
    follows (and that does not open a [0x] prefix) is read as the number it
    writes, whatever comes after it, and with no digit there the result is
    [NaN]. The numbers are stated up to [2^53], where doubles are exact. *)
Theorem numeric_fields_coerced (r : Readings) (props : list (string * value)) :
  let raw_from := field (Obj props) "salary_from" in
  let raw_to := field (Obj props) "salary_to" in
  let raw_openings := field (Obj props) "number_of_opening" in
  (* the record is dropped, or kept with the three fields coerced *)
  (no_string_form raw_from \/ no_string_form raw_to
   \/ no_string_form raw_openings ->
   normalizeJob r (Obj props) = Ok None)
  /\ (forall a b c,
         parseInt raw_from = Ok a -> parseInt raw_to = Ok b ->
         parseInt raw_openings = Ok c ->
         exists j,
           normalizeJob r (Obj props) = Ok (Some j)
           /\ (salary_from j = None <-> a = None \/ a = Some 0%Z)
           /\ (forall z, a = Some z -> z <> 0%Z -> salary_from j = Some z)
           /\ (salary_to j = None <-> b = None \/ b = Some 0%Z)
           /\ (forall z, b = Some z -> z <> 0%Z -> salary_to j = Some z)
           /\ (c = None \/ c = Some 0%Z -> number_of_opening j = 1%Z)
           /\ (forall z, c = Some z -> z <> 0%Z -> number_of_opening j = z))
  (* what parseInt returns *)
  /\ (forall v, (exists e, parseInt v = Raise e) <-> no_string_form v)
  /\ (forall ws sgn ds rest sigma n,
         white ws -> signed sgn sigma -> writes ds n -> (n <= 2 ^ 53)%Z ->
         no_digit_first rest -> ~ hex_prefixed ds rest ->
         parseInt (Str (ws ++ sgn ++ ds ++ rest)) = Ok (Some (sigma * n)%Z))
  /\ (forall ws sgn rest sigma,
         white ws -> signed sgn sigma -> no_digit_first rest ->
         (sgn = EmptyString ->
          starts_black rest
          /\ forall t, rest <> String "+" t /\ rest <> String "-" t) ->
         parseInt (Str (ws ++ sgn ++ rest)) = Ok None)
  /\ parseInt Undefined = Ok None /\ parseInt Null = Ok None
  /\ (forall b, parseInt (Bool b) = Ok None)
  /\ (forall fields,
         lookup "toString" fields = None -> parseInt (Obj fields) = Ok None)
  /\ parseInt (Int 0) = Ok (Some 0%Z)
  /\ (forall z, z = 0%Z \/ (2 ^ 53 < Z.abs z)%Z \/ parseInt (Int z) = Ok (Some z))
  (* examples *)
  /\ parseInt (Str EmptyString) = Ok None
  /\ parseInt (Str "negotiable") = Ok None
  /\ parseInt (Str "0") = Ok (Some 0%Z)
  /\ parseInt (Str "0.9") = Ok (Some 0%Z)
  /\ parseInt (Str "50k") = Ok (Some 50%Z)
  /\ parseInt (Str "1e3") = Ok (Some 1%Z)
  /\ parseInt (Str "0x1F") = Ok (Some 31%Z)
  /\ parseInt (Num 1 21) = Ok (Some 1%Z)
  /\ parseInt (Num 5 (-7)) = Ok (Some 5%Z)
  /\ parseInt (Num 15 (-1)) = Ok (Some 1%Z).
Proof.
  intros raw_from raw_to raw_openings.
  split; [| split].
  { intros Hn. apply normalizeJob_dropped. unfold dropped. tauto. }
  { intros a b c Ea Eb Ec.
    assert (Hk : ~ dropped (Obj props)).
    { unfold dropped. fold raw_from raw_to raw_openings.
      rewrite <- !parseInt_raises, Ea, Eb, Ec.
      intros [E | [E | [(e & E) | [(e & E) | (e & E)]]]]; discriminate E. }
    destruct (normalizeJob_fields r (Obj props) Hk)
      as (j & a' & b' & c' & _ & En & Ea' & Eb' & Ec' & _ & _ & _
          & [Ha1 Ha2] & [Hb1 Hb2] & [Hc1 Hc2]).
    fold raw_from in Ea'. fold raw_to in Eb'. fold raw_openings in Ec'.
    rewrite Ea in Ea'. rewrite Eb in Eb'. rewrite Ec in Ec'.
    injection Ea' as <-. injection Eb' as <-. injection Ec' as <-.
    exists j. repeat split; try assumption; try apply Ha1; try apply Hb1. }
  split; [exact parseInt_raises |].
  split.
  { intros ws sgn ds rest sigma n Hw Hs Hd _ Hr Hx. unfold parseInt.
    cbn [toString bind]. f_equal. now apply parseInt_string_numeral. }
  split.
  { intros ws sgn rest sigma Hw Hs Hr Hp. unfold parseInt.
    cbn [toString bind]. f_equal. now apply (parseInt_string_no_digit ws sgn rest sigma). }
  split; [reflexivity |]. split; [reflexivity |].
  split; [now intros [] |].
  split.
  { intros fields E. unfold parseInt. cbn [toString]. now rewrite E. }
  split; [reflexivity |].
  split.
  { intros z. destruct (Z.eq_dec z 0%Z) as [-> | Hz]; [now left |].
    destruct (Z_le_gt_dec (Z.abs z) (2 ^ 53)%Z) as [Hb | Hb];
      [| right; left; lia].
    right; right. apply parseInt_integer; [exact Hz | lia]. }
  repeat split; vm_compute; reflexivity.
Qed.

End Normalizer.

(** The record whose qualifications do not parse is kept, with no
    qualifications, and the record whose salary has no string form is
    dropped. *)
Lemma normalizeJobs_example :
  (exists j,
      JobAPI.normalizeJob (H := example_dates) example_readings
        record_bad_qualifications = JsValue.Ok (Some j)
      /\ JobAPI.qualifications j = [])
  /\ JobAPI.normalizeJob (H := example_dates) example_readings
       record_no_string_form = JsValue.Ok None.
Proof.
  pose proof (normalizeJobs_total (H := example_dates)
                (fun _ => example_readings) JsValue.Null) as (_ & Hd & Hq & _).
  split.
  - apply Hq; [reflexivity |].
    intros [E | [E | [E | [E | E]]]]; try discriminate E; cbn in E; inversion E.
  - destruct (Hd example_readings record_no_string_form) as (out & E & _ & Ho).
    rewrite E. f_equal. apply Ho. right; right; left.
    apply (no_string_form_object _ (JsValue.Int 1)). reflexivity.
Defined.

(** The example of C7 as worded fails for a record that is dropped for
    another field: with the unparseable qualifications and a salary that
    has no string form, [normalizeJob] returns [null]. *)
Lemma unparseable_qualifications_normalize_fails :
  ~ unparseable_qualifications_normalize (H := example_dates) example_readings
      record_bad_qualifications_and_salary.
Proof.
  intros Hc. destruct (Hc eq_refl) as (j & E & _). discriminate E.
Qed.

(** C8 as worded fails for a salary of zero: the numeric inputs [0] and
    ["0"] are not kept as the integer 0 but become [null], and zero
    openings become 1. *)
Lemma zero_salary_becomes_null :
  exists j,
    JobAPI.normalizeJob (H := example_dates) example_readings record_zero_salary
    = JsValue.Ok (Some j)
    /\ JobAPI.salary_from j = None /\ JobAPI.salary_from j <> Some 0%Z
    /\ JobAPI.salary_to j = None
    /\ JobAPI.number_of_opening j = 1%Z.
Proof.
  eexists. split; [reflexivity |]. vm_compute. repeat split. discriminate.
Qed.

(** * Further properties of the store *)

(** ** Deleting and adding jobs *)

Section JobSet.
Context `{Runtime}.
Import JobPortalState.

Lemma applications_applyFilters s : applications (applyFilters s) = applications s.
Proof. reflexivity. Qed.

Lemma view_is_filtered_deleteJob (s : State) (jobId : string) :
  view_is_filtered (deleteJob jobId s).
Proof.
  eapply view_is_filtered_ext; [| | | apply view_is_filtered_applyFilters];
    reflexivity.
Qed.

Lemma getFilteredJobs_view_after (s : State) :
  view_is_filtered (applyFilters s)
  /\ (forall jobs, view_is_filtered (setAllJobs jobs s))
  /\ (forall newFilters, view_is_filtered (setFilters newFilters s))
  /\ view_is_filtered (resetFilters s)
  /\ (forall d uid created updated,
         view_is_filtered (snd (addJob d uid created updated s))).
Proof.
  split; [apply view_is_filtered_applyFilters |].
  split; [| split; [| split]]; intros;
    (eapply view_is_filtered_ext; [| | | apply view_is_filtered_applyFilters];
     reflexivity).
Qed.

Lemma filter_keep_In (jobId : string) (jobs : list Job.t) (j : Job.t) :
  In j (List.filter (fun job => negb (Job.id job =? jobId)) jobs)
  <-> In j jobs /\ Job.id j <> jobId.
Proof.
  rewrite List.filter_In, negb_true_iff. now rewrite String.eqb_neq.
Qed.

(** [deleteJob(id)] removes every job of that identifier from the two
    collections and from the view, keeps the other jobs in their order,
    and leaves the applications and the saved identifiers as they are, those
    of the deleted job included; deleting again changes no collection. *)
Theorem deleteJob_removes_job_only (s : State) (jobId : string) :
  let s' := deleteJob jobId s in
  getAllJobs s' = List.filter (fun job => negb (Job.id job =? jobId)) (getAllJobs s)
  /\ (forall j, In j (getAllJobs s') <-> In j (getAllJobs s) /\ Job.id j <> jobId)
  /\ (forall j, In j (getUserJobs s') <-> In j (getUserJobs s) /\ Job.id j <> jobId)
  /\ (forall j, In j (getFilteredJobs s') -> Job.id j <> jobId)
  /\ getJobById jobId s' = None
  /\ getApplications s' = getApplications s
  /\ hasApplied jobId s' = hasApplied jobId s
  /\ savedJobs s' = savedJobs s
  /\ getAllJobs (deleteJob jobId s') = getAllJobs s'
  /\ getUserJobs (deleteJob jobId s') = getUserJobs s'
  /\ emitted s s' = [jobDeleted jobId; jobsUpdated (getFilteredJobs s')].
Proof.
  intros s'.
  assert (Ea : allJobs s' = List.filter (fun job => negb (Job.id job =? jobId)) (allJobs s)).
  { unfold s', deleteJob.
    cbn [allJobs emit set_events applyFilters set_filteredJobs set_allJobs].
    now rewrite allJobs_saveToStorage. }
  assert (Eu : userJobs s' = List.filter (fun job => negb (Job.id job =? jobId)) (userJobs s)).
  { unfold s', deleteJob.
    cbn [userJobs emit set_events applyFilters set_filteredJobs set_allJobs].
    now rewrite userJobs_saveToStorage. }
  assert (Eapp : applications s' = applications s).
  { unfold s', deleteJob.
    cbn [applications emit set_events applyFilters set_filteredJobs set_allJobs].
    now rewrite applications_saveToStorage. }
  assert (Idem : forall l : list Job.t,
             List.filter (fun job => negb (Job.id job =? jobId))
               (List.filter (fun job => negb (Job.id job =? jobId)) l)
             = List.filter (fun job => negb (Job.id job =? jobId)) l).
  { intros l. rewrite filter_filter. apply List.filter_ext. intros a.
    now destruct (negb (Job.id a =? jobId)). }
  unfold getAllJobs, getUserJobs, getFilteredJobs, getApplications, getJobById.
  split; [exact Ea |].
  split; [intros j; rewrite Ea; apply filter_keep_In |].
  split; [intros j; rewrite Eu; apply filter_keep_In |].
  split.
  { intros j Hj.
    destruct (view_is_filtered_deleteJob s jobId) as [Hv _]. destruct (Hv j) as [Hin _].
    apply Hin in Hj as [Hj _]. unfold getAllJobs in Hj. fold s' in Hj.
    rewrite Ea in Hj. now apply filter_keep_In in Hj. }
  split.
  { apply find_none_absent. intros j Hj. rewrite Ea in Hj.
    now apply filter_keep_In in Hj. }
  split; [exact Eapp |].
  split; [unfold hasApplied; now rewrite Eapp |].
  split.
  { unfold s', deleteJob.
    cbn [savedJobs emit set_events applyFilters set_filteredJobs set_allJobs].
    now rewrite savedJobs_saveToStorage. }
  split.
  { assert (E : allJobs (deleteJob jobId s')
                = List.filter (fun job => negb (Job.id job =? jobId)) (allJobs s')).
    { unfold deleteJob.
      cbn [allJobs emit set_events applyFilters set_filteredJobs set_allJobs].
      now rewrite allJobs_saveToStorage. }
    rewrite E, Ea. apply Idem. }
  split.
  { assert (E : userJobs (deleteJob jobId s')
                = List.filter (fun job => negb (Job.id job =? jobId)) (userJobs s')).
    { unfold deleteJob.
      cbn [userJobs emit set_events applyFilters set_filteredJobs set_allJobs].
      now rewrite userJobs_saveToStorage. }
    rewrite E, Eu. apply Idem. }
  unfold emitted, s', deleteJob. cbn [events emit set_events applyFilters set_filteredJobs set_allJobs].
  rewrite events_saveToStorage. cbn [events set_userJobs].
  rewrite <- app_assoc. now rewrite drop_app_length.
Qed.

Lemma find_app_last {A : Type} (p : A -> bool) (l : list A) (x : A) :
  List.find p (l ++ [x])
  = match List.find p l with
    | Some y => Some y
    | None => if p x then Some x else None
    end.
Proof.
  induction l as [| y l IH]; simpl; [reflexivity |]. now destruct (p y).
Qed.

(** [addJob(data)] appends one job, the one it returns, to the user jobs
    and to all jobs: a job of source [user] that carries each of the
    thirteen fields of the form, the synthesized identifier and the two
    dates. The job is in the
    view exactly when it passes the filters, and looking its identifier up
    finds it unless an earlier job already has that identifier. *)
Theorem addJob_appends_job (s : State) (d : Job.data) (uid created updated : string) :
  let job := fst (addJob d uid created updated s) in
  let s' := snd (addJob d uid created updated s) in
  Job.id job = "user_job_" ++ uid
  /\ Job.source job = "user"
  /\ Job.created_at job = created /\ Job.updated_at job = updated
  /\ Job.title job = Job.d_title d /\ Job.company job = Job.d_company d
  /\ Job.salary_from job = Job.d_salary_from d
  /\ Job.salary_to job = Job.d_salary_to d
  /\ Job.description job = Job.d_description d
  /\ Job.location job = Job.d_location d
  /\ Job.employment_type job = Job.d_employment_type d
  /\ Job.job_category job = Job.d_job_category d
  /\ Job.qualifications job = Job.d_qualifications d
  /\ Job.contact job = Job.d_contact d
  /\ Job.number_of_opening job = Job.d_number_of_opening d
  /\ Job.is_remote_work job = Job.d_is_remote_work d
  /\ Job.application_deadline job = Job.d_application_deadline d
  /\ getAllJobs s' = (getAllJobs s ++ [job])%list
  /\ getUserJobs s' = (getUserJobs s ++ [job])%list
  /\ (In job (getFilteredJobs s') <-> passes_filters (getFilters s) job)
  /\ getJobById (Job.id job) s'
     = match getJobById (Job.id job) s with
       | Some earlier => Some earlier
       | None => Some job
       end
  /\ getApplications s' = getApplications s
  /\ emitted s s' = [jobAdded job; jobsUpdated (getFilteredJobs s')].
Proof.
  intros job s'.
  assert (Ea : allJobs s' = (allJobs s ++ [job])%list).
  { unfold s', addJob.
    cbn [snd allJobs emit set_events applyFilters set_filteredJobs].
    now rewrite allJobs_saveToStorage. }
  assert (Eu : userJobs s' = (userJobs s ++ [job])%list).
  { unfold s', addJob.
    cbn [snd userJobs emit set_events applyFilters set_filteredJobs].
    now rewrite userJobs_saveToStorage. }
  assert (Ef : filters s' = filters s).
  { unfold s', addJob.
    cbn [snd filters emit set_events applyFilters set_filteredJobs].
    now rewrite filters_saveToStorage. }
  unfold getAllJobs, getUserJobs, getFilteredJobs, getApplications, getJobById,
    getFilters.
  repeat (split; [reflexivity |]).
  split; [exact Ea |]. split; [exact Eu |].
  split.
  { destruct (proj2 (proj2 (proj2 (proj2 (getFilteredJobs_view_after s)))) d uid created updated)
      as [Hv _].
    fold s' in Hv. unfold getFilteredJobs, getAllJobs, getFilters in Hv.
    rewrite (Hv job), Ea, Ef. rewrite in_app_iff. cbn [In]. tauto. }
  split.
  { rewrite Ea. unfold JsArray.find. rewrite find_app_last.
    destruct (List.find _ (allJobs s)); [reflexivity |].
    now rewrite String.eqb_refl. }
  split.
  { unfold s', addJob.
    cbn [snd applications emit set_events applyFilters set_filteredJobs].
    now rewrite applications_saveToStorage. }
  unfold emitted, s', addJob.
  cbn [snd events emit set_events applyFilters set_filteredJobs].
  rewrite events_saveToStorage. cbn [events set_allJobs set_userJobs].
  rewrite <- app_assoc. now rewrite drop_app_length.
Qed.

End JobSet.

(** ** Applications on record *)

Section ApplicationsOnRecord.
Context `{Runtime}.
Import JobPortalState.

Lemma hasApplied_applied_jobs (x : string) (s : State) :
  hasApplied x s = true <-> In x (applied_jobs s).
Proof.
  rewrite hasApplied_true. unfold applied_jobs. rewrite in_map_iff.
  split; intros (a & Ha & Hb); exists a; auto.
Qed.


Lemma getApplicationsForJob_none (x : string) (s : State) :
  hasApplied x s = false -> getApplicationsForJob x s = [].
Proof.
  unfold hasApplied, getApplicationsForJob, JsArray.some.
  induction (applications s) as [| a l IH]; cbn; [reflexivity |].
  destruct (Application.jobId a =? x); cbn; [discriminate | exact IH].
Qed.

Lemma applyForJob_success (s s1 : State) (x : string) (d : Application.details)
    (uid now : string) (a : Application.t) :
  applyForJob x d uid now s = (Normal a, s1) ->
  hasApplied x s = false
  /\ applications s1 = (applications s ++ [a])%list
  /\ Application.jobId a = x.
Proof.
  intros E. unfold applyForJob in E.
  destruct (hasApplied x s) eqn:Eh; [discriminate |].
  destruct (JsArray.find _ (allJobs s)) as [job |]; [| discriminate].
  injection E as Ea Es. subst a s1.
  split; [reflexivity |]. split; [| reflexivity].
  cbn [applications emit set_events]. now rewrite applications_saveToStorage.
Qed.

(** After [applyForJob(x, ...)] has succeeded, [x] counts as applied for,
    the application returned is the only one on record for [x], and a
    second [applyForJob(x, ...)], whatever the details, throws
    [DuplicateApplication] and leaves the state as it is. *)
Theorem applyForJob_second_call_throws (s s1 : State) (x : string)
    (d d' : Application.details) (uid now uid' now' : string) (a : Application.t) :
  applyForJob x d uid now s = (Normal a, s1) ->
  hasApplied x s1 = true
  /\ getApplicationsForJob x s1 = [a]
  /\ length (getApplications s1) = S (length (getApplications s))
  /\ applyForJob x d' uid' now' s1 = (Throw DuplicateApplication, s1).
Proof.
  intros E. destruct (applyForJob_success _ _ _ _ _ _ _ E) as (Eh & Ea & Ex).
  assert (Hh : hasApplied x s1 = true).
  { unfold hasApplied, JsArray.some. rewrite Ea, existsb_app. cbn.
    rewrite Ex, String.eqb_refl. apply orb_true_r. }
  split; [exact Hh |]. split.
  { unfold getApplicationsForJob. rewrite Ea, List.filter_app. cbn.
    rewrite Ex, String.eqb_refl.
    pose proof (getApplicationsForJob_none x s Eh) as En.
    unfold getApplicationsForJob in En. now rewrite En. }
  split.
  { unfold getApplications. rewrite Ea, length_app. cbn. lia. }
  unfold applyForJob. now rewrite Hh.
Qed.


End ApplicationsOnRecord.

(** With job [j1] loaded, Ann applies once, and again. *)
Lemma applyForJob_second_call_example :
  JobPortalState.hasApplied "j1" after_first_application = true
  /\ JobPortalState.applyForJob (H := example_runtime) "j1" ann "2" "1002"
       after_first_application
     = (Throw DuplicateApplication, after_first_application).
Proof.
  destruct (applyForJob_second_call_throws (H := example_runtime) with_j1
              after_first_application "j1" ann ann "1" "1001" "2" "1002"
              {| Application.id := "app_1"; Application.jobId := "j1";
                 Application.jobTitle := "Frontend Developer";
                 Application.company := "Tech Solutions Inc";
                 Application.appliedAt := "1001"; Application.status := "pending";
                 Application.name := "Ann"; Application.email := "a@x.com";
                 Application.coverLetter := None |})
    as (Hh & _ & _ & Ht).
  - reflexivity.
  - split; assumption.
Defined.

(** ** The saved list *)

Section SavedList.
Context `{Runtime}.
Import JobPortalState JobPortalQueries.

Lemma includes_In (l : list string) (x : string) :
  JsArray.includes l x = true <-> In x l.
Proof.
  unfold JsArray.includes. rewrite existsb_exists. split.
  - intros (y & Hy & E). apply String.eqb_eq in E. now subst.
  - intros Hx. exists x. split; [exact Hx | apply String.eqb_refl].
Qed.

Lemma indexOf_push_fresh (l : list string) (x : string) :
  JsArray.includes l x = false ->
  JsArray.indexOf (JsArray.push l x) x = Some (length l)
  /\ delete (length l) (JsArray.push l x) = l.
Proof.
  unfold JsArray.includes, JsArray.indexOf, JsArray.push.
  induction l as [| y l IH]; cbn; intros E.
  - now rewrite String.eqb_refl.
  - apply orb_false_iff in E as [E1 E2]. rewrite E1.
    destruct (IH E2) as [E3 E4]. rewrite E3. split; [reflexivity |].
    f_equal. exact E4.
Qed.

Lemma In_delete_indexOf (l : list string) (x y : string) (i : nat) :
  JsArray.indexOf l x = Some i ->
  (In y (delete i l) -> In y l)
  /\ (y <> x -> In y l -> In y (delete i l))
  /\ (NoDup l -> NoDup (delete i l) /\ ~ In x (delete i l)).
Proof.
  unfold JsArray.indexOf. revert i.
  induction l as [| z l IH]; cbn; intros i E; [discriminate |].
  destruct (String.eqb_spec x z) as [<- | Hne].
  - injection E as <-. cbn. split; [| split].
    + now right.
    + intros Hy [-> | Hin]; [contradiction | exact Hin].
    + inversion 1 as [| ? ? Hz Hl]; subst. rewrite list_elem_of_In in Hz.
      now split.
  - destruct (JsArray.findIndex _ l) as [j |]; [| discriminate].
    injection E as <-. cbn. destruct (IH j eq_refl) as (I1 & I2 & I3).
    split; [| split].
    + intros [-> | Hin]; [now left | right; now apply I1].
    + intros Hy [-> | Hin]; [now left | right; now apply I2].
    + inversion 1 as [| ? ? Hz Hl]; subst. rewrite list_elem_of_In in Hz.
      destruct (I3 Hl) as [Hd Hx].
      split.
      * constructor; [| exact Hd]. rewrite list_elem_of_In.
        intros Hin. apply Hz. revert Hin. clear.
        revert j. induction l as [| a l IHl]; intros [| j]; cbn; auto.
        intros [-> | Hin]; [now left | right; eauto].
      * intros [-> | Hin]; [now apply Hne | now apply Hx].
Qed.

(** Saving a job that is not saved and unsaving it gives back the saved
    list; for a job that is saved already, saving changes nothing, so the
    two calls amount to unsaving it. *)
Theorem unsaveJob_undoes_saveJob (s : State) (x : string) :
  if isJobSaved x s
  then unsaveJob x (saveJob x s) = unsaveJob x s
  else savedJobs (unsaveJob x (saveJob x s)) = savedJobs s
       /\ isJobSaved x (unsaveJob x (saveJob x s)) = false
       /\ emitted s (unsaveJob x (saveJob x s)) = [jobSaved x; jobUnsaved x].
Proof.
  unfold saveJob. destruct (isJobSaved x s) eqn:E; cbn [negb]; [reflexivity |].
  unfold isJobSaved in E. destruct (indexOf_push_fresh _ _ E) as [Ei Ed].
  unfold unsaveJob. cbn [savedJobs emit set_events].
  rewrite savedJobs_saveToStorage. cbn [savedJobs set_savedJobs]. rewrite Ei.
  assert (Es : savedJobs
                 (emit (jobUnsaved x)
                    (saveToStorage Storage.SAVED_JOBS
                       (set_savedJobs
                          (delete (length (savedJobs s)) (JsArray.push (savedJobs s) x))
                          (emit (jobSaved x)
                             (saveToStorage Storage.SAVED_JOBS
                                (set_savedJobs (JsArray.push (savedJobs s) x) s))))))
               = savedJobs s).
  { cbn [savedJobs emit set_events]. rewrite savedJobs_saveToStorage.
    cbn [savedJobs set_savedJobs]. exact Ed. }
  split; [exact Es |]. split; [unfold isJobSaved; now rewrite Es |].
  unfold emitted. cbn [events emit set_events]. rewrite events_saveToStorage.
  cbn [events set_savedJobs emit set_events]. rewrite events_saveToStorage.
  cbn [events set_savedJobs]. rewrite <- app_assoc. now rewrite drop_app_length.
Qed.

(** A saved list without duplicates stays without duplicates through
    [saveJob] and [unsaveJob]; after [unsaveJob(x)] the job [x] is no longer
    saved, and every other job is saved exactly when it was. *)
Theorem savedJobs_stay_distinct (s : State) (x : string) :
  NoDup (savedJobs s) ->
  NoDup (savedJobs (saveJob x s))
  /\ NoDup (savedJobs (unsaveJob x s))
  /\ isJobSaved x (unsaveJob x s) = false
  /\ (forall y, y <> x -> isJobSaved y (unsaveJob x s) = isJobSaved y s)
  /\ (forall y, y <> x -> isJobSaved y (saveJob x s) = isJobSaved y s).
Proof.
  intros Hnd.
  assert (Esave : savedJobs (saveJob x s)
                  = if isJobSaved x s then savedJobs s
                    else (savedJobs s ++ [x])%list).
  { unfold saveJob. destruct (isJobSaved x s); cbn [negb]; [reflexivity |].
    cbn [savedJobs emit set_events]. now rewrite savedJobs_saveToStorage. }
  assert (Eunsave : savedJobs (unsaveJob x s)
                    = match JsArray.indexOf (savedJobs s) x with
                      | Some i => delete i (savedJobs s)
                      | None => savedJobs s
                      end).
  { unfold unsaveJob. destruct (JsArray.indexOf (savedJobs s) x); [| reflexivity].
    cbn [savedJobs emit set_events]. now rewrite savedJobs_saveToStorage. }
  assert (Hbool : forall (l l' : list string) (y : string),
             (In y l' <-> In y l) -> JsArray.includes l' y = JsArray.includes l y).
  { intros l l' y Hiff.
    destruct (JsArray.includes l y) eqn:E1, (JsArray.includes l' y) eqn:E2;
      try reflexivity.
    - apply includes_In, Hiff, includes_In in E1. congruence.
    - apply includes_In, Hiff, includes_In in E2. congruence. }
  split; [| split; [| split; [| split]]].
  - rewrite Esave. destruct (isJobSaved x s) eqn:E; [exact Hnd |].
    apply NoDup_app. split; [exact Hnd |]. split; [| apply NoDup_singleton].
    intros y Hy Hx. apply list_elem_of_In in Hy, Hx. destruct Hx as [<- | []].
    apply includes_In in Hy. unfold isJobSaved in E. congruence.
  - rewrite Eunsave. destruct (JsArray.indexOf (savedJobs s) x) as [i |] eqn:Ei;
      [| exact Hnd].
    now apply (In_delete_indexOf _ x x i Ei).
  - unfold isJobSaved. rewrite Eunsave.
    destruct (JsArray.indexOf (savedJobs s) x) as [i |] eqn:Ei.
    + destruct (proj2 (proj2 (In_delete_indexOf _ x x i Ei)) Hnd) as [_ Hx].
      destruct (JsArray.includes _ x) eqn:E; [| reflexivity].
      now apply includes_In in E.
    + rewrite indexOf_includes. now rewrite Ei.
  - intros y Hy. unfold isJobSaved. rewrite Eunsave.
    destruct (JsArray.indexOf (savedJobs s) x) as [i |] eqn:Ei; [| reflexivity].
    apply Hbool. destruct (In_delete_indexOf _ x y i Ei) as (I1 & I2 & _).
    split; [exact I1 | now apply I2].
  - intros y Hy. unfold isJobSaved at 1. rewrite Esave.
    destruct (isJobSaved x s); [reflexivity |]. unfold isJobSaved.
    apply Hbool. rewrite in_app_iff. cbn. intuition congruence.
Qed.

Lemma indexNumber_position (s : State) (job : Job.t) :
  indexNumber (savedJobs s) (Job.id job) = JsNumber.of_Z (saved_position s job).
Proof.
  unfold indexNumber, saved_position.
  now destruct (JsArray.indexOf (savedJobs s) (Job.id job)).
Qed.

Lemma is_positive_of_Z_sub (a b : Z) :
  JsNumber.is_positive (JsNumber.sub (JsNumber.of_Z a) (JsNumber.of_Z b)) = true
  <-> (b < a)%Z.
Proof.
  unfold JsNumber.of_Z. cbn [JsNumber.sub]. rewrite is_positive_Finite.
  unfold Qminus. rewrite <- inject_Z_opp, <- inject_Z_plus.
  change 0%Q with (inject_Z 0). rewrite <- Zlt_Qlt. lia.
Qed.

(** [getSavedJobs()] returns the jobs of the collection whose identifier
    is saved, each as many times as the collection holds it, the job saved
    last first: by descending position of the identifier in the saved
    list. With nothing saved it returns no job. *)
Theorem getSavedJobs_last_saved_first (s : State) :
  (forall job,
      In job (getSavedJobs s)
      <-> In job (getAllJobs s) /\ isJobSaved (Job.id job) s = true)
  /\ Permutation (getSavedJobs s)
       (List.filter (fun job => isJobSaved (Job.id job) s) (getAllJobs s))
  /\ StronglySorted (fun a b => (saved_position s b <= saved_position s a)%Z)
       (getSavedJobs s)
  /\ (forall job, In job (getSavedJobs s) -> (0 <= saved_position s job)%Z).
Proof.
  unfold getSavedJobs, getAllJobs, isJobSaved.
  destruct (Nat.eqb_spec (length (savedJobs s)) 0) as [E0 | E0].
  - assert (El : savedJobs s = []) by now destruct (savedJobs s).
    rewrite El. cbn.
    assert (Ef : List.filter (fun _ : Job.t => false) (allJobs s) = []).
    { induction (allJobs s); cbn; auto. }
    rewrite Ef. repeat split; try constructor; try tauto.
    + now intros [_ ?].
  - set (cmp := fun a b : Job.t =>
                  JsNumber.sub (indexNumber (savedJobs s) (Job.id b))
                    (indexNumber (savedJobs s) (Job.id a))).
    set (kept := List.filter
                   (fun job => JsArray.includes (savedJobs s) (Job.id job))
                   (allJobs s)).
    pose proof (sort_Permutation cmp kept) as P.
    split; [| split; [| split]].
    + intros job.
      transitivity (In job kept); [| apply List.filter_In].
      split; apply Permutation_in; [now symmetry | exact P].
    + now symmetry.
    + apply sort_sorted; unfold cmp.
      * intros a b c. lia.
      * intros a b. rewrite !indexNumber_position, is_positive_of_Z_sub. lia.
      * intros a b. rewrite !indexNumber_position. intros Hn.
        destruct (Z_lt_le_dec (saved_position s a) (saved_position s b)) as [L | L];
          [| exact L].
        apply is_positive_of_Z_sub in L. congruence.
    + intros job Hin. apply (Permutation_in _ (Permutation_sym P)) in Hin.
      unfold kept in Hin. apply List.filter_In in Hin as [_ Hs].
      unfold saved_position. rewrite indexOf_includes in Hs.
      destruct (JsArray.indexOf (savedJobs s) (Job.id job)); [lia | discriminate].
Qed.

End SavedList.

(** On a first visit nothing is saved, so the saved list has no
    duplicate. *)
Lemma savedJobs_stay_distinct_first_visit :
  NoDup (JobPortalState.savedJobs
           (JobPortalState.saveJob (H := example_runtime) "j1"
              (JobPortalState.new Storage.empty))).
Proof.
  apply (savedJobs_stay_distinct (H := example_runtime)
           (JobPortalState.new Storage.empty) "j1").
  constructor.
Defined.

(** ** Pages of the filtered view *)

Section Pages.
Context `{Runtime}.
Import JobPortalState.

Lemma slice_window {A : Type} (l : list A) (first : Z) :
  (0 <= first)%Z ->
  JsArray.slice first (first + itemsPerPage) l
  = take 9 (drop (Z.to_nat first) l).
Proof.
  intros Hf. unfold JsArray.slice, JsArray.slice_bound, itemsPerPage.
  destruct (Z.ltb_spec first 0); [exfalso; lia |].
  destruct (Z.ltb_spec (first + 9) 0); [exfalso; lia |].
  destruct (Z_le_gt_dec (Z.of_nat (length l)) first) as [L | L].
  - rewrite (Z.min_r first) by lia. rewrite Nat2Z.id, drop_all.
    rewrite (drop_ge l) by lia. now rewrite !take_nil.
  - rewrite (Z.min_l first) by lia.
    destruct (Z_le_gt_dec (first + 9) (Z.of_nat (length l))) as [L9 | L9].
    + rewrite (Z.min_l (first + 9)) by lia. do 2 f_equal. lia.
    + rewrite (Z.min_r (first + 9)) by lia.
      assert (El : length (drop (Z.to_nat first) l) = Z.to_nat (Z.of_nat (length l) - first)).
      { rewrite length_drop. lia. }
      rewrite Z.max_l by lia. rewrite <- El.
      rewrite !take_ge; [reflexivity | lia | lia].
Qed.

Lemma chunks_concat {A : Type} (n : nat) :
  forall l : list A,
    (length l <= 9 * n)%nat ->
    concat (List.map (fun i => take 9 (drop (9 * i) l)) (seq 0 n)) = l.
Proof.
  induction n as [| n IH]; intros l Hl.
  - destruct l; [reflexivity | simpl in Hl; lia].
  - cbn [seq List.map concat]. rewrite <- seq_shift, List.map_map.
    change (drop (9 * 0) l) with l.
    rewrite (List.map_ext _ (fun i => take 9 (drop (9 * i) (drop 9 l)))).
    + rewrite IH; [apply take_drop |]. rewrite length_drop. lia.
    + intros i. rewrite drop_drop. do 2 f_equal. lia.
Qed.

Lemma filteredJobs_setPage (p : Z) (s : State) :
  filteredJobs (setPage p s) = filteredJobs s.
Proof. unfold setPage. now destruct (negb _). Qed.

Lemma currentPage_setPage (p : Z) (s : State) :
  currentPage (setPage p s)
  = Z.max 1 (Z.min p (totalPagesOf (Z.of_nat (length (filteredJobs s))))).
Proof.
  unfold setPage. cbn [getPaginationInfo PaginationInfo.totalPages].
  destruct (Z.eqb_spec (currentPage s)
              (Z.max 1 (Z.min p (totalPagesOf (Z.of_nat (length (filteredJobs s)))))));
    cbn; [assumption | reflexivity].
Qed.

(** Turning to the pages 1, 2, ..., [totalPages] one after the other and
    reading [getPaginatedJobs()] on each gives the filtered view, in its
    order, each job once: the pages are consecutive windows of the view, no
    job is skipped and none is shown on two pages. *)
Theorem pages_cover_the_view (s : State) :
  concat
    (List.map (fun p => getPaginatedJobs (setPage (Z.of_nat p) s))
       (seq 1 (Z.to_nat (PaginationInfo.totalPages (getPaginationInfo s)))))
  = getFilteredJobs s.
Proof.
  unfold getFilteredJobs. cbn [getPaginationInfo PaginationInfo.totalPages].
  set (l := filteredJobs s).
  pose proof (totalPagesOf_spec (Z.of_nat (length l)) ltac:(lia)) as Et.
  pose proof (Z.div_mod (Z.of_nat (length l) + 8) 9 ltac:(lia)) as E.
  pose proof (Z.mod_pos_bound (Z.of_nat (length l) + 8) 9 ltac:(lia)) as B.
  set (n := Z.to_nat (totalPagesOf (Z.of_nat (length l)))).
  assert (Hn : (length l <= 9 * n)%nat) by (unfold n; lia).
  etransitivity; [| apply (chunks_concat n l Hn)].
  rewrite <- seq_shift, List.map_map.
  apply (f_equal (@concat _)). apply List.map_ext_in.
  intros i Hi. apply in_seq in Hi.
  unfold getPaginatedJobs. rewrite filteredJobs_setPage, currentPage_setPage.
  fold l. unfold n in Hi.
  rewrite Z.min_l by lia.
  replace (Z.max 1 (Z.of_nat (S i))) with (Z.of_nat (S i)) by lia.
  rewrite slice_window by (unfold itemsPerPage; lia). do 2 f_equal.
  unfold itemsPerPage. lia.
Qed.

(** On a page number of at least 1, [getPaginatedJobs()] is a window of at
    most nine jobs of the filtered view; [hasNextPage] holds exactly when
    jobs remain after the window, and then the window is full; within
    [1 .. totalPages] of a view that is not empty, the page is not empty. *)
Theorem getPaginatedJobs_window (s : State) :
  (1 <= currentPage s)%Z ->
  let page := getPaginatedJobs s in
  let info := getPaginationInfo s in
  let n := Z.of_nat (length (getFilteredJobs s)) in
  (length page <= 9)%nat
  /\ (exists before after,
        getFilteredJobs s = (before ++ page ++ after)%list
        /\ Z.of_nat (length before) = Z.min n (9 * (currentPage s - 1)))
  /\ (PaginationInfo.hasNextPage info = true <-> (9 * currentPage s < n)%Z)
  /\ (PaginationInfo.hasNextPage info = true -> length page = 9%nat)
  /\ ((currentPage s <= PaginationInfo.totalPages info)%Z ->
      (0 < n)%Z -> page <> []).
Proof.
  intros Hp page info n.
  unfold page, info, n, getPaginatedJobs, getFilteredJobs.
  cbn [getPaginationInfo PaginationInfo.totalPages PaginationInfo.hasNextPage].
  set (l := filteredJobs s).
  pose proof (totalPagesOf_spec (Z.of_nat (length l)) ltac:(lia)) as Et.
  pose proof (Z.div_mod (Z.of_nat (length l) + 8) 9 ltac:(lia)) as E.
  pose proof (Z.mod_pos_bound (Z.of_nat (length l) + 8) 9 ltac:(lia)) as B.
  rewrite slice_window by (unfold itemsPerPage; lia).
  unfold itemsPerPage.
  set (k := Z.to_nat ((currentPage s - 1) * 9)).
  assert (Ld : length (drop k l) = (length l - k)%nat) by apply length_drop.
  split; [| split; [| split; [| split]]].
  - rewrite length_take. lia.
  - exists (take k l), (drop 9 (drop k l)). split.
    + now rewrite take_drop, take_drop.
    + rewrite length_take. unfold k. lia.
  - rewrite Z.ltb_lt. lia.
  - rewrite Z.ltb_lt. intros Hlt. rewrite length_take, Ld. unfold k. lia.
  - intros Hle Hpos Hnil. apply (f_equal (@length _)) in Hnil.
    rewrite length_take, Ld in Hnil. cbn [length] in Hnil. unfold k in Hnil. lia.
Qed.

End Pages.

Lemma getPaginatedJobs_window_page_two :
  (1 <= JobPortalState.currentPage (on_page_two (H := example_runtime)))%Z
  /\ (length (JobPortalState.getPaginatedJobs (on_page_two (H := example_runtime)))
      <= 9)%nat.
Proof.
  assert (Hp : (1 <= JobPortalState.currentPage (on_page_two (H := example_runtime)))%Z)
    by (vm_compute; discriminate).
  split; [exact Hp |].
  exact (proj1 (getPaginatedJobs_window (on_page_two (H := example_runtime)) Hp)).
Defined.

(** ** Importing a backup *)

Section ImportBackup.
Context `{Runtime}.
Import JobPortalState.

Lemma theme_saveToStorage k s : theme (saveToStorage k s) = theme s.
Proof. unfold saveToStorage. now destruct (setItem_accepts _ _). Qed.

Lemma userRole_saveToStorage k s : userRole (saveToStorage k s) = userRole s.
Proof. unfold saveToStorage. now destruct (setItem_accepts _ _). Qed.

Lemma filteredJobs_saveToStorage k s :
  filteredJobs (saveToStorage k s) = filteredJobs s.
Proof. unfold saveToStorage. now destruct (setItem_accepts _ _). Qed.

Lemma role_test_false (role : string) :
  ~ role_ok role ->
  negb (role =? "job_seeker") && negb (role =? "recruiter") = true.
Proof.
  intros Hn. unfold role_ok in Hn.
  destruct (String.eqb_spec role "job_seeker"); [tauto |].
  destruct (String.eqb_spec role "recruiter"); [tauto | reflexivity].
Qed.

(** A backup whose role is neither of the two roles is refused as a whole:
    [importData] returns [false] and the store is as it was, with nothing
    written, nothing emitted and none of the other fields of the backup
    applied. *)
Theorem importData_refuses_unknown_role (data : Snapshot.t) (s : State)
    (role : string) :
  Snapshot.userRole data = Some role ->
  JsString.truthy role = true ->
  ~ role_ok role ->
  importData data s = (false, s).
Proof.
  intros E Ht Hn. unfold importData. rewrite E, Ht. unfold setUserRole.
  now rewrite (role_test_false _ Hn).
Qed.

Ltac save_fields :=
  rewrite ?userRole_saveToStorage, ?theme_saveToStorage,
    ?applications_saveToStorage, ?userJobs_saveToStorage,
    ?savedJobs_saveToStorage, ?filters_saveToStorage,
    ?allJobs_saveToStorage, ?filteredJobs_saveToStorage,
    ?currentPage_saveToStorage, ?events_saveToStorage.

(** A backup whose role is absent, empty or one of the two roles is
    accepted: [importData] returns [true]; each list the backup carries
    replaces that of the store, a list it does not carry stays; the filters
    it carries are laid over the default filters, not over the current
    ones; a theme other than light or dark is skipped. The jobs, the
    filtered view and the page stay as they were, also when the filters
    change: the view is not computed again, and the calls notify of the
    role, of the theme and of the import only. *)
Theorem importData_applies_present_fields (data : Snapshot.t) (s : State) :
  (forall role, Snapshot.userRole data = Some role ->
                JsString.truthy role = true -> role_ok role) ->
  let s' := snd (importData data s) in
  let new_role :=
    match Snapshot.userRole data with
    | Some role => if JsString.truthy role then Some role else None
    | None => None
    end in
  let new_theme :=
    match Snapshot.theme data with
    | Some th => if (th =? "light") || (th =? "dark") then Some th else None
    | None => None
    end in
  fst (importData data s) = true
  /\ getUserRole s' = default (getUserRole s) new_role
  /\ getTheme s' = default (getTheme s) new_theme
  /\ getApplications s' = default (getApplications s) (Snapshot.applications data)
  /\ getUserJobs s' = default (getUserJobs s) (Snapshot.userJobs data)
  /\ savedJobs s' = default (savedJobs s) (Snapshot.savedJobs data)
  /\ getFilters s'
     = default (getFilters s)
         (Filters.merge defaultFilters <$> Snapshot.filters data)
  /\ getAllJobs s' = getAllJobs s
  /\ getFilteredJobs s' = getFilteredJobs s
  /\ currentPage s' = currentPage s
  /\ emitted s s'
     = (from_option (fun role => [roleChanged role]) [] new_role
        ++ from_option (fun th => [themeChanged th]) [] new_theme
        ++ [dataImported data])%list.
Proof.
  intros Hrole s' new_role new_theme.
  unfold getUserRole, getTheme, getApplications, getUserJobs, getFilters,
    getAllJobs, getFilteredJobs, emitted.
  subst s' new_role new_theme. unfold importData.
  destruct data as [r apps ujobs saved th fl ex].
  cbn [Snapshot.userRole Snapshot.theme Snapshot.applications Snapshot.userJobs
         Snapshot.savedJobs Snapshot.filters] in *.
  assert (E1 : exists s1,
             match r with
             | Some role => if JsString.truthy role then setUserRole role s
                            else (Normal tt, s)
             | None => (Normal tt, s)
             end = (Normal tt, s1)
             /\ userRole s1
                = default (userRole s)
                    match r with
                    | Some role => if JsString.truthy role then Some role else None
                    | None => None
                    end
             /\ theme s1 = theme s /\ applications s1 = applications s
             /\ userJobs s1 = userJobs s /\ savedJobs s1 = savedJobs s
             /\ filters s1 = filters s /\ allJobs s1 = allJobs s
             /\ filteredJobs s1 = filteredJobs s /\ currentPage s1 = currentPage s
             /\ events s1
                = (events s
                   ++ from_option (fun role => [roleChanged role]) []
                        match r with
                        | Some role => if JsString.truthy role then Some role else None
                        | None => None
                        end)%list).
  { destruct r as [role |].
    - destruct (JsString.truthy role) eqn:Ht.
      + specialize (Hrole role eq_refl Ht). unfold setUserRole.
        rewrite (proj2 (role_ok_test _) Hrole). eexists. split; [reflexivity |].
        cbn [emit userRole theme applications userJobs savedJobs filters allJobs
               filteredJobs currentPage events set_events from_option].
        save_fields. cbn. repeat split; reflexivity.
      + exists s. cbn. rewrite app_nil_r. repeat split; reflexivity.
    - exists s. cbn. rewrite app_nil_r. repeat split; reflexivity. }
  destruct E1 as (s1 & -> & Er & Et & Ea & Eu & Es & Ef & Ej & Ev & Ep & Ee).
  set (s2 := match th with
             | Some t => if JsString.truthy t then setTheme t s1 else s1
             | None => s1
             end).
  assert (E2 : userRole s2 = userRole s1
               /\ theme s2
                  = default (theme s1)
                      match th with
                      | Some t => if (t =? "light") || (t =? "dark") then Some t else None
                      | None => None
                      end
               /\ applications s2 = applications s1
               /\ userJobs s2 = userJobs s1 /\ savedJobs s2 = savedJobs s1
               /\ filters s2 = filters s1 /\ allJobs s2 = allJobs s1
               /\ filteredJobs s2 = filteredJobs s1
               /\ currentPage s2 = currentPage s1
               /\ events s2
                  = (events s1
                     ++ from_option (fun t => [themeChanged t]) []
                          match th with
                          | Some t =>
                              if (t =? "light") || (t =? "dark") then Some t else None
                          | None => None
                          end)%list).
  { unfold s2. destruct th as [t |]; [| cbn; rewrite app_nil_r; repeat split; reflexivity].
    unfold setTheme.
    destruct (String.eqb_spec t "light") as [-> | N1];
      [cbn; save_fields; cbn; repeat split; reflexivity |].
    destruct (String.eqb_spec t "dark") as [-> | N2];
      [cbn; save_fields; cbn; repeat split; reflexivity |].
    cbn. rewrite app_nil_r.
    destruct (JsString.truthy t); repeat split; reflexivity. }
  clearbody s2.
  destruct E2 as (Er2 & Et2 & Ea2 & Eu2 & Es2 & Ef2 & Ej2 & Ev2 & Ep2 & Ee2).
  cbn [fst snd]. split; [reflexivity |].
  destruct apps, ujobs, saved, fl;
    repeat (progress
              (cbn [emit userRole theme applications userJobs savedJobs filters
                      allJobs filteredJobs currentPage events set_events
                      set_applications set_userJobs set_savedJobs set_filters
                      from_option fmap option_fmap option_map id];
               save_fields));
    rewrite ?Er2, ?Et2, ?Ea2, ?Eu2, ?Es2, ?Ef2, ?Ej2, ?Ev2, ?Ep2, ?Ee2,
      ?Er, ?Et, ?Ea, ?Eu, ?Es, ?Ef, ?Ej, ?Ev, ?Ep, ?Ee;
    rewrite <- ?app_assoc, ?drop_app_length;
    repeat split; reflexivity.
Qed.

End ImportBackup.

Lemma importData_refuses_admin :
  JobPortalState.importData (H := example_runtime) backup_admin
    (JobPortalState.new Storage.empty)
  = (false, JobPortalState.new Storage.empty).
Proof.
  apply (importData_refuses_unknown_role (H := example_runtime) backup_admin
           (JobPortalState.new Storage.empty) "admin");
    [reflexivity | reflexivity |].
  intros [E | E]; discriminate E.
Defined.

Lemma importData_applies_recruiter_backup :
  fst (JobPortalState.importData (H := example_runtime) backup_recruiter
         (JobPortalState.new Storage.empty)) = true.
Proof.
  refine (proj1 (importData_applies_present_fields (H := example_runtime)
                   backup_recruiter (JobPortalState.new Storage.empty) _)).
  intros role E _. injection E as <-. right. reflexivity.
Defined.

(** ** Reloading the page *)

Section Persistence.
Context `{Runtime}.
Import JobPortalState.
Hypothesis Hacc : storage_accepts_all.

Lemma saveToStorage_accepted (k : Storage.key) (s : State) :
  saveToStorage k s
  = set_localStorage
      match k with
      | Storage.USER_ROLE =>
          Storage.mk (Some (userRole s)) (Storage.applications (localStorage s))
            (Storage.user_jobs (localStorage s)) (Storage.filters (localStorage s))
            (Storage.saved_jobs (localStorage s)) (Storage.theme (localStorage s))
      | Storage.APPLICATIONS =>
          Storage.mk (Storage.user_role (localStorage s)) (Some (applications s))
            (Storage.user_jobs (localStorage s)) (Storage.filters (localStorage s))
            (Storage.saved_jobs (localStorage s)) (Storage.theme (localStorage s))
      | Storage.USER_JOBS =>
          Storage.mk (Storage.user_role (localStorage s))
            (Storage.applications (localStorage s)) (Some (userJobs s))
            (Storage.filters (localStorage s))
            (Storage.saved_jobs (localStorage s)) (Storage.theme (localStorage s))
      | Storage.FILTERS =>
          Storage.mk (Storage.user_role (localStorage s))
            (Storage.applications (localStorage s))
            (Storage.user_jobs (localStorage s)) (Some (filters s))
            (Storage.saved_jobs (localStorage s)) (Storage.theme (localStorage s))
      | Storage.SAVED_JOBS =>
          Storage.mk (Storage.user_role (localStorage s))
            (Storage.applications (localStorage s))
            (Storage.user_jobs (localStorage s)) (Storage.filters (localStorage s))
            (Some (savedJobs s)) (Storage.theme (localStorage s))
      | Storage.THEME =>
          Storage.mk (Storage.user_role (localStorage s))
            (Storage.applications (localStorage s))
            (Storage.user_jobs (localStorage s)) (Storage.filters (localStorage s))
            (Storage.saved_jobs (localStorage s)) (Some (theme s))
      end s.
Proof. unfold saveToStorage. now rewrite Hacc. Qed.

Ltac stored :=
  rewrite ?saveToStorage_accepted;
  cbn [init emit applyFilters userRole theme applications userJobs savedJobs
         filters currentPage allJobs filteredJobs localStorage events
         set_userRole set_theme set_applications set_userJobs set_savedJobs
         set_filters set_currentPage set_allJobs set_filteredJobs
         set_localStorage set_events fst snd
         Storage.user_role Storage.theme Storage.applications Storage.user_jobs
         Storage.saved_jobs Storage.filters from_option id stored_string].

Ltac persisted_done :=
  repeat (progress stored); repeat split; (assumption || reflexivity).

Lemma persisted_new (st : Storage.t) : persisted (new st).
Proof. unfold persisted, new. repeat split; reflexivity. Qed.

Lemma persisted_setUserRole (role : string) (s : State) :
  persisted s -> persisted (snd (setUserRole role s)).
Proof.
  unfold persisted. intros (P1 & P2 & P3 & P4 & P5 & P6). unfold setUserRole.
  destruct (String.eqb_spec role "job_seeker") as [-> | N1];
    [persisted_done |].
  destruct (String.eqb_spec role "recruiter") as [-> | N2];
    [persisted_done |].
  persisted_done.
Qed.

Lemma persisted_setTheme (th : string) (s : State) :
  persisted s -> persisted (setTheme th s).
Proof.
  unfold persisted. intros (P1 & P2 & P3 & P4 & P5 & P6). unfold setTheme.
  destruct (String.eqb_spec th "light") as [-> | N1];
    [persisted_done |].
  destruct (String.eqb_spec th "dark") as [-> | N2];
    [persisted_done |].
  persisted_done.
Qed.

Lemma persisted_importData (data : Snapshot.t) (s : State) :
  persisted s -> persisted (snd (importData data s)).
Proof.
  intros P. unfold importData.
  set (attempt := match Snapshot.userRole data with
                  | Some role => if JsString.truthy role then setUserRole role s
                                 else (Normal tt, s)
                  | None => (Normal tt, s)
                  end).
  assert (P1 : persisted (snd attempt)).
  { unfold attempt. destruct (Snapshot.userRole data) as [role |]; [| exact P].
    destruct (JsString.truthy role); [| exact P].
    now apply persisted_setUserRole. }
  destruct attempt as [[u | e] s1]; cbn [snd] in *; [| exact P1].
  set (s2 := match Snapshot.theme data with
             | Some th => if JsString.truthy th then setTheme th s1 else s1
             | None => s1
             end).
  assert (P2 : persisted s2).
  { unfold s2. destruct (Snapshot.theme data) as [th |]; [| exact P1].
    destruct (JsString.truthy th); [| exact P1]. now apply persisted_setTheme. }
  clearbody s2. clear P1 P s1 s.
  destruct P2 as (P1 & P2 & P3 & P4 & P5 & P6). unfold persisted.
  destruct (Snapshot.applications data), (Snapshot.userJobs data),
    (Snapshot.savedJobs data), (Snapshot.filters data); persisted_done.
Qed.

Lemma persisted_run (op : Op) (s : State) : persisted s -> persisted (run op s).
Proof.
  intros P. destruct op; cbn [run];
    try (now apply persisted_setUserRole);
    try (now apply persisted_setTheme);
    try (now apply persisted_importData);
    try match goal with |- persisted (new _) => apply persisted_new end;
    unfold persisted in *; destruct P as (P1 & P2 & P3 & P4 & P5 & P6).
  - (* setAllJobs *) unfold setAllJobs. persisted_done.
  - (* addJob *) unfold addJob. persisted_done.
  - (* updateJob *)
    unfold updateJob.
    destruct (JsArray.findIndex _ (userJobs s)) as [i |];
      [destruct (userJobs s !! i) |];
      repeat (progress stored);
      match goal with
      | |- context [JsArray.findIndex ?p ?l] =>
          destruct (JsArray.findIndex p l) as [k |];
            [destruct (l !! k) |]
      end; persisted_done.
  - (* deleteJob *) unfold deleteJob. persisted_done.
  - (* applyForJob *)
    unfold applyForJob. destruct (hasApplied jobId s); [persisted_done |].
    destruct (JsArray.find _ (allJobs s)); persisted_done.
  - (* updateApplicationStatus *)
    unfold updateApplicationStatus.
    destruct (JsArray.findIndex _ (applications s)) as [i |];
      [destruct (applications s !! i) |]; persisted_done.
  - (* saveJob *)
    unfold saveJob. destruct (negb (isJobSaved jobId s)); persisted_done.
  - (* unsaveJob *)
    unfold unsaveJob. destruct (JsArray.indexOf (savedJobs s) jobId); persisted_done.
  - (* setPage *)
    unfold setPage. destruct (negb _); persisted_done.
  - (* setFilters *) unfold setFilters. persisted_done.
  - (* resetFilters *) unfold resetFilters. persisted_done.
  - (* clearAllData *) unfold clearAllData. persisted_done.
Qed.

Lemma reachable_persisted (s : State) : reachable s -> persisted s.
Proof.
  induction 1 as [| op s _ IH]; [apply persisted_new | now apply persisted_run].
Qed.

End Persistence.

Section Reload.
Context `{Runtime}.
Import JobPortalState.

(** While storage takes every write, what the user has set survives a
    reload of the page: in every state a session reaches, the store built
    again from storage has the same role, theme, applications, user jobs,
    saved jobs and filters. The loaded jobs and the view are gone and the
    page is 1 again. *)
Theorem reload_keeps_user_data (s : State) :
  storage_accepts_all ->
  reachable s ->
  let s' := run Reload s in
  getUserRole s' = getUserRole s
  /\ getTheme s' = getTheme s
  /\ getApplications s' = getApplications s
  /\ getUserJobs s' = getUserJobs s
  /\ savedJobs s' = savedJobs s
  /\ getFilters s' = getFilters s
  /\ getAllJobs s' = []
  /\ getFilteredJobs s' = []
  /\ currentPage s' = 1%Z.
Proof.
  intros Hacc Hr. cbn zeta.
  destruct (reachable_persisted Hacc s Hr) as (P1 & P2 & P3 & P4 & P5 & P6).
  unfold getUserRole, getTheme, getApplications, getUserJobs, getFilters,
    getAllJobs, getFilteredJobs.
  repeat split; assumption || reflexivity.
Qed.

End Reload.

Lemma reload_keeps_saved_job :
  storage_accepts_all (H := example_runtime)
  /\ JobPortalState.savedJobs
       (JobPortalState.run (H := example_runtime) JobPortalState.Reload
          (JobPortalState.run (H := example_runtime) (JobPortalState.SaveJob "j1")
             (JobPortalState.new Storage.empty)))
     = ["j1"].
Proof.
  assert (Hacc : storage_accepts_all (H := example_runtime))
    by (intros k st; reflexivity).
  split; [exact Hacc |].
  pose proof (reload_keeps_user_data (H := example_runtime)
                (JobPortalState.run (H := example_runtime)
                   (JobPortalState.SaveJob "j1") (JobPortalState.new Storage.empty))
                Hacc
                (JobPortalState.reachable_run _ _ JobPortalState.reachable_new))
    as (_ & _ & _ & _ & E & _).
  exact E.
Defined.

(** ** The role and the theme stay valid *)

Section RoleAndTheme.
Context `{Runtime}.
Import JobPortalState.

Lemma theme_ok_test (th : string) :
  negb (th =? "light") && negb (th =? "dark") = false <-> theme_ok th.
Proof.
  unfold theme_ok.
  destruct (String.eqb_spec th "light"), (String.eqb_spec th "dark");
    simpl; intuition congruence.
Qed.

Lemma theme_invariant_ext (s s' : State) :
  theme s' = theme s -> localStorage s' = localStorage s ->
  theme_invariant s -> theme_invariant s'.
Proof. unfold theme_invariant. now intros -> ->. Qed.

Lemma theme_invariant_saveToStorage (k : Storage.key) (s : State) :
  theme_invariant s -> theme_invariant (saveToStorage k s).
Proof.
  intros [Hr Hs]. unfold saveToStorage.
  destruct (setItem_accepts k (localStorage s)); [| now split].
  split; [exact Hr |]. intros th.
  destruct k; cbn; try apply Hs. now intros [= <-].
Qed.

Lemma theme_invariant_init (s : State) :
  (forall th, Storage.theme (localStorage s) = Some th -> theme_ok th) ->
  theme_invariant (init s).
Proof.
  intros Hs. split; [| exact Hs]. cbn. unfold stored_string.
  destruct (Storage.theme (localStorage s)) as [th |] eqn:E; [| now left].
  destruct (JsString.truthy th); [now apply Hs | now left].
Qed.

Ltac theme_steps :=
  repeat first
    [ assumption
    | apply theme_invariant_saveToStorage
    | match goal with
      | |- theme_invariant (emit _ ?s) =>
          apply (theme_invariant_ext s); [reflexivity | reflexivity |]
      | |- theme_invariant (applyFilters ?s) =>
          apply (theme_invariant_ext s); [reflexivity | reflexivity |]
      | |- theme_invariant (set_applications _ ?s) =>
          apply (theme_invariant_ext s); [reflexivity | reflexivity |]
      | |- theme_invariant (set_userJobs _ ?s) =>
          apply (theme_invariant_ext s); [reflexivity | reflexivity |]
      | |- theme_invariant (set_savedJobs _ ?s) =>
          apply (theme_invariant_ext s); [reflexivity | reflexivity |]
      | |- theme_invariant (set_userRole _ ?s) =>
          apply (theme_invariant_ext s); [reflexivity | reflexivity |]
      | |- theme_invariant (set_filters _ ?s) =>
          apply (theme_invariant_ext s); [reflexivity | reflexivity |]
      | |- theme_invariant (set_currentPage _ ?s) =>
          apply (theme_invariant_ext s); [reflexivity | reflexivity |]
      | |- theme_invariant (set_allJobs _ ?s) =>
          apply (theme_invariant_ext s); [reflexivity | reflexivity |]
      | |- theme_invariant (set_filteredJobs _ ?s) =>
          apply (theme_invariant_ext s); [reflexivity | reflexivity |]
      end ].

Lemma theme_invariant_setTheme (th : string) (s : State) :
  theme_invariant s -> theme_invariant (setTheme th s).
Proof.
  intros Hi. unfold setTheme.
  destruct (negb (th =? "light") && negb (th =? "dark")) eqn:E; [exact Hi |].
  apply theme_ok_test in E.
  apply (theme_invariant_ext (saveToStorage Storage.THEME (set_theme th s)));
    try reflexivity.
  apply theme_invariant_saveToStorage. split; [exact E | apply Hi].
Qed.

Lemma theme_invariant_setUserRole (role : string) (s : State) :
  theme_invariant s -> theme_invariant (snd (setUserRole role s)).
Proof.
  intros Hi. unfold setUserRole.
  destruct (negb (role =? "job_seeker") && negb (role =? "recruiter"));
    [exact Hi |].
  cbn [snd]. theme_steps.
Qed.

Lemma theme_invariant_importData (data : Snapshot.t) (s : State) :
  theme_invariant s -> theme_invariant (snd (importData data s)).
Proof.
  intros Hi. unfold importData.
  set (attempt := match Snapshot.userRole data with
                  | Some role => if JsString.truthy role then setUserRole role s
                                 else (Normal tt, s)
                  | None => (Normal tt, s)
                  end).
  assert (P1 : theme_invariant (snd attempt)).
  { unfold attempt. destruct (Snapshot.userRole data) as [role |]; [| exact Hi].
    destruct (JsString.truthy role); [| exact Hi].
    now apply theme_invariant_setUserRole. }
  destruct attempt as [[u | e] s1]; cbn [snd] in *; [| exact P1].
  set (s2 := match Snapshot.theme data with
             | Some th => if JsString.truthy th then setTheme th s1 else s1
             | None => s1
             end).
  assert (P2 : theme_invariant s2).
  { unfold s2. destruct (Snapshot.theme data) as [th |]; [| exact P1].
    destruct (JsString.truthy th); [| exact P1]. now apply theme_invariant_setTheme. }
  clearbody s2.
  destruct (Snapshot.applications data), (Snapshot.userJobs data),
    (Snapshot.savedJobs data), (Snapshot.filters data); theme_steps.
Qed.

Lemma theme_invariant_run (op : Op) (s : State) :
  theme_invariant s -> theme_invariant (run op s).
Proof.
  intros Hi. destruct op; cbn [run].
  - now apply theme_invariant_setUserRole.
  - now apply theme_invariant_setTheme.
  - unfold setAllJobs. theme_steps.
  - unfold addJob. cbn [snd]. theme_steps.
  - unfold updateJob.
    destruct (JsArray.findIndex _ (userJobs s)) as [i |];
      [destruct (userJobs s !! i) |];
      match goal with
      | |- context [JsArray.findIndex ?p (allJobs ?t)] =>
          destruct (JsArray.findIndex p (allJobs t)) as [k |];
          [destruct (allJobs t !! k) |]
      end; theme_steps.
  - unfold deleteJob. theme_steps.
  - unfold applyForJob. destruct (hasApplied jobId s); [exact Hi |].
    destruct (JsArray.find _ (allJobs s)); [| exact Hi]. cbn [snd]. theme_steps.
  - unfold updateApplicationStatus.
    destruct (JsArray.findIndex _ (applications s)) as [i |]; [| exact Hi].
    destruct (applications s !! i); [| exact Hi]. theme_steps.
  - unfold saveJob. destruct (negb (isJobSaved jobId s)); [| exact Hi]. theme_steps.
  - unfold unsaveJob. destruct (JsArray.indexOf (savedJobs s) jobId); [| exact Hi].
    theme_steps.
  - unfold setPage. destruct (negb _); [| exact Hi]. theme_steps.
  - unfold setFilters. theme_steps.
  - unfold resetFilters. theme_steps.
  - unfold clearAllData.
    apply (theme_invariant_ext (init (set_localStorage Storage.empty s)));
      try reflexivity.
    apply theme_invariant_init. cbn. discriminate.
  - now apply theme_invariant_importData.
  - unfold new. apply theme_invariant_init. cbn. apply Hi.
Qed.

Lemma reachable_theme_invariant (s : State) : reachable s -> theme_invariant s.
Proof.
  induction 1 as [| op s Hr IH].
  - unfold new. apply theme_invariant_init. cbn. discriminate.
  - now apply theme_invariant_run.
Qed.

(** In every state a session reaches, whatever the calls and their
    arguments, [getUserRole()] is one of the two roles and [getTheme()] one
    of the two themes: [setUserRole] throws on another role and changes
    nothing, [setTheme] ignores another theme, [importData] goes through
    the two, and storage only holds what these have written. *)
Theorem role_and_theme_stay_valid (s : State) :
  reachable s -> role_ok (getUserRole s) /\ theme_ok (getTheme s).
Proof.
  intros Hr. split.
  - now apply reachable_role_invariant.
  - now apply reachable_theme_invariant.
Qed.

End RoleAndTheme.

Lemma theme_stays_valid_after_blue :
  theme_ok
    (JobPortalState.getTheme
       (JobPortalState.run (H := example_runtime) (JobPortalState.SetTheme "blue")
          (JobPortalState.new Storage.empty))).
Proof.
  exact (proj2 (role_and_theme_stay_valid (H := example_runtime) _
                  (JobPortalState.reachable_run _ _ JobPortalState.reachable_new))).
Defined.

(** ** Sorting by date *)

Section SortedOn.
Context {A : Type} (cmp : A -> A -> JsNumber.number).
Variable P : A -> Prop.
Variable R : A -> A -> Prop.
Hypothesis R_trans : forall x y z, R x y -> R y z -> R x z.
Hypothesis cmp_positive :
  forall x y, P x -> P y -> JsNumber.is_positive (cmp x y) = true -> R y x.
Hypothesis cmp_not_positive :
  forall x y, P x -> P y -> JsNumber.is_positive (cmp x y) = false -> R x y.

Lemma sort_insert_sorted_on (x : A) (l : list A) :
  P x -> List.Forall P l ->
  StronglySorted R l -> StronglySorted R (JsArray.sort_insert cmp x l).
Proof.
  intros Px. induction l as [| y l IH]; simpl; intros Pl Hs.
  - constructor; [constructor | constructor].
  - apply StronglySorted_inv in Hs as [Hs Hy].
    apply List.Forall_cons_iff in Pl as [Py Pl].
    destruct (JsNumber.is_positive (cmp x y)) eqn:E.
    + constructor; [now apply IH |].
      apply (Permutation_Forall (sort_insert_Permutation cmp x l)).
      constructor; [now apply cmp_positive | exact Hy].
    + apply cmp_not_positive in E; [| assumption | assumption].
      constructor; [now constructor |].
      constructor; [exact E |].
      eapply List.Forall_impl; [| exact Hy]. intros z Hz. now apply (R_trans x y z).
Qed.

Lemma sort_sorted_on (l : list A) :
  List.Forall P l -> StronglySorted R (JsArray.sort cmp l).
Proof.
  induction l as [| x l IH]; simpl; intros Pl; [constructor |].
  apply List.Forall_cons_iff in Pl as [Px Pl].
  apply sort_insert_sorted_on; [exact Px | | now apply IH].
  apply (Permutation_Forall (sort_Permutation cmp l)). exact Pl.
Qed.

End SortedOn.

Section DateSort.
Context `{Runtime}.
Import JobPortalState.

Lemma not_later_trans (x y z : Job.t) :
  not_later x y -> not_later y z -> not_later x z.
Proof.
  unfold not_later.
  destruct (created x), (created y), (created z); try tauto. lia.
Qed.

Lemma is_positive_date_sub (a b : Job.t) (x y : Z) :
  created a = Some x -> created b = Some y ->
  JsNumber.is_positive
    (JsNumber.sub (dateNumber (Job.created_at a)) (dateNumber (Job.created_at b)))
  = (y <? x)%Z.
Proof.
  unfold created, dateNumber. intros -> ->.
  destruct (Z.ltb_spec y x) as [L | L].
  - now apply is_positive_of_Z_sub.
  - destruct (JsNumber.is_positive _) eqn:E; [| reflexivity].
    apply is_positive_of_Z_sub in E. lia.
Qed.

(** When every job of the collection has a valid creation date, the view
    that [applyFilters] computes is in the order of the dates: oldest
    first under the sort key [oldest], and newest first under [newest] and
    under every key that is none of [oldest], [salary_high] and
    [salary_low]. *)
Theorem date_sort_orders (s : State) :
  (forall job, In job (getAllJobs s) -> created job <> None) ->
  let key := Filters.sort (getFilters s) in
  let view := getFilteredJobs (applyFilters s) in
  (key = "oldest" -> StronglySorted not_later view)
  /\ (key <> "oldest" -> key <> "salary_high" -> key <> "salary_low" ->
      StronglySorted (fun a b => not_later b a) view).
Proof.
  intros Hd key view. subst key view. unfold getFilters, getFilteredJobs, getAllJobs in *.
  rewrite filteredJobs_applyFilters.
  set (kept := List.filter (passes_filtersb (filters s)) (allJobs s)).
  assert (Pk : List.Forall (fun job => created job <> None) kept).
  { apply List.Forall_forall. intros job Hin. apply Hd.
    unfold kept in Hin. now apply List.filter_In in Hin. }
  split.
  - intros ->.
    apply (sort_sorted_on _ (fun job => created job <> None)); [| | | exact Pk].
    + apply not_later_trans.
    + intros x y Px Py. unfold not_later.
      destruct (created x) as [tx |] eqn:Ex; [| contradiction].
      destruct (created y) as [ty |] eqn:Ey; [| contradiction].
      change (compareJobs "oldest" x y)
        with (JsNumber.sub (dateNumber (Job.created_at x))
                (dateNumber (Job.created_at y))).
      rewrite (is_positive_date_sub x y tx ty Ex Ey). lia.
    + intros x y Px Py. unfold not_later.
      destruct (created x) as [tx |] eqn:Ex; [| contradiction].
      destruct (created y) as [ty |] eqn:Ey; [| contradiction].
      change (compareJobs "oldest" x y)
        with (JsNumber.sub (dateNumber (Job.created_at x))
                (dateNumber (Job.created_at y))).
      rewrite (is_positive_date_sub x y tx ty Ex Ey). lia.
  - intros N1 N2 N3.
    assert (Ec : forall x y,
               compareJobs (Filters.sort (filters s)) x y
               = JsNumber.sub (dateNumber (Job.created_at y))
                   (dateNumber (Job.created_at x))).
    { intros x y. unfold compareJobs.
      destruct (String.eqb_spec (Filters.sort (filters s)) "oldest"); [contradiction |].
      destruct (String.eqb_spec (Filters.sort (filters s)) "salary_high");
        [contradiction |].
      destruct (String.eqb_spec (Filters.sort (filters s)) "salary_low");
        [contradiction | reflexivity]. }
    apply (sort_sorted_on _ (fun job => created job <> None)); [| | | exact Pk].
    + intros x y z Hxy Hyz. exact (not_later_trans z y x Hyz Hxy).
    + intros x y Px Py. unfold not_later. rewrite Ec.
      destruct (created x) as [tx |] eqn:Ex; [| contradiction].
      destruct (created y) as [ty |] eqn:Ey; [| contradiction].
      rewrite (is_positive_date_sub y x ty tx Ey Ex). lia.
    + intros x y Px Py. unfold not_later. rewrite Ec.
      destruct (created x) as [tx |] eqn:Ex; [| contradiction].
      destruct (created y) as [ty |] eqn:Ey; [| contradiction].
      rewrite (is_positive_date_sub y x ty tx Ey Ex). lia.
Qed.

End DateSort.

Lemma date_sort_orders_example :
  StronglySorted (fun a b => not_later (H := example_runtime) b a)
    (JobPortalState.getFilteredJobs
       (JobPortalState.applyFilters (H := example_runtime)
          (JobPortalState.setAllJobs (H := example_runtime) [job_old; job_new]
             (JobPortalState.new Storage.empty)))).
Proof.
  refine (proj2 (date_sort_orders (H := example_runtime)
                   (JobPortalState.setAllJobs (H := example_runtime)
                      [job_old; job_new] (JobPortalState.new Storage.empty)) _)
            _ _ _).
  - intros job [<- | [<- | []]]; vm_compute; discriminate.
  - vm_compute; discriminate.
  - vm_compute; discriminate.
  - vm_compute; discriminate.
Defined.

(** ** The view and the collection *)

Section ViewAndCollection.
Context `{Runtime}.
Import JobPortalState JobPortalQueries.

Lemma filter_all_pass (jobs : list Job.t) :
  List.filter (passes_filtersb defaultFilters) jobs = jobs.
Proof.
  induction jobs as [| j jobs IH]; [reflexivity |].
  cbn [List.filter]. change (passes_filtersb defaultFilters j) with true.
  cbv iota. now f_equal.
Qed.

(** [resetFilters()] puts the default filters back and shows every job of
    the collection again, each as many times as the collection holds it;
    it notifies of the filters, then of the view. *)
Theorem resetFilters_shows_every_job (s : State) :
  getFilters (resetFilters s) = defaultFilters
  /\ Permutation (getFilteredJobs (resetFilters s)) (getAllJobs s)
  /\ getAllJobs (resetFilters s) = getAllJobs s
  /\ emitted s (resetFilters s)
     = [filtersChanged defaultFilters;
        jobsUpdated (getFilteredJobs (resetFilters s))].
Proof.
  unfold getFilters, getFilteredJobs, getAllJobs, resetFilters, emitted.
  cbn [emit filters filteredJobs allJobs events set_events].
  rewrite filteredJobs_applyFilters.
  rewrite allJobs_applyFilters, events_applyFilters.
  change (filters (applyFilters ?x)) with (filters x).
  cbn [applyFilters filters set_filteredJobs].
  rewrite filters_saveToStorage, allJobs_saveToStorage, events_saveToStorage.
  cbn [filters allJobs events set_filters set_currentPage].
  rewrite filter_all_pass.
  split; [reflexivity |]. split; [symmetry; apply sort_Permutation |].
  split; [reflexivity |].
  rewrite <- app_assoc. now rewrite drop_app_length.
Qed.

Lemma view_from_collection_applyFilters (s : State) :
  view_from_collection (applyFilters s).
Proof.
  exists (filters s). rewrite filteredJobs_applyFilters, allJobs_applyFilters.
  symmetry. apply sort_Permutation.
Qed.

Lemma view_from_collection_ext (s s' : State) :
  filteredJobs s' = filteredJobs s -> allJobs s' = allJobs s ->
  view_from_collection s -> view_from_collection s'.
Proof. unfold view_from_collection. now intros -> ->. Qed.

Lemma view_from_collection_nil (s : State) :
  filteredJobs s = [] -> allJobs s = [] -> view_from_collection s.
Proof. intros E1 E2. exists defaultFilters. now rewrite E1, E2. Qed.

Ltac frame :=
  cbn [emit filteredJobs allJobs set_events set_userRole set_theme
         set_applications set_userJobs set_savedJobs set_filters
         set_currentPage snd];
  rewrite ?filteredJobs_saveToStorage, ?allJobs_saveToStorage;
  cbn [emit filteredJobs allJobs set_events set_userRole set_theme
         set_applications set_userJobs set_savedJobs set_filters
         set_currentPage snd].

Lemma view_frame_setUserRole (role : string) (s : State) :
  filteredJobs (snd (setUserRole role s)) = filteredJobs s
  /\ allJobs (snd (setUserRole role s)) = allJobs s.
Proof.
  unfold setUserRole. destruct (_ && _); frame; split; reflexivity.
Qed.

Lemma view_frame_setTheme (th : string) (s : State) :
  filteredJobs (setTheme th s) = filteredJobs s
  /\ allJobs (setTheme th s) = allJobs s.
Proof.
  unfold setTheme. destruct (_ && _); frame; split; reflexivity.
Qed.

Lemma view_frame_importData (data : Snapshot.t) (s : State) :
  filteredJobs (snd (importData data s)) = filteredJobs s
  /\ allJobs (snd (importData data s)) = allJobs s.
Proof.
  unfold importData.
  set (attempt := match Snapshot.userRole data with
                  | Some role => if JsString.truthy role then setUserRole role s
                                 else (Normal tt, s)
                  | None => (Normal tt, s)
                  end).
  assert (P1 : filteredJobs (snd attempt) = filteredJobs s
               /\ allJobs (snd attempt) = allJobs s).
  { unfold attempt. destruct (Snapshot.userRole data) as [role |]; [| now split].
    destruct (JsString.truthy role); [| now split]. apply view_frame_setUserRole. }
  destruct attempt as [[u | e] s1]; cbn [snd] in *; [| exact P1].
  destruct P1 as [<- <-].
  set (s2 := match Snapshot.theme data with
             | Some th => if JsString.truthy th then setTheme th s1 else s1
             | None => s1
             end).
  assert (P2 : filteredJobs s2 = filteredJobs s1 /\ allJobs s2 = allJobs s1).
  { unfold s2. destruct (Snapshot.theme data) as [th |]; [| now split].
    destruct (JsString.truthy th); [| now split]. apply view_frame_setTheme. }
  clearbody s2. destruct P2 as [<- <-].
  destruct (Snapshot.applications data), (Snapshot.userJobs data),
    (Snapshot.savedJobs data), (Snapshot.filters data);
    repeat (progress frame); split; reflexivity.
Qed.

Lemma view_from_collection_run (op : Op) (s : State) :
  view_from_collection s -> view_from_collection (run op s).
Proof.
  intros Hv. destruct op; cbn [run].
  - eapply view_from_collection_ext; [apply view_frame_setUserRole .. | exact Hv].
  - eapply view_from_collection_ext; [apply view_frame_setTheme .. | exact Hv].
  - eapply view_from_collection_ext;
      [| | apply (view_from_collection_applyFilters (set_allJobs jobs s))];
      reflexivity.
  - unfold addJob. cbn [snd].
    eapply view_from_collection_ext; [| | apply view_from_collection_applyFilters];
      reflexivity.
  - unfold updateJob.
    repeat match goal with
           | |- context [match ?x with _ => _ end] => destruct x
           end;
      (eapply view_from_collection_ext;
       [| | apply view_from_collection_applyFilters]; reflexivity).
  - eapply view_from_collection_ext; [| | apply view_from_collection_applyFilters];
      reflexivity.
  - unfold applyForJob. destruct (hasApplied jobId s); [exact Hv |].
    destruct (JsArray.find _ (allJobs s)); [| exact Hv].
    eapply view_from_collection_ext; [| | exact Hv]; now frame.
  - unfold updateApplicationStatus.
    destruct (JsArray.findIndex _ (applications s)) as [i |]; [| exact Hv].
    destruct (applications s !! i); [| exact Hv].
    eapply view_from_collection_ext; [| | exact Hv]; now frame.
  - unfold saveJob. destruct (negb (isJobSaved jobId s)); [| exact Hv].
    eapply view_from_collection_ext; [| | exact Hv]; now frame.
  - unfold unsaveJob. destruct (JsArray.indexOf (savedJobs s) jobId); [| exact Hv].
    eapply view_from_collection_ext; [| | exact Hv]; now frame.
  - unfold setPage. destruct (negb _); [| exact Hv].
    eapply view_from_collection_ext; [| | exact Hv]; reflexivity.
  - eapply view_from_collection_ext; [| | apply view_from_collection_applyFilters];
      reflexivity.
  - eapply view_from_collection_ext; [| | apply view_from_collection_applyFilters];
      reflexivity.
  - apply view_from_collection_nil; reflexivity.
  - eapply view_from_collection_ext; [apply view_frame_importData .. | exact Hv].
  - apply view_from_collection_nil; reflexivity.
Qed.

Lemma reachable_view_from_collection (s : State) :
  reachable s -> view_from_collection s.
Proof.
  induction 1 as [| op s _ IH].
  - apply view_from_collection_nil; reflexivity.
  - now apply view_from_collection_run.
Qed.

Lemma In_take_drop {A : Type} (x : A) (n k : nat) (l : list A) :
  In x (take n (drop k l)) -> In x l.
Proof.
  intros Hx. rewrite <- (take_drop k l). apply in_or_app. right.
  rewrite <- (take_drop n (drop k l)). apply in_or_app. now left.
Qed.

(** In every state a session reaches, the filtered view holds jobs of the
    collection only, none more often than the collection does: so
    [getStats()] never counts more filtered jobs than jobs, and every job
    of a page is a job of the collection. *)
Theorem getStats_view_within_collection (s : State) :
  reachable s ->
  (stat_filteredJobs (getStats s) <= totalJobs (getStats s))%nat
  /\ (forall job, In job (getFilteredJobs s) -> In job (getAllJobs s))
  /\ (forall job, In job (getPaginatedJobs s) -> In job (getAllJobs s)).
Proof.
  intros Hr. destruct (reachable_view_from_collection s Hr) as [f P].
  unfold getStats, getFilteredJobs, getAllJobs, getPaginatedJobs.
  cbn [stat_filteredJobs totalJobs].
  assert (Hin : forall job, In job (filteredJobs s) -> In job (allJobs s)).
  { intros job Hin. apply (Permutation_in _ P) in Hin.
    now apply List.filter_In in Hin. }
  split; [| split].
  - rewrite (Permutation_length P). apply List.filter_length_le.
  - exact Hin.
  - intros job Hj. apply Hin. unfold JsArray.slice in Hj.
    eapply In_take_drop. exact Hj.
Qed.

End ViewAndCollection.

Lemma getStats_after_loading_ten :
  (JobPortalQueries.stat_filteredJobs
     (JobPortalQueries.getStats (on_page_two (H := example_runtime)))
   <= JobPortalQueries.totalJobs
        (JobPortalQueries.getStats (on_page_two (H := example_runtime))))%nat.
Proof.
  refine (proj1 (getStats_view_within_collection (H := example_runtime) _ _)).
  apply JobPortalState.reachable_run, JobPortalState.reachable_run,
    JobPortalState.reachable_new.
Defined.

(** * Further properties of the normalizer *)

Section NormalizedOutput.
Context `{JobAPI.DateRuntime}.
Import JsValue JobAPI.






Lemma normalized_records_all (clock : nat -> Readings) (items : list value) :
  List.Forall (fun raw => ~ dropped raw) items ->
  forall i,
    length (normalized_records clock i items) = length items
    /\ forall k raw,
         items !! k = Some raw ->
         exists j, normalized_records clock i items !! k = Some j
                   /\ normalizeJob (clock (i + k)%nat) raw = Ok (Some j).
Proof.
  induction 1 as [| raw rest Hk Hrest IH]; intros i.
  - split; [reflexivity |]. intros k raw E. destruct k; discriminate E.
  - cbn [normalized_records].
    destruct (normalizeJob_fields (clock i) raw Hk)
      as (j & a & b & c & Eb & En & _).
    rewrite Eb. destruct (IH (S i)) as [El Ek]. split.
    + cbn [length]. now rewrite El.
    + intros [| k] raw' E.
      * injection E as <-. exists j. split; [reflexivity |].
        now rewrite Nat.add_0_r.
      * destruct (Ek k raw' E) as (j' & E1 & E2). exists j'.
        split; [exact E1 |]. now rewrite Nat.add_succ_r.
Qed.

(** A batch with no record that is dropped (no [null] or [undefined]
    record, and none with a numeric field that has no string form) comes
    out whole: [normalizeJobs] returns as many jobs as the batch has
    records, in the order of the batch, the job at each position being what
    [normalizeJob] makes of the record at that position. *)
Theorem normalizeJobs_keeps_every_record (clock : nat -> Readings)
    (items : list value) :
  List.Forall (fun raw => ~ dropped raw) items ->
  exists normalized,
    normalizeJobs clock (Arr items) = Ok normalized
    /\ length normalized = length items
    /\ forall k raw,
         items !! k = Some raw ->
         exists j, normalized !! k = Some j
                   /\ normalizeJob (clock k) raw = Ok (Some j).
Proof.
  intros Hall. cbn [normalizeJobs].
  destruct (map_from_normalizeJob clock items 0) as (out & -> & Eo & _).
  cbn [bind]. eexists. split; [reflexivity |]. rewrite Eo.
  exact (normalized_records_all clock items Hall 0).
Qed.

End NormalizedOutput.


Lemma normalizeJobs_keeps_two_records :
  exists normalized,
    JobAPI.normalizeJobs (H := example_dates) (fun _ => example_readings)
      (JsValue.Arr [record_bad_qualifications; record_zero_salary])
    = JsValue.Ok normalized
    /\ length normalized = 2%nat.
Proof.
  destruct (normalizeJobs_keeps_every_record (H := example_dates)
              (fun _ => example_readings)
              [record_bad_qualifications; record_zero_salary])
    as (normalized & E & El & _).
  - repeat constructor;
      intros [E | [E | [E | [E | E]]]]; try discriminate E; cbn in E;
      inversion E.
  - exists normalized. split; [exact E | exact El].
Defined.

(** * Properties of the client *)

Section Client.
Context `{JobAPI.DateRuntime}.
Import JsValue JobAPI JobAPIClient.

Lemma normalizeJobs_ok (clock : nat -> Readings) (data : value) :
  exists jobs,
    normalizeJobs clock data = Ok jobs
    /\ List.Forall (fun j => source j = "api") jobs.
Proof.
  destruct data; try (exists []; split; [reflexivity | constructor]).
  cbn [normalizeJobs].
  destruct (map_from_normalizeJob clock items 0) as (out & -> & Eo & _).
  cbn [bind]. eexists. split; [reflexivity |]. rewrite Eo. clear Eo out.
  generalize 0%nat. induction items as [| raw rest IH]; intros i;
    cbn [normalized_records]; [constructor |].
  destruct (normalizeJob_body (clock i) raw) as [j | e] eqn:Eb; [| apply IH].
  constructor; [| apply IH].
  destruct (value_is_null raw) as [[-> | ->] | [Hn Hu]]; try discriminate Eb.
  rewrite (normalizeJob_body_eq (clock i) raw Hn Hu) in Eb.
  destruct (parseInt_or_null (field raw "salary_from")); [| discriminate Eb].
  destruct (parseInt_or_null (field raw "salary_to")); [| discriminate Eb].
  destruct (parseInt_or 1 (field raw "number_of_opening")); [| discriminate Eb].
  cbn [bind] in Eb. now injection Eb as <-.
Qed.

Lemma fetched_body (v : Visit) (data : value) :
  response v = Body data ->
  exists jobs,
    fetched v = Some jobs /\ normalizeJobs (record_clock v) data = Ok jobs.
Proof.
  intros E. unfold fetched. rewrite E.
  destruct (normalizeJobs_ok (record_clock v) data) as (jobs & -> & _).
  now exists jobs.
Qed.

(** After a call of [fetchJobs] that went to the server and got a body,
    every call within five minutes of it resolves to the same jobs, those
    normalized from that body, and leaves the client as it is, whatever
    the server would answer by then: no request is made. *)
Theorem fetchJobs_serves_fresh_cache (v1 v2 : Visit) (c : Client)
    (data : value) :
  cache_is_fresh (now_check v1) c = false ->
  response v1 = Body data ->
  now_store v1 <> 0%Z ->
  (now_check v2 - now_store v1 < 5 * 60 * 1000)%Z ->
  exists jobs,
    normalizeJobs (record_clock v1) data = Ok jobs
    /\ fst (fetchJobs v1 c) = Some jobs
    /\ fetchJobs v2 (snd (fetchJobs v1 c)) = (Some jobs, snd (fetchJobs v1 c)).
Proof.
  intros Hstale Hbody Hnz Hlt.
  destruct (fetched_body v1 data Hbody) as (jobs & Ef & En).
  exists jobs. unfold fetchJobs at 1 3 4. rewrite Hstale, Ef. cbn [fst snd].
  split; [exact En |]. split; [reflexivity |].
  unfold fetchJobs, cache_is_fresh. cbn [cache lastFetch].
  destruct (Z.eqb_spec (now_store v1) 0); [contradiction |].
  destruct (Z.ltb_spec (now_check v2 - now_store v1) cacheTimeout) as [L | L];
    [reflexivity |].
  unfold cacheTimeout in L. lia.
Qed.

(** When the request fails, the status is not ok or the body is no JSON
    document, [fetchJobs] leaves the client as it is and resolves to the
    cached jobs, however old, if there are any, and to the mock jobs
    otherwise: the mock jobs are not cached, and the time of the last
    fetch is not moved. *)
Theorem fetchJobs_falls_back_on_failure (v : Visit) (c : Client) :
  (forall data, response v <> Body data) ->
  snd (fetchJobs v c) = c
  /\ fst (fetchJobs v c)
     = match cache c with
       | Some jobs => Some jobs
       | None => getMockJobs (mock_clock v)
       end.
Proof.
  intros Hfail. unfold fetchJobs.
  destruct (cache_is_fresh (now_check v) c) eqn:Ef.
  - cbn [fst snd]. split; [reflexivity |].
    unfold cache_is_fresh in Ef. now destruct (cache c).
  - assert (En : fetched v = None).
    { unfold fetched. destruct (response v) as [| status | | data] eqn:Er;
        try reflexivity.
      now destruct (Hfail data). }
    rewrite En. destruct (cache c); split; reflexivity.
Qed.

Lemma cache_invariant_run (call : Call) (c : Client) :
  (forall jobs, cache c = Some jobs -> List.Forall (fun j => source j = "api") jobs)
  /\ (cache c = None <-> lastFetch c = None) ->
  (forall jobs, cache (run call c) = Some jobs ->
                List.Forall (fun j => source j = "api") jobs)
  /\ (cache (run call c) = None <-> lastFetch (run call c) = None).
Proof.
  intros [Hc Hl]. destruct call as [v |]; cbn [run clearCache cache lastFetch];
    [| split; [discriminate | tauto]].
  unfold fetchJobs. destruct (cache_is_fresh (now_check v) c); [now split |].
  unfold fetched.
  destruct (response v) as [| status | | data];
    try (destruct (cache c) eqn:Ec; cbn [snd]; rewrite ?Ec; now split).
  destruct (normalizeJobs_ok (record_clock v) data) as (l & -> & Hl').
  cbn [snd cache lastFetch]. split; [now intros jobs [= <-] |].
  split; discriminate.
Qed.

(** Whatever the calls of [fetchJobs] and [clearCache] on a new client
    and whatever the server answers, the cache only ever holds jobs that
    [normalizeJobs] made of a response: every cached job has the source
    [api], so no mock job is ever cached; and the cache and the time of the
    last fetch are set together. *)
Theorem cache_never_holds_mock_jobs (calls : list Call) :
  let c := run_all calls new in
  (forall jobs, cache c = Some jobs ->
                List.Forall (fun j => source j = "api") jobs)
  /\ (cache c = None <-> lastFetch c = None).
Proof.
  cbn zeta. unfold run_all.
  assert (Hnew : (forall jobs, cache new = Some jobs ->
                              List.Forall (fun j => source j = "api") jobs)
                 /\ (cache new = None <-> lastFetch new = None))
    by (split; [discriminate | cbn; tauto]).
  revert Hnew. generalize new.
  induction calls as [| call rest IH]; intros c Hc; cbn [fold_left];
    [exact Hc |].
  apply IH. now apply cache_invariant_run.
Qed.

End Client.

Lemma fetchJobs_serves_fresh_cache_example :
  exists jobs,
    fst (JobAPIClient.fetchJobs (H := example_dates)
           (visit_at 1000 (JobAPIClient.Body two_records)) JobAPIClient.new)
    = Some jobs
    /\ fst (JobAPIClient.fetchJobs (H := example_dates)
             (visit_at 2000 JobAPIClient.NetworkError)
             (snd (JobAPIClient.fetchJobs (H := example_dates)
                     (visit_at 1000 (JobAPIClient.Body two_records))
                     JobAPIClient.new)))
       = Some jobs.
Proof.
  destruct (fetchJobs_serves_fresh_cache (H := example_dates)
              (visit_at 1000 (JobAPIClient.Body two_records))
              (visit_at 2000 JobAPIClient.NetworkError)
              JobAPIClient.new two_records)
    as (jobs & _ & E1 & E2).
  - reflexivity.
  - reflexivity.
  - discriminate.
  - reflexivity.
  - exists jobs. split; [exact E1 |]. now rewrite E2.
Defined.

Lemma fetchJobs_falls_back_to_mock_jobs :
  snd (JobAPIClient.fetchJobs (H := example_dates)
         (visit_at 1000 (JobAPIClient.HttpError 503)) JobAPIClient.new)
  = JobAPIClient.new.
Proof.
  refine (proj1 (fetchJobs_falls_back_on_failure (H := example_dates)
                   (visit_at 1000 (JobAPIClient.HttpError 503))
                   JobAPIClient.new _)).
  intros data E. discriminate E.
Defined.

(** * Properties of the interface *)

Section PaginationControls.
Import JobPortalState JobPortalUI.

Lemma pages_between_five (a b : Z) :
  (b - a + 1 = 5)%Z ->
  pages_between a b = [a; a + 1; a + 2; a + 3; a + 4]%Z.
Proof.
  intros E. unfold pages_between. rewrite E.
  change (Z.to_nat 5) with 5%nat. cbn [seq List.map].
  repeat (apply (f_equal2 cons); [lia |]). reflexivity.
Qed.

Ltac decide_tests :=
  repeat match goal with
         | |- context [(?a =? ?b)%Z] => destruct (Z.eqb_spec a b); try lia
         | |- context [(?a <? ?b)%Z] => destruct (Z.ltb_spec a b); try lia
         end.

Ltac buttons :=
  cbn [List.map app]; decide_tests; cbn;
  (split; [once (repeat (constructor; try lia)) |]);
  repeat split; intros; try reflexivity; try lia; try (f_equal; lia).

(** On a page within [1 .. totalPages] of more than one page, the page
    buttons that [renderPaginationControls] writes are in increasing order,
    start with page 1 and end with the last page, are seven at most, have
    exactly one active button, that of the current page, and hold the pages
    next to the current one. (With one page, nothing is written.) *)
Theorem renderPaginationControls_page_buttons (s : State) :
  let info := getPaginationInfo s in
  let cur := PaginationInfo.currentPage info in
  let total := PaginationInfo.totalPages info in
  let pages := page_numbers (renderPaginationControls s) in
  (1 < total)%Z ->
  (1 <= cur <= total)%Z ->
  StronglySorted Z.lt pages
  /\ head pages = Some 1%Z
  /\ last pages = Some total
  /\ active_pages (renderPaginationControls s) = [cur]
  /\ (length pages <= 7)%nat
  /\ (1 < cur -> In (cur - 1) pages)%Z
  /\ (cur < total -> In (cur + 1) pages)%Z.
Proof.
  intros info cur total pages Ht Hc. subst pages.
  unfold renderPaginationControls. fold info. fold cur. fold total.
  destruct (Z.leb_spec total 1) as [L | _]; [lia |].
  unfold pageWindow. fold cur. fold total. unfold maxButtons.
  change (Qfloor (inject_Z 5 / 2)) with 2%Z.
  change (Qceiling (inject_Z 5 / 2) - 1)%Z with 2%Z.
  generalize (negb (PaginationInfo.hasPrevPage info)) as hp.
  generalize (negb (PaginationInfo.hasNextPage info)) as hn.
  clearbody cur total. clear info. intros hn hp.
  destruct (Z.leb_spec total 5) as [L5 | L5].
  - (* every page has its button *)
    assert (Et : (total = 2 \/ total = 3 \/ total = 4 \/ total = 5)%Z) by lia.
    assert (Ec : (cur = 1 \/ cur = 2 \/ cur = 3 \/ cur = 4 \/ cur = 5)%Z) by lia.
    destruct Et as [-> | [-> | [-> | ->]]];
      destruct Ec as [-> | [-> | [-> | [-> | ->]]]]; try lia;
      vm_compute;
      (split; [once (repeat constructor) | ]);
      repeat split; intros; try discriminate; try lia.
  - destruct (Z.leb_spec cur 2) as [L2 | L2].
    + (* the first five pages, then the last one *)
      rewrite (pages_between_five 1 5) by lia.
      unfold page_numbers, active_pages. buttons.
    + destruct (Z.leb_spec total (cur + 2)) as [L3 | L3].
      * (* the first page, then the last five *)
        rewrite (pages_between_five (total - 5 + 1) total) by lia.
        unfold page_numbers, active_pages. buttons.
      * (* the first page, two pages on each side, the last page *)
        rewrite (pages_between_five (cur - 2) (cur + 2)) by lia.
        unfold page_numbers, active_pages. buttons.
Qed.

End PaginationControls.

Lemma renderPaginationControls_on_page_two :
  active_pages
    (JobPortalUI.renderPaginationControls (on_page_two (H := example_runtime)))
  = [2%Z].
Proof.
  refine (proj1 (proj2 (proj2 (proj2
            (renderPaginationControls_page_buttons
               (on_page_two (H := example_runtime)) _ _))))).
  - vm_compute. reflexivity.
  - vm_compute. split; discriminate.
Defined.

Section SaveToggle.
Context `{Runtime}.
Import JobPortalState JobPortalUI.

Lemma savedJobs_saveJob (x : string) (s : State) :
  savedJobs (saveJob x s)
  = if isJobSaved x s then savedJobs s else JsArray.push (savedJobs s) x.
Proof.
  unfold saveJob. destruct (isJobSaved x s); [reflexivity |].
  cbn [negb savedJobs emit set_events]. now rewrite savedJobs_saveToStorage.
Qed.

Lemma savedJobs_unsaveJob (x : string) (s : State) :
  savedJobs (unsaveJob x s)
  = match JsArray.indexOf (savedJobs s) x with
    | Some i => delete i (savedJobs s)
    | None => savedJobs s
    end.
Proof.
  unfold unsaveJob. destruct (JsArray.indexOf (savedJobs s) x); [| reflexivity].
  cbn [savedJobs emit set_events]. now rewrite savedJobs_saveToStorage.
Qed.

Lemma includes_ext (l l' : list string) (y : string) :
  (In y l' <-> In y l) -> JsArray.includes l' y = JsArray.includes l y.
Proof.
  intros Hiff.
  destruct (JsArray.includes l y) eqn:E1, (JsArray.includes l' y) eqn:E2;
    try reflexivity.
  - apply includes_In, Hiff, includes_In in E1. congruence.
  - apply includes_In, Hiff, includes_In in E2. congruence.
Qed.

(** [handleSaveToggle(jobId)] does nothing for a recruiter. For a job
    seeker whose saved list has no duplicates it flips the job between
    saved and not saved, leaves every other job as it was, keeps the list
    without duplicates and notifies once, of the save or of the unsave. *)
Theorem handleSaveToggle_flips_saved (s : State) (x : string) :
  NoDup (savedJobs s) ->
  if getUserRole s =? "job_seeker" then
    isJobSaved x (handleSaveToggle x s) = negb (isJobSaved x s)
    /\ (forall y, y <> x ->
                  isJobSaved y (handleSaveToggle x s) = isJobSaved y s)
    /\ NoDup (savedJobs (handleSaveToggle x s))
    /\ emitted s (handleSaveToggle x s)
       = [if isJobSaved x s then jobUnsaved x else jobSaved x]
  else handleSaveToggle x s = s.
Proof.
  intros Hnd. unfold handleSaveToggle.
  destruct (getUserRole s =? "job_seeker"); cbn [negb]; [| reflexivity].
  destruct (isJobSaved x s) eqn:Es.
  - (* saved: unsave *)
    unfold isJobSaved in *. rewrite savedJobs_unsaveJob.
    pose proof Es as Ei. rewrite indexOf_includes in Ei.
    destruct (JsArray.indexOf (savedJobs s) x) as [i |] eqn:Ex; [| discriminate].
    destruct (In_delete_indexOf _ x x i Ex) as (_ & _ & I3).
    destruct (I3 Hnd) as [Hd Hx].
    split; [| split; [| split]].
    + destruct (JsArray.includes (delete i (savedJobs s)) x) eqn:E;
        [| reflexivity].
      now apply includes_In in E.
    + intros y Hy. apply includes_ext.
      destruct (In_delete_indexOf _ x y i Ex) as (I1 & I2 & _).
      split; [exact I1 | now apply I2].
    + exact Hd.
    + apply emitted_one. unfold unsaveJob. rewrite Ex.
      cbn [emit events set_events]. now rewrite events_saveToStorage.
  - (* not saved: save *)
    pose proof (savedJobs_saveJob x s) as E. rewrite Es in E.
    unfold isJobSaved in *. rewrite E. unfold JsArray.push.
    split; [| split; [| split]].
    + apply includes_In, in_or_app. right. now left.
    + intros y Hy. apply includes_ext. rewrite in_app_iff. cbn.
      intuition congruence.
    + apply NoDup_app. split; [exact Hnd |]. split; [| apply NoDup_singleton].
      intros y Hy Hx'. apply list_elem_of_In in Hy, Hx'.
      destruct Hx' as [<- | []]. apply includes_In in Hy. congruence.
    + apply emitted_one. unfold saveJob, isJobSaved. rewrite Es.
      cbn [negb emit events set_events]. now rewrite events_saveToStorage.
Qed.

End SaveToggle.

Lemma handleSaveToggle_first_visit :
  NoDup (JobPortalState.savedJobs (JobPortalState.new Storage.empty))
  /\ JobPortalState.isJobSaved "j1"
       (JobPortalUI.handleSaveToggle (H := example_runtime) "j1"
          (JobPortalState.new Storage.empty))
     = true.
Proof.
  assert (Hnd : NoDup (JobPortalState.savedJobs (JobPortalState.new Storage.empty)))
    by apply NoDup_nil_2.
  split; [exact Hnd |].
  exact (proj1 (handleSaveToggle_flips_saved (H := example_runtime)
                  (JobPortalState.new Storage.empty) "j1" Hnd)).
Defined.

(** * Starting over *)

Section StartingOver.
Context `{Runtime}.
Import JobPortalState.

(** [clearAllData()] brings the store back to a first visit, whatever it
    held: the role is job seeker, the theme light, the filters the default
    ones, the page 1, and there are no applications, user jobs, saved jobs,
    loaded jobs or view; storage is empty, one notification is emitted,
    and a reload afterwards shows the same store. *)
Theorem clearAllData_is_first_visit (s : State) :
  same_store (new Storage.empty) (clearAllData s)
  /\ getUserRole (clearAllData s) = "job_seeker"
  /\ getTheme (clearAllData s) = "light"
  /\ getFilters (clearAllData s) = defaultFilters
  /\ getApplications (clearAllData s) = []
  /\ getUserJobs (clearAllData s) = []
  /\ savedJobs (clearAllData s) = []
  /\ getAllJobs (clearAllData s) = []
  /\ getFilteredJobs (clearAllData s) = []
  /\ localStorage (clearAllData s) = Storage.empty
  /\ emitted s (clearAllData s) = [dataCleared]
  /\ same_store (clearAllData s) (run Reload (clearAllData s)).
Proof.
  unfold same_store, emitted. cbn. rewrite drop_app_length.
  repeat split; reflexivity.
Qed.

End StartingOver.

Section Refresh.
Context `{JobAPI.DateRuntime}.
Import JsValue JobAPI JobAPIClient.

(** After [clearCache()], the next [fetchJobs()] goes to the server
    whatever was cached and however recently: a body is normalized,
    returned and cached; when the request fails, the jobs that were cached
    before are gone and the call resolves to the mock jobs, the client
    staying without a cache. *)
Theorem fetchJobs_after_clearCache (v : Visit) (c : Client) :
  match response v with
  | Body data =>
      exists jobs,
        normalizeJobs (record_clock v) data = Ok jobs
        /\ fetchJobs v (clearCache c)
           = (Some jobs,
              {| cache := Some jobs; lastFetch := Some (now_store v) |})
  | NetworkError | HttpError _ | BadBody =>
      fetchJobs v (clearCache c) = (getMockJobs (mock_clock v), new)
  end.
Proof.
  unfold fetchJobs, clearCache, cache_is_fresh. cbn [cache lastFetch].
  destruct (response v) as [| status | | data] eqn:Er;
    try (unfold fetched; rewrite Er; reflexivity).
  destruct (fetched_body v data Er) as (jobs & -> & En).
  now exists jobs.
Qed.

End Refresh.

(** * The backup round trip *)

Section RoundTrip.
Context `{Runtime}.
Import JobPortalState.

Ltac imported :=
  repeat (progress
            (cbn [emit userRole theme applications userJobs savedJobs filters
                    allJobs filteredJobs currentPage events set_events
                    set_userRole set_theme set_applications set_userJobs
                    set_savedJobs set_filters fst snd];
             rewrite ?userRole_saveToStorage, ?theme_saveToStorage,
               ?applications_saveToStorage, ?userJobs_saveToStorage,
               ?savedJobs_saveToStorage, ?filters_saveToStorage,
               ?allJobs_saveToStorage, ?filteredJobs_saveToStorage,
               ?currentPage_saveToStorage)).

(** Importing a backup that carries a valid role and theme and the four
    other fields sets the six fields and leaves the jobs, the view and the
    page. *)
Lemma importData_complete_backup (t : State) (role th now : string)
    (apps : list Application.t) (ujobs : list Job.t) (saved : list string)
    (f : Filters.t) :
  role_ok role -> theme_ok th ->
  let backup :=
    {| Snapshot.userRole := Some role; Snapshot.applications := Some apps;
       Snapshot.userJobs := Some ujobs; Snapshot.savedJobs := Some saved;
       Snapshot.theme := Some th;
       Snapshot.filters := Some (Filters.to_partial f);
       Snapshot.exportedAt := Some now |} in
  let t' := snd (importData backup t) in
  fst (importData backup t) = true
  /\ userRole t' = role /\ theme t' = th /\ applications t' = apps
  /\ userJobs t' = ujobs /\ savedJobs t' = saved /\ filters t' = f
  /\ allJobs t' = allJobs t /\ filteredJobs t' = filteredJobs t
  /\ currentPage t' = currentPage t.
Proof.
  intros Hrole Hth backup t'. subst t' backup. unfold importData.
  cbn [Snapshot.userRole Snapshot.theme Snapshot.applications Snapshot.userJobs
         Snapshot.savedJobs Snapshot.filters].
  rewrite (role_ok_truthy _ Hrole). unfold setUserRole.
  rewrite (proj2 (role_ok_test _) Hrole).
  assert (Ht : JsString.truthy th = true) by (destruct Hth as [-> | ->]; reflexivity).
  rewrite Ht. unfold setTheme. rewrite (proj2 (theme_ok_test _) Hth).
  rewrite merge_default_to_partial.
  imported. repeat split; reflexivity.
Qed.

(** C6. In every state [s] that a session can reach, what [exportData]
    returns carries the role, the theme, the applications, the user jobs,
    the saved jobs and the filters of the store. Importing it, into any
    store, succeeds ([importData] returns [true]) and gives that store
    these six fields as they are in [s], the lists being the same and so
    with no record duplicated; the jobs, the view and the page of the
    importing store stay. Importing it into the store it came from hence
    leaves that store as it was. *)
Theorem importData_exportData_restores (s t : State) (now : string) :
  reachable s ->
  let backup := exportData now s in
  let t' := snd (importData backup t) in
  (* the backup carries the six fields *)
  Snapshot.userRole backup = Some (getUserRole s)
  /\ Snapshot.theme backup = Some (getTheme s)
  /\ Snapshot.applications backup = Some (getApplications s)
  /\ Snapshot.userJobs backup = Some (getUserJobs s)
  /\ Snapshot.savedJobs backup = Some (savedJobs s)
  /\ Snapshot.filters backup = Some (Filters.to_partial (getFilters s))
  /\ (forall f, Filters.merge f (Filters.to_partial (getFilters s)) = getFilters s)
  (* importing it succeeds and restores them *)
  /\ fst (importData backup t) = true
  /\ getUserRole t' = getUserRole s
  /\ getTheme t' = getTheme s
  /\ getApplications t' = getApplications s
  /\ getUserJobs t' = getUserJobs s
  /\ savedJobs t' = savedJobs s
  /\ getFilters t' = getFilters s
  (* the jobs, the view and the page of the importing store stay *)
  /\ getAllJobs t' = getAllJobs t
  /\ getFilteredJobs t' = getFilteredJobs t
  /\ currentPage t' = currentPage t
  (* into the store it came from: nothing changes *)
  /\ same_store s (snd (importData backup s)).
Proof.
  intros Hr backup t'.
  pose proof (reachable_role_invariant s Hr) as [Hrole _].
  pose proof (reachable_theme_invariant s Hr) as [Hth _].
  unfold getUserRole, getTheme, getApplications, getUserJobs, getFilters,
    getAllJobs, getFilteredJobs.
  do 6 (split; [reflexivity |]).
  split; [intros f; now destruct (filters s) |].
  destruct (importData_complete_backup t (userRole s) (theme s) now
              (applications s) (userJobs s) (savedJobs s) (filters s) Hrole Hth)
    as (E0 & E1 & E2 & E3 & E4 & E5 & E6 & E7 & E8 & E9).
  destruct (importData_complete_backup s (userRole s) (theme s) now
              (applications s) (userJobs s) (savedJobs s) (filters s) Hrole Hth)
    as (_ & S1 & S2 & S3 & S4 & S5 & S6 & S7 & S8 & S9).
  repeat (split; [assumption |]).
  unfold same_store. repeat split; assumption.
Qed.

End RoundTrip.

(** The backup of the store with data, imported on a first visit elsewhere,
    brings the application, the saved job and the theme. *)
Lemma importData_exportData_other_store :
  fst (JobPortalState.importData (H := example_runtime)
         (JobPortalState.exportData "2026-01-01T00:00:00.000Z" store_with_data)
         (JobPortalState.new Storage.empty)) = true
  /\ JobPortalState.savedJobs
       (snd (JobPortalState.importData (H := example_runtime)
               (JobPortalState.exportData "2026-01-01T00:00:00.000Z"
                  store_with_data)
               (JobPortalState.new Storage.empty)))
     = ["j1"]
  /\ JobPortalState.getTheme
       (snd (JobPortalState.importData (H := example_runtime)
               (JobPortalState.exportData "2026-01-01T00:00:00.000Z"
                  store_with_data)
               (JobPortalState.new Storage.empty)))
     = "dark"
  /\ List.map Application.jobId
       (JobPortalState.getApplications
          (snd (JobPortalState.importData (H := example_runtime)
                  (JobPortalState.exportData "2026-01-01T00:00:00.000Z"
                     store_with_data)
                  (JobPortalState.new Storage.empty))))
     = ["j1"].
Proof.
  assert (Hr : JobPortalState.reachable (H := example_runtime) store_with_data)
    by (unfold store_with_data;
        repeat apply JobPortalState.reachable_run;
        apply JobPortalState.reachable_new).
  destruct (importData_exportData_restores (H := example_runtime) store_with_data
              (JobPortalState.new Storage.empty) "2026-01-01T00:00:00.000Z" Hr)
    as (_ & _ & _ & _ & _ & _ & _ & E0 & _ & Eth & Eapp & _ & Esaved & _).
  split; [exact E0 |]. split; [rewrite Esaved; reflexivity |].
  split; [rewrite Eth; reflexivity |]. rewrite Eapp. reflexivity.
Defined.
